(** * WeensyOS kernel (Assign4/kernel.c): physical page ledger, address
      translation, process lifecycle, dispatcher and scheduler.

    The development is a shallow embedding of [src/Assign4/kernel.c].
    Kernel state (the [processes] table, [current], the [pageinfo] ledger
    and physical memory) is threaded explicitly through a small
    state-and-fault monad; an access outside a C array is a fault.

    Of the console routines the colour table of [memshow_physical] is
    modelled; [console_printf], [memshow_virtual] and
    [memshow_virtual_animate] only draw and are left out.  Of boot,
    [pageinfo_init] is modelled over the parameters the hardware layer
    supplies; [kernel] and [process_setup] depend on the hardware and
    loader code that is not in the sources and are represented by the
    concrete states of the section "A concrete machine".

    [fork_process] increments [pageinfo[vam.pn].refcount] without testing
    the index (kernel.c:345).  [fork_page] keeps the fault of the monad
    there; [fork_page_unchecked] follows the machine, on which a write
    outside [pageinfo[]] changes no entry of the ledger, and is the reading
    under which the whole of fork is proved. *)

From Stdlib Require Import ZArith List Lia Bool.
From stdpp Require Import base list.

Local Open Scope Z_scope.

(** ** Machine integers *)

Definition u32 (z : Z) : Z := z mod 2 ^ 32.
Definition int8 (z : Z) : Z := (z + 128) mod 256 - 128.

(** ** x86 paging constants

    [kernel.h] and [x86.h] are not part of the sources.  The values below
    are the architectural ones; kernel.c itself relies on them
    ([addr & 0xFFF] in [physical_page_alloc], [pn << 12] in
    [memshow_physical]). *)

Definition PAGESIZE : Z := 4096.
Definition PAGESHIFT : Z := 12.
Definition PAGETABLE_NENTRIES : Z := 1024.
Definition PTE_P : Z := 1.
Definition PTE_W : Z := 2.
Definition PTE_U : Z := 4.
Definition PFERR_USER : Z := 4.

Definition NULL : Z := 0.

(** The layout diagram at the top of kernel.c puts [PROC_START_ADDR] at
    0x100000. *)
Definition PROC_START_ADDR : Z := 0x100000.

Definition PAGENUMBER (ptr : Z) : Z := Z.shiftr ptr PAGESHIFT.
Definition PAGEADDRESS (pn : Z) : Z := u32 (Z.shiftl pn PAGESHIFT).
Definition PTE_ADDR (pe : Z) : Z := Z.land pe 0xFFFFF000.
Definition PTE_FLAGS (pe : Z) : Z := Z.land pe 0xFFF.
Definition PAGEOFFSET (va : Z) : Z := Z.land va 0xFFF.
Definition L1PAGEINDEX (va : Z) : Z := Z.shiftr va 22.
Definition L2PAGEINDEX (va : Z) : Z := Z.land (Z.shiftr va PAGESHIFT) 0x3FF.

(** The sizes that [kernel.h] fixes are parameters of the development. *)
Class KernelConfig : Type := {
  NPROC : Z;              (* number of process descriptors *)
  NPAGES : Z;             (* PAGENUMBER(MEMSIZE_PHYSICAL) *)
  MEMSIZE_VIRTUAL : Z;    (* size of a process's virtual address space *)
  kernel_pagetable : Z    (* physical address of the kernel's level-1 table *)
}.

Definition MEMSIZE_PHYSICAL `{KernelConfig} : Z := PAGEADDRESS NPAGES.

(** ** Data model *)

Inductive procstate : Type := P_FREE | P_RUNNABLE | P_BLOCKED | P_BROKEN.

Definition procstate_eqb (a b : procstate) : bool :=
  match a, b with
  | P_FREE, P_FREE | P_RUNNABLE, P_RUNNABLE
  | P_BLOCKED, P_BLOCKED | P_BROKEN, P_BROKEN => true
  | _, _ => false
  end.

(** Trap numbers; the numeric values live in the missing headers, the
    dispatcher only compares them. *)
Inductive trapno : Type :=
| INT_SYS_PANIC | INT_SYS_GETPID | INT_SYS_YIELD | INT_SYS_PAGE_ALLOC
| INT_SYS_FORK | INT_SYS_EXIT | INT_TIMER | INT_PAGEFAULT
| INT_OTHER (n : Z).

Record x86_registers : Type := mk_regs {
  reg_eax : Z;
  reg_esp : Z;
  reg_eip : Z;
  reg_intno : trapno;
  reg_err : Z;
  reg_rest : list Z       (* the registers kernel.c never names *)
}.

Definition set_eax (v : Z) (r : x86_registers) : x86_registers :=
  mk_regs (u32 v) (reg_esp r) (reg_eip r) (reg_intno r) (reg_err r) (reg_rest r).

Record proc : Type := mk_proc {
  p_pid : Z;
  p_registers : x86_registers;
  p_state : procstate;
  p_pagetable : Z
}.

Definition set_p_state (s : procstate) (p : proc) : proc :=
  mk_proc (p_pid p) (p_registers p) s (p_pagetable p).
Definition set_p_pagetable (pt : Z) (p : proc) : proc :=
  mk_proc (p_pid p) (p_registers p) (p_state p) pt.
Definition set_p_pid (pid : Z) (p : proc) : proc :=
  mk_proc pid (p_registers p) (p_state p) (p_pagetable p).
Definition set_p_registers (r : x86_registers) (p : proc) : proc :=
  mk_proc (p_pid p) r (p_state p) (p_pagetable p).

Record physical_pageinfo : Type := mk_pageinfo {
  owner : Z;      (* int8_t *)
  refcount : Z    (* int8_t *)
}.

Definition PO_FREE : Z := 0.
Definition PO_RESERVED : Z := -1.
Definition PO_KERNEL : Z := -2.

(** Physical memory, one byte per physical address.  The kernel runs on
    the identity mapping, so its pointers are physical addresses. *)
Definition memory : Type := Z -> Z.

Definition byte_of (v k : Z) : Z := Z.land (Z.shiftr v (8 * k)) 255.

Definition load32 (m : memory) (a : Z) : Z :=
  m a + m (a + 1) * 2 ^ 8 + m (a + 2) * 2 ^ 16 + m (a + 3) * 2 ^ 24.

Definition store32 (m : memory) (a v : Z) : memory :=
  fun x => if (a <=? x) && (x <? a + 4) then byte_of v (x - a) else m x.

Definition memset (m : memory) (dst c n : Z) : memory :=
  fun x => if (dst <=? x) && (x <? dst + n) then Z.land c 255 else m x.

Definition memcpy (m : memory) (dst src n : Z) : memory :=
  fun x => if (dst <=? x) && (x <? dst + n) then m (src + (x - dst)) else m x.

Record kstate : Type := mk_kstate {
  processes : list proc;
  current : Z;                      (* index of [current] in [processes] *)
  pageinfo : list physical_pageinfo;
  ticks : Z;
  mem : memory
}.

Definition set_processes (ps : list proc) (st : kstate) : kstate :=
  mk_kstate ps (current st) (pageinfo st) (ticks st) (mem st).
Definition set_current (c : Z) (st : kstate) : kstate :=
  mk_kstate (processes st) c (pageinfo st) (ticks st) (mem st).
Definition set_pageinfo (pi : list physical_pageinfo) (st : kstate) : kstate :=
  mk_kstate (processes st) (current st) pi (ticks st) (mem st).
Definition set_ticks (t : Z) (st : kstate) : kstate :=
  mk_kstate (processes st) (current st) (pageinfo st) t (mem st).
Definition set_mem (m : memory) (st : kstate) : kstate :=
  mk_kstate (processes st) (current st) (pageinfo st) (ticks st) m.

(** ** The kernel monad: state plus faults *)

Inductive array_name : Type := A_pageinfo | A_processes.

Inductive fault : Type :=
| OutOfBounds (a : array_name) (i : Z)   (* index outside a C array *)
| AssertionFailed
| Panic.

Inductive result (A : Type) : Type :=
| Ok (a : A)
| Fault (f : fault).
Arguments Ok {A} a.
Arguments Fault {A} f.

Definition kernel (A : Type) : Type := kstate -> result (A * kstate).

Definition ret {A} (a : A) : kernel A := fun st => Ok (a, st).

Definition bind {A B} (m : kernel A) (k : A -> kernel B) : kernel B :=
  fun st => match m st with
            | Ok (a, st') => k a st'
            | Fault f => Fault f
            end.

Definition raise {A} (f : fault) : kernel A := fun _ => Fault f.

Definition gets {A} (f : kstate -> A) : kernel A := fun st => Ok (f st, st).

Definition modify (f : kstate -> kstate) : kernel unit :=
  fun st => Ok (tt, f st).

Declare Scope kernel_scope.
Delimit Scope kernel_scope with kernel.
Notation "x <- m ;; k" := (bind m (fun x => k))
  (at level 100, m at next level, right associativity) : kernel_scope.
Notation "m ;;; k" := (bind m (fun _ => k))
  (at level 100, right associativity) : kernel_scope.
Local Open Scope kernel_scope.

Definition assert (b : bool) : kernel unit :=
  if b then ret tt else raise AssertionFailed.

(** Loops.  [Continue] goes to the next iteration, [Break r] leaves the
    enclosing function with [r]. *)
Inductive flow (R : Type) : Type :=
| Continue
| Break (r : R).
Arguments Continue {R}.
Arguments Break {R} r.

(** [for (i = lo; ...; i += step)] run for [n] iterations. *)
Fixpoint for_loop {R} (n : nat) (i step : Z) (body : Z -> kernel (flow R))
  : kernel (option R) :=
  match n with
  | O => ret None
  | S n' =>
      f <- body i ;;
      match f with
      | Continue => for_loop n' (i + step) step body
      | Break r => ret (Some r)
      end
  end.

(** Number of iterations of [for (i = lo; i < hi; i += step)]. *)
Definition trip_count (lo hi step : Z) : nat :=
  Z.to_nat ((hi - lo + step - 1) / step).

Definition for_range {R} (lo hi : Z) (body : Z -> kernel (flow R))
  : kernel (option R) :=
  for_loop (trip_count lo hi 1) lo 1 body.

(** A loop that carries a local accumulator and never leaves early. *)
Fixpoint for_acc {A} (n : nat) (i : Z) (acc : A) (body : Z -> A -> kernel A)
  : kernel A :=
  match n with
  | O => ret acc
  | S n' => acc' <- body i acc ;; for_acc n' (i + 1) acc' body
  end.

(** ** Array accesses *)

Section WithConfig.
Context `{KernelConfig}.

Definition in_pageinfo (i : Z) : bool := (0 <=? i) && (i <? NPAGES).
Definition in_processes (i : Z) : bool := (0 <=? i) && (i <? NPROC).

(** [pageinfo[i]] *)
Definition pageinfo_get (i : Z) : kernel physical_pageinfo := fun st =>
  if in_pageinfo i then
    match pageinfo st !! Z.to_nat i with
    | Some e => Ok (e, st)
    | None => Fault (OutOfBounds A_pageinfo i)
    end
  else Fault (OutOfBounds A_pageinfo i).

(** [pageinfo[i].field = ...]: read-modify-write of one ledger entry *)
Definition pageinfo_update (i : Z) (f : physical_pageinfo -> physical_pageinfo)
  : kernel unit :=
  e <- pageinfo_get i ;;
  modify (fun st => set_pageinfo (<[Z.to_nat i := f e]> (pageinfo st)) st).

Definition set_owner (o : Z) (e : physical_pageinfo) : physical_pageinfo :=
  mk_pageinfo o (refcount e).
Definition set_refcount (r : Z) (e : physical_pageinfo) : physical_pageinfo :=
  mk_pageinfo (owner e) r.

(** [processes[i]] *)
Definition proc_get (i : Z) : kernel proc := fun st =>
  if in_processes i then
    match processes st !! Z.to_nat i with
    | Some p => Ok (p, st)
    | None => Fault (OutOfBounds A_processes i)
    end
  else Fault (OutOfBounds A_processes i).

(** [processes[i] = f(processes[i])] *)
Definition proc_update (i : Z) (f : proc -> proc) : kernel unit :=
  p <- proc_get i ;;
  modify (fun st => set_processes (<[Z.to_nat i := f p]> (processes st)) st).

(** ** Address translation layer *)

Record vamapping : Type := mk_vam {
  vam_pn : Z;      (* physical page number; negative if unmapped *)
  vam_pa : Z;      (* physical address *)
  vam_perm : Z     (* permissions; 0 if unmapped *)
}.

(** Modelled from the spec: the result of [virtual_memory_lookup] for an
    address that is not mapped, "a sentinel unmapped result".  kernel.c
    recognises it by [vam.pn < 0] ([memshow_virtual], kernel.c:629) and by
    [vam.perm] being 0 ([fork_process], kernel.c:326): pn = -1,
    pa = (uintptr_t) -1, perm = 0. *)
Definition vam_unmapped : vamapping := mk_vam (-1) (u32 (-1)) 0.

(** Modelled from the spec: [virtual_memory_lookup] lives in the missing
    k-hardware.c.  "lookup(root, virtual_addr) -> {physical_addr, ppn,
    permission}: walks first-level then second-level tables; returns a
    sentinel unmapped result if either level is absent." *)
Definition virtual_memory_lookup (m : memory) (pagetable va : Z) : vamapping :=
  let pe1 := load32 m (pagetable + 4 * L1PAGEINDEX va) in
  if Z.land pe1 PTE_P =? 0 then vam_unmapped
  else
    let pe := load32 m (PTE_ADDR pe1 + 4 * L2PAGEINDEX va) in
    if Z.land pe PTE_P =? 0 then vam_unmapped
    else mk_vam (PAGENUMBER pe) (PTE_ADDR pe + PAGEOFFSET va) (PTE_FLAGS pe).

(** Modelled from the spec: one page-granular entry of
    [virtual_memory_map].  The entry is [pa | perm] when [perm] has the
    present bit and the absent entry [perm] otherwise ("each entry either
    absent or {physical_page, permission_bits}"); a first-level slot that
    is empty cannot take an entry, since map allocates no table pages. *)
Definition map_one (pagetable va pa perm : Z) : kernel unit := fun st =>
  let pe1 := load32 (mem st) (pagetable + 4 * L1PAGEINDEX va) in
  if Z.land pe1 PTE_P =? 0 then Fault AssertionFailed
  else
    let entry := if Z.land perm PTE_P =? 0 then perm else Z.lor pa perm in
    Ok (tt, set_mem (store32 (mem st) (PTE_ADDR pe1 + 4 * L2PAGEINDEX va) entry) st).

(** Modelled from the spec: the entries of [n] consecutive pages. *)
Fixpoint map_pages (n : nat) (pagetable va pa perm : Z) : kernel unit :=
  match n with
  | O => ret tt
  | S n' =>
      map_one pagetable va pa perm ;;;
      map_pages n' pagetable (u32 (va + PAGESIZE)) (u32 (pa + PAGESIZE)) perm
  end.

(** Modelled from the spec: [virtual_memory_map] lives in the missing
    k-hardware.c.  "map(root, virtual_addr, physical_addr, size,
    permission): installs one or more page-granular entries; size must be
    a multiple of the page size; ... mapping creation here does not itself
    touch refcounts." *)
Definition virtual_memory_map (pagetable va pa sz perm : Z) : kernel unit :=
  assert (sz mod PAGESIZE =? 0) ;;;
  map_pages (Z.to_nat (sz / PAGESIZE)) pagetable va pa perm.

(** ** Physical page ledger *)

(** [find_free_process_slot], kernel.c:125 *)
Definition find_free_process_slot : kernel Z :=
  r <- for_range 1 NPROC (fun i =>
         p <- proc_get i ;;
         if procstate_eqb (p_state p) P_FREE then ret (Break i)
         else ret Continue) ;;
  ret (match r with Some i => i | None => -1 end).

(** [find_free_physical_page], kernel.c:156 *)
Definition find_free_physical_page : kernel Z :=
  r <- for_range 0 NPAGES (fun i =>
         e <- pageinfo_get i ;;
         if (owner e =? 0) && (refcount e =? 0) then ret (Break (PAGEADDRESS i))
         else ret Continue) ;;
  ret (match r with Some a => a | None => NULL end).

(** [physical_page_alloc], kernel.c:227.  [addr] is a [uintptr_t], [owner]
    an [int8_t]; the three tests are short-circuit, in source order. *)
Definition physical_page_alloc (addr : Z) (own : Z) : kernel Z :=
  if negb (Z.land addr 0xFFF =? 0) then ret (-1)
  else if MEMSIZE_PHYSICAL <=? addr then ret (-1)
  else
    e <- pageinfo_get (PAGENUMBER addr) ;;
    if negb (refcount e =? 0) then ret (-1)
    else
      pageinfo_update (PAGENUMBER addr) (set_refcount 1) ;;;
      pageinfo_update (PAGENUMBER addr) (set_owner own) ;;;
      ret 0.

(** [alloc_free_page], kernel.c:139 *)
Definition alloc_free_page (own : Z) : kernel Z :=
  pg_addr <- find_free_physical_page ;;
  if pg_addr =? NULL then ret NULL
  else
    r <- physical_page_alloc pg_addr own ;;
    if r =? -1 then ret NULL
    else ret pg_addr.


(** [copy_pagetable], kernel.c:169 *)
Definition copy_pagetable (pagetable own : Z) : kernel Z :=
  pgtl1 <- alloc_free_page own ;;
  if pgtl1 =? NULL then ret NULL
  else
    pgtl2 <- alloc_free_page own ;;
    if pgtl2 =? NULL then ret NULL
    else
      modify (fun st => set_mem (memset (mem st) pgtl1 0 (PAGETABLE_NENTRIES * 4)) st) ;;;
      modify (fun st => set_mem (memset (mem st) pgtl2 0 (PAGETABLE_NENTRIES * 4)) st) ;;;
      modify (fun st => set_mem
        (store32 (mem st) pgtl1 (Z.lor pgtl2 (Z.lor (Z.lor PTE_P PTE_W) PTE_U))) st) ;;;
      kptl20 <- gets (fun st => PTE_ADDR (load32 (mem st) pagetable)) ;;
      let proc_strt_off := PAGENUMBER PROC_START_ADDR * 4 in
      modify (fun st => set_mem (memcpy (mem st) pgtl2 kptl20 proc_strt_off) st) ;;;
      ret pgtl1.

(** [find_page_owner], kernel.c:242 *)
Definition find_page_owner (pagenum : Z) : kernel Z :=
  r <- for_range 1 NPROC (fun pid =>
         p <- proc_get pid ;;
         if procstate_eqb (p_state p) P_RUNNABLE then
           found <- for_range 0 NPAGES (fun k =>
                      vam <- gets (fun st =>
                               virtual_memory_lookup (mem st) (p_pagetable p) (PAGEADDRESS k)) ;;
                      if vam_pa vam =? PAGEADDRESS pagenum then ret (Break pid)
                      else ret Continue) ;;
           ret (match found with Some q => Break q | None => Continue end)
         else ret Continue) ;;
  ret (match r with Some pid => pid | None => -1 end).

(** The body of the loop of [free_current_process], kernel.c:272-297, for
    page [i] and the descriptor in slot [p]. *)
Definition free_page_entry (p i : Z) : kernel (flow unit) :=
  e <- pageinfo_get i ;;
  pr <- proc_get p ;;
  if owner e =? p_pid pr then
    let rc := refcount e in
    (if 1 <? rc then
       pageinfo_update i (fun e => set_refcount (int8 (refcount e - 1)) e) ;;;
       new_owner <- find_page_owner i ;;
       if negb (new_owner =? -1) then
         o <- find_page_owner i ;;
         pageinfo_update i (set_owner (int8 o))
       else
         pageinfo_update i (set_owner PO_FREE) ;;;
         pageinfo_update i (set_refcount 0)
     else if rc =? 1 then
       pageinfo_update i (fun e => set_refcount (int8 (refcount e - 1)) e) ;;;
       pageinfo_update i (set_owner PO_FREE)
     else
       pageinfo_update i (set_owner PO_FREE)) ;;;
    ret Continue
  else ret Continue.

(** [free_current_process], kernel.c:267.  [p] is the slot of the
    descriptor the C pointer refers to. *)
Definition free_current_process (p : Z) : kernel unit :=
  proc_update p (set_p_state P_BLOCKED) ;;;
  for_range 0 NPAGES (free_page_entry p) ;;;
  proc_update p (set_p_state P_FREE).

(** One iteration of the copy loop of [fork_process], kernel.c:323-347.
    [Break (-1)] is the early [return -1]. *)
Definition fork_page (chld_pid va : Z) : kernel (flow Z) :=
  cur <- gets current ;;
  curp <- proc_get cur ;;
  vam <- gets (fun st => virtual_memory_lookup (mem st) (p_pagetable curp) va) ;;
  if negb (vam_perm vam =? 0) && negb (Z.land (vam_perm vam) PTE_W =? 0) then
    chld_page <- alloc_free_page (int8 chld_pid) ;;
    if chld_page =? NULL then
      free_current_process chld_pid ;;;
      ret (Break (-1))
    else
      modify (fun st => set_mem (memcpy (mem st) chld_page (vam_pa vam) PAGESIZE) st) ;;;
      copy <- proc_get chld_pid ;;
      virtual_memory_map (p_pagetable copy) va chld_page PAGESIZE (vam_perm vam) ;;;
      ret Continue
  else
    copy <- proc_get chld_pid ;;
    virtual_memory_map (p_pagetable copy) va (vam_pa vam) PAGESIZE (vam_perm vam) ;;;
    pageinfo_update (vam_pn vam) (fun e => set_refcount (int8 (refcount e + 1)) e) ;;;
    ret Continue.

(** [fork_process], kernel.c:308 *)
Definition fork_process : kernel Z :=
  chld_pid <- find_free_process_slot ;;
  if negb (chld_pid =? -1) then
    cur <- gets current ;;
    curp <- proc_get cur ;;
    chld_pgtb <- copy_pagetable (p_pagetable curp) (int8 chld_pid) ;;
    if chld_pgtb =? NULL then
      free_current_process chld_pid ;;;
      ret (-1)
    else
      proc_update chld_pid (set_p_pagetable chld_pgtb) ;;;
      proc_update chld_pid (set_p_pid chld_pid) ;;;
      r <- for_loop (trip_count PROC_START_ADDR MEMSIZE_VIRTUAL PAGESIZE)
             PROC_START_ADDR PAGESIZE (fork_page chld_pid) ;;
      match r with
      | Some v => ret v
      | None =>
          cur <- gets current ;;
          curp <- proc_get cur ;;
          proc_update chld_pid (set_p_registers (p_registers curp)) ;;;
          proc_update chld_pid (fun c => set_p_registers (set_eax 0 (p_registers c)) c) ;;;
          proc_update chld_pid (set_p_state P_RUNNABLE) ;;;
          ret chld_pid
      end
  else ret chld_pid.

(** ** Scheduler *)

(** Where a trap ends: [exception] never returns to its caller. *)
Inductive outcome : Type :=
| Resumed (st : kstate)                 (* run(p) reloaded p's registers *)
| Cancelled                             (* check_keyboard saw Control-C *)
| Spinning (polls : nat) (st : kstate)  (* still inside schedule's loop *)
| Halted (f : fault).                   (* panic, failed assertion, bad index *)

(** [run], kernel.c:491 *)
Definition run (p : Z) (st : kstate) : outcome :=
  match proc_get p st with
  | Fault f => Halted f
  | Ok (pr, _) =>
      if procstate_eqb (p_state pr) P_RUNNABLE then Resumed (set_current p st)
      else Halted AssertionFailed
  end.

(** The [while (1)] of [schedule], kernel.c:476, unrolled [fuel] times.
    [check_keyboard] is external: [kbd k] tells whether its [k]-th call
    sees the cancel signal. *)
Fixpoint schedule_loop (fuel : nat) (kbd : nat -> bool) (polls : nat) (pid : Z)
    (st : kstate) : outcome :=
  match fuel with
  | O => Spinning polls st
  | S fuel' =>
      let pid := Z.rem (pid + 1) NPROC in
      match proc_get pid st with
      | Fault f => Halted f
      | Ok (p, _) =>
          if procstate_eqb (p_state p) P_RUNNABLE then run pid st
          else if kbd polls then Cancelled
          else schedule_loop fuel' kbd (S polls) pid st
      end
  end.

(** [schedule], kernel.c:474 *)
Definition schedule (fuel : nat) (kbd : nat -> bool) (polls : nat) (st : kstate)
  : outcome :=
  match proc_get (current st) st with
  | Fault f => Halted f
  | Ok (p, _) => schedule_loop fuel kbd polls (p_pid p) st
  end.

(** ** Invariant checker *)

(** The body of the [pid] loop of [virtual_memory_check], kernel.c:567-580 *)
Definition check_pagetable (pagetable expected_owner expected_refcount : Z)
  : kernel unit :=
  assert (PTE_ADDR pagetable =? pagetable) ;;;
  assert (PAGENUMBER pagetable <? NPAGES) ;;;
  e <- pageinfo_get (PAGENUMBER pagetable) ;;
  assert (owner e =? expected_owner) ;;;
  assert (refcount e =? expected_refcount) ;;;
  for_range (R := unit) 0 PAGETABLE_NENTRIES (fun pn =>
    pte <- gets (fun st => load32 (mem st) (pagetable + 4 * pn)) ;;
    if negb (Z.land pte PTE_P =? 0) then
      assert (PAGENUMBER pte <? NPAGES) ;;;
      e <- pageinfo_get (PAGENUMBER pte) ;;
      assert (owner e =? expected_owner) ;;;
      assert (refcount e =? 1) ;;;
      ret Continue
    else ret Continue) ;;;
  ret tt.

(** [virtual_memory_check], kernel.c:533 *)
Definition virtual_memory_check : kernel unit :=
  p0 <- proc_get 0 ;;
  assert (procstate_eqb (p_state p0) P_FREE) ;;;
  expected_kernel_refcount <-
    for_acc (Z.to_nat NPROC) 0 1 (fun pid acc =>
      p <- proc_get pid ;;
      if negb (procstate_eqb (p_state p) P_FREE)
         && (p_pagetable p =? kernel_pagetable)
      then ret (acc + 1) else ret acc) ;;
  (* pid = -1 *)
  check_pagetable kernel_pagetable PO_KERNEL expected_kernel_refcount ;;;
  for_range (R := unit) 0 NPROC (fun pid =>
    p <- proc_get pid ;;
    if procstate_eqb (p_state p) P_FREE then ret Continue
    else
      (if p_pagetable p =? kernel_pagetable
       then check_pagetable kernel_pagetable PO_KERNEL expected_kernel_refcount
       else check_pagetable (p_pagetable p) pid 1) ;;;
      ret Continue) ;;;
  for_range (R := unit) 0 NPAGES (fun pn =>
    e <- pageinfo_get pn ;;
    if (0 <? refcount e) && (0 <=? owner e) then
      p <- proc_get (owner e) ;;
      assert (negb (procstate_eqb (p_state p) P_FREE)) ;;;
      ret Continue
    else ret Continue) ;;;
  ret tt.

(** ** Exception and syscall dispatcher *)

Definition update_eax (v : Z) (p : proc) : proc :=
  set_p_registers (set_eax v (p_registers p)) p.

(** [case INT_SYS_PAGE_ALLOC], kernel.c:403-420 *)
Definition sys_page_alloc : kernel unit :=
  cur <- gets current ;;
  curp <- proc_get cur ;;
  let addr := reg_eax (p_registers curp) in
  p_addr <- alloc_free_page (int8 (p_pid curp)) ;;
  if negb (p_addr =? NULL)
     && (addr mod PAGESIZE =? 0)
     && (PROC_START_ADDR <=? addr)
     && (addr <? MEMSIZE_VIRTUAL)
  then
    virtual_memory_map (p_pagetable curp) addr p_addr PAGESIZE
      (Z.lor (Z.lor PTE_P PTE_W) PTE_U) ;;;
    proc_update cur (update_eax 0)
  else
    proc_update cur (update_eax (-1)).

(** The cases of the [switch] of [exception] that fall through to its
    end, kernel.c:389-460. *)
Definition handle_trap (reg : x86_registers) : kernel unit :=
  cur <- gets current ;;
  match reg_intno reg with
  | INT_SYS_GETPID => proc_update cur (fun p => update_eax (p_pid p) p)
  | INT_SYS_PAGE_ALLOC => sys_page_alloc
  | INT_PAGEFAULT =>
      if Z.land (reg_err reg) PFERR_USER =? 0 then raise Panic
      else proc_update cur (set_p_state P_BROKEN)
  | INT_SYS_FORK => r <- fork_process ;; proc_update cur (update_eax r)
  | INT_SYS_EXIT => free_current_process cur
  | _ => raise Panic
  end.

(** [exception], kernel.c:369 *)
Definition exception (fuel : nat) (kbd : nat -> bool) (reg : x86_registers)
    (st : kstate) : outcome :=
  match (proc_update (current st) (set_p_registers reg) ;;;
         virtual_memory_check) st with
  | Fault f => Halted f
  | Ok (_, st1) =>
      if kbd O then Cancelled
      else
        match reg_intno reg with
        | INT_SYS_YIELD => schedule fuel kbd 1%nat st1
        | INT_TIMER => schedule fuel kbd 1%nat (set_ticks (u32 (ticks st1 + 1)) st1)
        | _ =>
            match (handle_trap reg ;;; proc_get (current st1)) st1 with
            | Fault f => Halted f
            | Ok (p, st2) =>
                if procstate_eqb (p_state p) P_RUNNABLE then run (current st2) st2
                else schedule fuel kbd 1%nat st2
            end
        end
  end.

(** ** Vocabulary of the statements *)

(** The C arrays have their declared sizes. *)
Definition ledger_ok (st : kstate) : Prop :=
  length (pageinfo st) = Z.to_nat NPAGES.
Definition proctable_ok (st : kstate) : Prop :=
  length (processes st) = Z.to_nat NPROC.

(** Physical memory fits a 32-bit address space. *)
Definition config_ok : Prop := 0 < NPAGES < 2 ^ 20 /\ 0 < NPROC <= 128.

(** A ledger entry the allocator may hand out. *)
Definition is_free (e : physical_pageinfo) : bool :=
  (owner e =? 0) && (refcount e =? 0).

Definition page_free (st : kstate) (i : Z) : bool :=
  match pageinfo st !! Z.to_nat i with
  | Some e => is_free e
  | None => false
  end.

Definition slot_free (st : kstate) (i : Z) : bool :=
  match processes st !! Z.to_nat i with
  | Some p => procstate_eqb (p_state p) P_FREE
  | None => false
  end.

Definition runnable (st : kstate) (i : Z) : bool :=
  match processes st !! Z.to_nat i with
  | Some p => procstate_eqb (p_state p) P_RUNNABLE
  | None => false
  end.

(** The addresses the page-allocate syscall accepts (kernel.c:407-409). *)
Definition valid_request (addr : Z) : Prop :=
  addr mod PAGESIZE = 0 /\ PROC_START_ADDR <= addr < MEMSIZE_VIRTUAL.

(** [find_page_owner]'s test at virtual page [k] of one address space. *)
Definition maps_at (m : memory) (pagetable k pagenum : Z) : bool :=
  vam_pa (virtual_memory_lookup m pagetable (PAGEADDRESS k)) =? PAGEADDRESS pagenum.

(** The address space maps [pagenum] at some virtual page below NPAGES. *)
Definition scan_hits (m : memory) (pagetable pagenum : Z) : Prop :=
  exists k, 0 <= k < NPAGES /\ maps_at m pagetable k pagenum = true.

(** Slot [pid] is RUNNABLE and its address space is hit by the scan. *)
Definition candidate (st : kstate) (pagenum pid : Z) : Prop :=
  exists p, processes st !! Z.to_nat pid = Some p /\
            p_state p = P_RUNNABLE /\ scan_hits (mem st) (p_pagetable p) pagenum.

(** What [find_page_owner pagenum] returns: the lowest candidate slot
    among 1..NPROC-1, or -1. *)
Definition page_owner_result (st : kstate) (pagenum q : Z) : Prop :=
  (1 <= q < NPROC /\ candidate st pagenum q /\
   forall j, 1 <= j < q -> ~ candidate st pagenum j)
  \/ (q = -1 /\ forall j, 1 <= j < NPROC -> ~ candidate st pagenum j).

(** The ledger entry [e] after the exit of process [pid], when
    [find_page_owner] answers [q] for that page (kernel.c:272-297). *)
Definition exit_entry (pid : Z) (e : physical_pageinfo) (q : Z) : physical_pageinfo :=
  if owner e =? pid then
    if 1 <? refcount e then
      if q =? -1 then mk_pageinfo PO_FREE 0
      else mk_pageinfo (int8 q) (int8 (refcount e - 1))
    else if refcount e =? 1 then mk_pageinfo PO_FREE (int8 (refcount e - 1))
    else mk_pageinfo PO_FREE (refcount e)
  else e.

(** The slot examined by the [d]-th iteration of [schedule]'s loop. *)
Definition scan_slot (pid : Z) (d : nat) : Z := (pid + 1 + Z.of_nat d) mod NPROC.


End WithConfig.

(** ** More of the kernel, and the vocabulary of its theorems *)

(** A computation that only inspects the kernel state. *)
Definition readonly {A} (m : kernel A) : Prop :=
  forall st a st', m st = Ok (a, st') -> st' = st.

Section CheckerVocabulary.
Context `{KernelConfig}.

(** A descriptor that is in use and runs on the kernel's page table
    (kernel.c:547-548). *)
Definition uses_kernel_table (p : proc) : bool :=
  negb (procstate_eqb (p_state p) P_FREE) && (p_pagetable p =? kernel_pagetable).

(** The reference count [virtual_memory_check] expects of the kernel's
    page table (kernel.c:545-549). *)
Fixpoint kernel_table_users (ps : list proc) : Z :=
  match ps with
  | [] => 0
  | p :: rest => (if uses_kernel_table p then 1 else 0) + kernel_table_users rest
  end.

Definition expected_kernel_refcount (st : kstate) : Z :=
  1 + kernel_table_users (processes st).

(** What the assertions of kernel.c:568-580 require of one page table. *)
Definition pagetable_ok (st : kstate) (pagetable expected_owner expected_refcount : Z)
  : Prop :=
  PTE_ADDR pagetable = pagetable /\
  PAGENUMBER pagetable < NPAGES /\
  pageinfo st !! Z.to_nat (PAGENUMBER pagetable)
    = Some (mk_pageinfo expected_owner expected_refcount) /\
  forall pn, 0 <= pn < PAGETABLE_NENTRIES ->
    Z.land (load32 (mem st) (pagetable + 4 * pn)) PTE_P <> 0 ->
    0 <= PAGENUMBER (load32 (mem st) (pagetable + 4 * pn)) < NPAGES /\
    pageinfo st !! Z.to_nat (PAGENUMBER (load32 (mem st) (pagetable + 4 * pn)))
      = Some (mk_pageinfo expected_owner 1).

(** The invariants [virtual_memory_check] asserts. *)
Definition vm_invariants (st : kstate) : Prop :=
  (exists p0, processes st !! 0%nat = Some p0 /\ p_state p0 = P_FREE) /\
  pagetable_ok st kernel_pagetable PO_KERNEL (expected_kernel_refcount st) /\
  (forall pid p, 0 <= pid < NPROC -> processes st !! Z.to_nat pid = Some p ->
     p_state p <> P_FREE -> p_pagetable p <> kernel_pagetable ->
     pagetable_ok st (p_pagetable p) pid 1) /\
  (forall pn e, 0 <= pn < NPAGES -> pageinfo st !! Z.to_nat pn = Some e ->
     0 < refcount e -> 0 <= owner e ->
     owner e < NPROC /\
     exists p, processes st !! Z.to_nat (owner e) = Some p /\ p_state p <> P_FREE).

(** [m] returns [a] without touching the state when [P] holds and stops
    with a fault when it does not. *)
Definition decides {A} (m : kernel A) (st : kstate) (P : Prop) (a : A) : Prop :=
  (P /\ m st = Ok (a, st)) \/ (~ P /\ exists f, m st = Fault f).

End CheckerVocabulary.

Section AllocationVocabulary.
Context `{KernelConfig}.

(** The byte range [a, a+n) meets no free page. *)
Definition outside_free (st : kstate) (a n : Z) : Prop :=
  forall k, 0 <= k < NPAGES -> page_free st k = true ->
    a + n <= PAGEADDRESS k \/ PAGEADDRESS k + PAGESIZE <= a.

(** The state after page [i] was charged to [own]. *)
Definition charge (i own : Z) (st : kstate) : kstate :=
  set_pageinfo (<[Z.to_nat i := mk_pageinfo own 1]> (pageinfo st)) st.

End AllocationVocabulary.

Section TrapVocabulary.
Context `{KernelConfig}.

(** The state once [exception] has copied the trap-time registers into
    the current descriptor (kernel.c:372). *)
Definition save_registers (reg : x86_registers) (st : kstate) : kstate :=
  match processes st !! Z.to_nat (current st) with
  | Some p =>
      set_processes (<[Z.to_nat (current st) := set_p_registers reg p]> (processes st)) st
  | None => st
  end.

Definition same_tables (ps ps' : list proc) : Prop :=
  Forall2 (fun p p' => p_state p' = p_state p /\ p_pagetable p' = p_pagetable p) ps ps'.

End TrapVocabulary.

(** ** Boot: the initial ledger

    [pageinfo_init] asks the hardware layer which addresses are reserved
    and uses three link-time constants; they are parameters here. *)
Class BootConfig : Type := {
  physical_memory_isreserved : Z -> bool;   (* k-hardware.c *)
  KERNEL_START_ADDR : Z;
  kernel_end : Z;                           (* the linker symbol [end] *)
  KERNEL_STACK_TOP : Z
}.

Section Boot.
Context `{KernelConfig} `{BootConfig}.

(** The owner [pageinfo_init] chooses for the page at [addr],
    kernel.c:516-523. *)
Definition initial_owner (addr : Z) : Z :=
  if physical_memory_isreserved addr then PO_RESERVED
  else if ((KERNEL_START_ADDR <=? addr) && (addr <? kernel_end))
          || (addr =? KERNEL_STACK_TOP - PAGESIZE)
       then PO_KERNEL
       else PO_FREE.

(** [pageinfo_init], kernel.c:512 *)
Definition pageinfo_init : kernel unit :=
  for_loop (R := unit) (trip_count 0 MEMSIZE_PHYSICAL PAGESIZE) 0 PAGESIZE (fun addr =>
    let own := initial_owner addr in
    pageinfo_update (PAGENUMBER addr) (set_owner (int8 own)) ;;;
    pageinfo_update (PAGENUMBER addr)
      (set_refcount (if negb (own =? PO_FREE) then 1 else 0)) ;;;
    ret Continue) ;;;
  ret tt.

End Boot.

(** ** The memory viewer *)

(** [memstate_colors], kernel.c:592-598: a character in the low byte and
    a CGA attribute in the high byte, for owners PO_KERNEL, PO_RESERVED,
    PO_FREE and processes 1 to 15. *)
Definition memstate_colors : list Z :=
  [ Z.lor 75 0x0D00 (* K *); Z.lor 82 0x0700 (* R *); Z.lor 46 0x0700 (* . *);
    Z.lor 49 0x0C00 (* 1 *); Z.lor 50 0x0A00; Z.lor 51 0x0900; Z.lor 52 0x0E00;
    Z.lor 53 0x0F00; Z.lor 54 0x0C00; Z.lor 55 0x0A00; Z.lor 56 0x0900;
    Z.lor 57 0x0E00 (* 9 *); Z.lor 65 0x0F00 (* A *); Z.lor 66 0x0C00;
    Z.lor 67 0x0A00; Z.lor 68 0x0900; Z.lor 69 0x0E00; Z.lor 70 0x0F00 (* F *) ].

(** The cell [memshow_physical] draws for a page with ledger entry [e],
    kernel.c:606-612; [None] when [owner - PO_KERNEL] falls outside
    [memstate_colors]. *)
Definition memshow_physical_color (e : physical_pageinfo) : option Z :=
  let own := if refcount e =? 0 then PO_FREE else owner e in
  if 0 <=? own - PO_KERNEL then
    match memstate_colors !! Z.to_nat (own - PO_KERNEL) with
    | Some color => Some (if 1 <? refcount e then Z.land color 0x77FF else color)
    | None => None
    end
  else None.

(** The character that stands for an owner in the viewer. *)
Definition owner_char (own : Z) : Z :=
  if own =? PO_KERNEL then 75          (* K *)
  else if own =? PO_RESERVED then 82   (* R *)
  else if own =? PO_FREE then 46       (* . *)
  else if own <? 10 then 48 + own      (* 1 .. 9 *)
  else 55 + own.                       (* A .. F *)

Section ForkUnchecked.
Context `{KernelConfig}.

(** ** fork_process with its unchecked increment *)

(** [++pageinfo[i].refcount] as the machine executes it, kernel.c:345.
    The source does not test [i]: with [i] inside the array this is the
    checked update; with [i] outside, the byte written lies outside
    [pageinfo[]] and every ledger entry stays as it is (what lies next to
    the array is the linker's choice and no part of this state). *)
Definition pageinfo_bump (i : Z) : kernel unit :=
  if in_pageinfo i
  then pageinfo_update i (fun e => set_refcount (int8 (refcount e + 1)) e)
  else ret tt.

(** One iteration of the copy loop of [fork_process], kernel.c:323-347,
    with the increment of kernel.c:345 executed unchecked. *)
Definition fork_page_unchecked (chld_pid va : Z) : kernel (flow Z) :=
  cur <- gets current ;;
  curp <- proc_get cur ;;
  vam <- gets (fun st => virtual_memory_lookup (mem st) (p_pagetable curp) va) ;;
  if negb (vam_perm vam =? 0) && negb (Z.land (vam_perm vam) PTE_W =? 0) then
    chld_page <- alloc_free_page (int8 chld_pid) ;;
    if chld_page =? NULL then
      free_current_process chld_pid ;;;
      ret (Break (-1))
    else
      modify (fun st => set_mem (memcpy (mem st) chld_page (vam_pa vam) PAGESIZE) st) ;;;
      copy <- proc_get chld_pid ;;
      virtual_memory_map (p_pagetable copy) va chld_page PAGESIZE (vam_perm vam) ;;;
      ret Continue
  else
    copy <- proc_get chld_pid ;;
    virtual_memory_map (p_pagetable copy) va (vam_pa vam) PAGESIZE (vam_perm vam) ;;;
    pageinfo_bump (vam_pn vam) ;;;
    ret Continue.

(** [fork_process], kernel.c:308, with the loop body above. *)
Definition fork_process_unchecked : kernel Z :=
  chld_pid <- find_free_process_slot ;;
  if negb (chld_pid =? -1) then
    cur <- gets current ;;
    curp <- proc_get cur ;;
    chld_pgtb <- copy_pagetable (p_pagetable curp) (int8 chld_pid) ;;
    if chld_pgtb =? NULL then
      free_current_process chld_pid ;;;
      ret (-1)
    else
      proc_update chld_pid (set_p_pagetable chld_pgtb) ;;;
      proc_update chld_pid (set_p_pid chld_pid) ;;;
      r <- for_loop (trip_count PROC_START_ADDR MEMSIZE_VIRTUAL PAGESIZE)
             PROC_START_ADDR PAGESIZE (fork_page_unchecked chld_pid) ;;
      match r with
      | Some v => ret v
      | None =>
          cur <- gets current ;;
          curp <- proc_get cur ;;
          proc_update chld_pid (set_p_registers (p_registers curp)) ;;;
          proc_update chld_pid (fun c => set_p_registers (set_eax 0 (p_registers c)) c) ;;;
          proc_update chld_pid (set_p_state P_RUNNABLE) ;;;
          ret chld_pid
      end
  else ret chld_pid.

(** *** Vocabulary of the fork theorem *)

(** The test of kernel.c:326. *)
Definition writable (vam : vamapping) : bool :=
  negb (vam_perm vam =? 0) && negb (Z.land (vam_perm vam) PTE_W =? 0).

(** The [k]-th page of the private region and the parent's mapping there. *)
Definition private_va (k : nat) : Z := PROC_START_ADDR + Z.of_nat k * PAGESIZE.

Definition private_pages : nat := trip_count PROC_START_ADDR MEMSIZE_VIRTUAL PAGESIZE.

(** Number of writable mappings among the first [n] private pages. *)
Fixpoint writable_count (m : memory) (pagetable : Z) (n : nat) : nat :=
  match n with
  | O => O
  | S n' =>
      Nat.add (writable_count m pagetable n')
        (if writable (virtual_memory_lookup m pagetable (private_va n'))
         then 1%nat else 0%nat)
  end.

(** Number of non-writable mappings of physical page [pn] among the first
    [n] private pages. *)
Fixpoint shared_count (m : memory) (pagetable pn : Z) (n : nat) : nat :=
  match n with
  | O => O
  | S n' =>
      Nat.add (shared_count m pagetable pn n')
        (if negb (writable (virtual_memory_lookup m pagetable (private_va n')))
            && (vam_pn (virtual_memory_lookup m pagetable (private_va n')) =? pn)
         then 1%nat else 0%nat)
  end.

(** Number of ledger entries the allocator may hand out. *)
Definition free_count (st : kstate) : nat :=
  length (List.filter is_free (pageinfo st)).

(** A reference count after [n] increments of an [int8_t]. *)
Definition bumped (n : nat) (rc : Z) : Z :=
  Nat.iter n (fun r => int8 (r + 1)) rc.

(** Physical memory holds bytes. *)
Definition bytes_ok (m : memory) : Prop := forall a, 0 <= m a < 256.

End ForkUnchecked.

Section ForkWordsVocabulary.
Context `{KernelConfig}.

(** Address [a] lies in a page that is free in [st]. *)
Definition in_free_page (st : kstate) (a : Z) : Prop :=
  exists p, 0 <= p < NPAGES /\ page_free st p = true /\
            PAGEADDRESS p <= a < PAGEADDRESS p + PAGESIZE.

(** The entry [virtual_memory_map] stores for one page. *)
Definition stored_entry (pa perm : Z) : Z :=
  if Z.land perm PTE_P =? 0 then perm else Z.lor pa perm.

End ForkWordsVocabulary.

Section ForkVocabulary.
Context `{KernelConfig}.

(** What the copy loop has done for the [k]-th private page: [st] is the
    state fork started from, [s] the state now, [ppt] the parent's page
    table, [j] the page of the child's second-level table. *)
Definition child_entry (st s : kstate) (ppt chld i j : Z) (k : nat) : Prop :=
  let vam := virtual_memory_lookup (mem st) ppt (private_va k) in
  let slot := PAGEADDRESS j + 4 * (256 + Z.of_nat k) in
  if writable vam then
    exists pg, 0 < pg < NPAGES /\ page_free st pg = true /\ pg <> i /\ pg <> j /\
      pageinfo s !! Z.to_nat pg = Some (mk_pageinfo chld 1) /\
      load32 (mem s) slot = Z.lor (PAGEADDRESS pg) (vam_perm vam) /\
      forall off, 0 <= off < PAGESIZE ->
        mem s (PAGEADDRESS pg + off) = mem st (vam_pa vam + off)
  else load32 (mem s) slot = stored_entry (vam_pa vam) (vam_perm vam).

(** The pages handed to the child for the first [k] private pages differ
    from one another. *)
Definition fresh_distinct (st s : kstate) (ppt j : Z) (k : nat) : Prop :=
  forall k1 k2, (k1 < k2 < k)%nat ->
    writable (virtual_memory_lookup (mem st) ppt (private_va k1)) = true ->
    writable (virtual_memory_lookup (mem st) ppt (private_va k2)) = true ->
    PAGENUMBER (load32 (mem s) (PAGEADDRESS j + 4 * (256 + Z.of_nat k1)))
    <> PAGENUMBER (load32 (mem s) (PAGEADDRESS j + 4 * (256 + Z.of_nat k2))).

(** The invariant of the copy loop after [k] iterations. *)
Definition fork_inv (st : kstate) (ppt chld i j : Z) (cp0 : proc) (k : nat) (s : kstate)
  : Prop :=
  processes s = <[Z.to_nat chld := cp0]> (processes st) /\
  current s = current st /\ ticks s = ticks st /\
  length (pageinfo s) = length (pageinfo st) /\
  (forall a, ~ in_free_page st a -> mem s a = mem st a) /\
  load32 (mem s) (PAGEADDRESS i)
    = Z.lor (PAGEADDRESS j) (Z.lor (Z.lor PTE_P PTE_W) PTE_U) /\
  (forall p, 0 <= p < NPAGES -> page_free s p = true ->
     page_free st p = true /\ p <> i /\ p <> j) /\
  (writable_count (mem st) ppt private_pages
   <= free_count s + writable_count (mem st) ppt k)%nat /\
  (forall pn e, 0 <= pn < NPAGES -> pageinfo st !! Z.to_nat pn = Some e ->
     page_free st pn = false ->
     pageinfo s !! Z.to_nat pn
       = Some (mk_pageinfo (owner e)
                 (bumped (shared_count (mem st) ppt pn k) (refcount e)))) /\
  (forall k', (k' < k)%nat -> child_entry st s ppt chld i j k') /\
  fresh_distinct st s ppt j k.

(** The pages the parent maps in its private region are in use. *)
Definition private_pages_owned (st : kstate) (ppt : Z) : Prop :=
  forall k, (k < private_pages)%nat ->
    let vam := virtual_memory_lookup (mem st) ppt (private_va k) in
    vam_perm vam <> 0 ->
    0 <= vam_pn vam /\
    exists e, pageinfo st !! Z.to_nat (vam_pn vam) = Some e /\ owner e <> PO_FREE.

End ForkVocabulary.

(** The ownership hypothesis of the fork theorem, as a test. *)
Definition private_page_owned `{KernelConfig} (st : kstate) (ppt : Z) (k : nat) : bool :=
  let vam := virtual_memory_lookup (mem st) ppt (private_va k) in
  (vam_perm vam =? 0)
  || ((0 <=? vam_pn vam)
      && match pageinfo st !! Z.to_nat (vam_pn vam) with
         | Some e => negb (owner e =? PO_FREE)
         | None => false
         end).

(** ** A concrete machine

    The sizes of the course handout's kernel.h: 16 process slots (the 18
    entries of [memstate_colors] are K, R, . and 1..F), 2MB of physical
    memory and 3MB of virtual address space (the two maps drawn by
    [memshow_physical] and [memshow_virtual]).  The kernel's page tables
    sit in kernel data. *)
Definition weensy : KernelConfig :=
  {| NPROC := 16; NPAGES := 512; MEMSIZE_VIRTUAL := 0x300000;
     kernel_pagetable := 0x50000 |}.

(** A page-table page at [base] whose [k]-th entry is [entry k]. *)
Definition table_at (base : Z) (entry : Z -> Z) (m : memory) : memory :=
  fun a => if (base <=? a) && (a <? base + PAGESIZE)
           then byte_of (entry ((a - base) / 4)) ((a - base) mod 4)
           else m a.

(** The kernel's level-2 entries, as [kernel] leaves them (kernel.c:102-105):
    the first megabyte mapped onto itself, kernel-only except the console
    page. *)
Definition kernel_l2_entry (k : Z) : Z :=
  if (0 <=? k) && (k <? PAGENUMBER PROC_START_ADDR)
  then Z.lor (k * PAGESIZE) (if k =? 0xB8 then 7 else 3)
  else 0.

Definition l1_entry (l2 : Z) (k : Z) : Z := if k =? 0 then Z.lor l2 7 else 0.

(** Level-2 entries of a process: the kernel's below [PROC_START_ADDR],
    then the private mappings listed in [priv] as (virtual page, entry). *)
Fixpoint private_entry (priv : list (Z * Z)) (k : Z) : Z :=
  match priv with
  | [] => 0
  | (vpn, e) :: rest => if k =? vpn then e else private_entry rest k
  end.

Definition process_l2_entry (priv : list (Z * Z)) (k : Z) : Z :=
  if k <? PAGENUMBER PROC_START_ADDR then kernel_l2_entry k
  else private_entry priv k.

Definition kernel_mem : memory :=
  table_at 0x51000 kernel_l2_entry (table_at 0x50000 (l1_entry 0x51000) (fun _ => 0)).

Definition zero_regs : x86_registers := mk_regs 0 0 0 (INT_OTHER 0) 0 [].

Definition free_slots (n : nat) : list proc :=
  map (fun i => mk_proc (Z.of_nat i) zero_regs P_FREE 0) (seq 0 n).

(** Ledger after [pageinfo_init]: page 0 and the I/O hole reserved, the
    kernel image and its stack page owned by the kernel.  [owned] lists
    the pages handed out since, as (page, owner, refcount); every other
    page is [dflt]. *)
Fixpoint owned_entry (owned : list (Z * Z * Z)) (i : Z) : option physical_pageinfo :=
  match owned with
  | [] => None
  | (pn, o, rc) :: rest =>
      if i =? pn then Some (mk_pageinfo o rc) else owned_entry rest i
  end.

Definition ledger_entry (owned : list (Z * Z * Z)) (dflt : physical_pageinfo) (i : Z)
  : physical_pageinfo :=
  if (i =? 0) || ((0xA0 <=? i) && (i <? 0x100)) then mk_pageinfo PO_RESERVED 1
  else if ((0x40 <=? i) && (i <? 0x53)) || (i =? 0x7F) then mk_pageinfo PO_KERNEL 1
  else match owned_entry owned i with
       | Some e => e
       | None => dflt
       end.

Definition ledger (owned : list (Z * Z * Z)) (dflt : physical_pageinfo)
  : list physical_pageinfo :=
  map (fun i => ledger_entry owned dflt (Z.of_nat i)) (seq 0 512).

(** *** State A: one process, freshly set up

    Process 1 as [process_setup] leaves it: tables in pages 1 and 2, a
    stack page (page 3) under [MEMSIZE_VIRTUAL], one page of code and data
    at [PROC_START_ADDR] (page 0x100), all writable and user-accessible.
    Everything else in its private region is unmapped. *)
Definition user_regs (eax : Z) (intno : trapno) : x86_registers :=
  mk_regs eax 0x300000 0x100000 intno 0 [].

Definition procA : proc := mk_proc 1 (user_regs 0 (INT_OTHER 0)) P_RUNNABLE 0x1000.

Definition privA : list (Z * Z) := [(0x100, 0x100007); (0x2FF, 0x3007)].

Definition memA : memory :=
  table_at 0x2000 (process_l2_entry privA)
    (table_at 0x1000 (l1_entry 0x2000) kernel_mem).

Definition stateA : kstate :=
  mk_kstate (<[1%nat := procA]> (free_slots 16)) 1
    (ledger [(1, 1, 1); (2, 1, 1); (3, 1, 1); (0x100, 1, 1)] (mk_pageinfo PO_FREE 0))
    0 memA.

(** *** State B: a parent short of memory

    Process 1 has a read-only code page at [PROC_START_ADDR] (page 0x100)
    and a writable data page right above it (page 0x101); it has taken
    every other page through the page-allocate syscall except pages 4
    and 5, which are free. *)
Definition privB : list (Z * Z) := [(0x100, 0x100005); (0x101, 0x101007)].

Definition memB : memory :=
  table_at 0x2000 (process_l2_entry privB)
    (table_at 0x1000 (l1_entry 0x2000) kernel_mem).

Definition stateB : kstate :=
  mk_kstate (<[1%nat := procA]> (free_slots 16)) 1
    (ledger [(4, 0, 0); (5, 0, 0)] (mk_pageinfo 1 1))
    0 memB.

(** *** State C: a page shared above the physical size

    Processes 1 and 2 (parent and forked child) both map page 0x180
    read-only at virtual address 0x200000; the ledger records it with
    owner 1 and refcount 2.  Process 2 has its tables in pages 4 and 5 and
    its own copy of the writable code page in page 6. *)
Definition privC1 : list (Z * Z) := [(0x100, 0x100007); (0x200, 0x180005)].
Definition privC2 : list (Z * Z) := [(0x100, 0x6007); (0x200, 0x180005)].

Definition memC : memory :=
  table_at 0x5000 (process_l2_entry privC2)
    (table_at 0x4000 (l1_entry 0x5000)
      (table_at 0x2000 (process_l2_entry privC1)
        (table_at 0x1000 (l1_entry 0x2000) kernel_mem))).

Definition procC2 : proc := mk_proc 2 (user_regs 0 INT_SYS_FORK) P_RUNNABLE 0x4000.

Definition stateC : kstate :=
  mk_kstate
    (<[2%nat := procC2]> (<[1%nat := procA]> (free_slots 16))) 1
    (ledger [(1, 1, 1); (2, 1, 1); (0x100, 1, 1); (0x180, 1, 2);
             (4, 2, 1); (5, 2, 1); (6, 2, 1)] (mk_pageinfo PO_FREE 0))
    0 memC.

(** *** State D: a full process table *)
Definition stateD : kstate :=
  mk_kstate
    (map (fun i => mk_proc (Z.of_nat i) zero_regs
                     (if (i =? 0)%nat then P_FREE else P_RUNNABLE) 0) (seq 0 16))
    1 (ledger [] (mk_pageinfo PO_FREE 0)) 0 kernel_mem.

(** The cancel signal is never raised. *)
Definition nokbd : nat -> bool := fun _ => false.

(** *** State E: a single free page

    As state B, but only page 4 is free. *)
Definition stateE : kstate :=
  mk_kstate (<[1%nat := procA]> (free_slots 16)) 1
    (ledger [(4, 0, 0)] (mk_pageinfo 1 1))
    0 memB.

(** *** State S: a page shared below the physical size

    As state C, but the shared page 0x180 is mapped at virtual address
    0x101000 in both address spaces. *)
Definition privS1 : list (Z * Z) := [(0x100, 0x100007); (0x101, 0x180005)].
Definition privS2 : list (Z * Z) := [(0x100, 0x6007); (0x101, 0x180005)].

Definition memS : memory :=
  table_at 0x5000 (process_l2_entry privS2)
    (table_at 0x4000 (l1_entry 0x5000)
      (table_at 0x2000 (process_l2_entry privS1)
        (table_at 0x1000 (l1_entry 0x2000) kernel_mem))).

Definition stateS : kstate :=
  mk_kstate (processes stateC) 1 (pageinfo stateC) 0 memS.

(** *** State Z: page 0 in the free pool

    State A with the ledger entry of page 0 cleared. *)
Definition stateZ : kstate :=
  set_pageinfo (<[0%nat := mk_pageinfo PO_FREE 0]> (pageinfo stateA)) stateA.

(** The boot parameters of the handout: page 0 and the I/O hole are
    reserved, the kernel image ends at 0x53000 and its stack page lies
    under 0x80000. *)
Definition weensy_boot : BootConfig :=
  {| physical_memory_isreserved :=
       fun addr => (addr =? 0) || ((0xA0000 <=? addr) && (addr <? 0x100000));
     KERNEL_START_ADDR := 0x40000;
     kernel_end := 0x53000;
     KERNEL_STACK_TOP := 0x80000 |}.

Definition fault_regs (err : Z) : x86_registers :=
  mk_regs 0 0x300000 0x100000 INT_PAGEFAULT err [].


(** * Properties *)

(** ** Machine arithmetic *)

Lemma land_0xFFF_mod (a : Z) : Z.land a 0xFFF = a mod PAGESIZE.
Proof. change 0xFFF with (Z.ones 12). rewrite Z.land_ones by lia. reflexivity. Qed.

Lemma PAGENUMBER_div (a : Z) : PAGENUMBER a = a / PAGESIZE.
Proof. unfold PAGENUMBER, PAGESHIFT. rewrite Z.shiftr_div_pow2 by lia. reflexivity. Qed.

Lemma PAGEADDRESS_small (pn : Z) :
  0 <= pn < 2 ^ 20 -> PAGEADDRESS pn = pn * PAGESIZE.
Proof.
  intros Hpn. unfold PAGEADDRESS, PAGESHIFT, u32, PAGESIZE.
  rewrite Z.shiftl_mul_pow2 by lia.
  apply Z.mod_small. change (2 ^ 12) with 4096. lia.
Qed.

Lemma PAGENUMBER_PAGEADDRESS (pn : Z) :
  0 <= pn < 2 ^ 20 -> PAGENUMBER (PAGEADDRESS pn) = pn.
Proof.
  intros Hpn. rewrite PAGEADDRESS_small, PAGENUMBER_div by assumption.
  apply Z.div_mul. unfold PAGESIZE. lia.
Qed.

Lemma PAGEADDRESS_aligned (pn : Z) :
  0 <= pn < 2 ^ 20 -> Z.land (PAGEADDRESS pn) 0xFFF = 0.
Proof.
  intros Hpn. rewrite land_0xFFF_mod, PAGEADDRESS_small by assumption.
  apply Z.mod_mul. unfold PAGESIZE. lia.
Qed.

Lemma procstate_eqb_eq (a b : procstate) : procstate_eqb a b = true <-> a = b.
Proof. destruct a, b; simpl; split; congruence. Qed.

(** ** Physical memory and page-table entries *)

Lemma byte_of_div (v k : Z) : 0 <= k -> byte_of v k = (v / 2 ^ (8 * k)) mod 256.
Proof.
  intros Hk. unfold byte_of. rewrite Z.shiftr_div_pow2 by lia.
  change 255 with (Z.ones 8). rewrite Z.land_ones by lia. reflexivity.
Qed.

Lemma store32_inside (m : memory) (a v k : Z) :
  0 <= k < 4 -> store32 m a v (a + k) = byte_of v k.
Proof.
  intros Hk. unfold store32.
  replace (a <=? a + k) with true by (symmetry; apply Z.leb_le; lia).
  replace (a + k <? a + 4) with true by (symmetry; apply Z.ltb_lt; lia).
  simpl. f_equal. lia.
Qed.

Lemma store32_outside (m : memory) (a v x : Z) :
  x < a \/ a + 4 <= x -> store32 m a v x = m x.
Proof.
  intros Hx. unfold store32.
  destruct (a <=? x) eqn:H1; [|reflexivity].
  destruct (x <? a + 4) eqn:H2; [|reflexivity].
  apply Z.leb_le in H1. apply Z.ltb_lt in H2. lia.
Qed.

(** A stored 32-bit word is read back. *)
Lemma load32_store32_same (m : memory) (a v : Z) :
  0 <= v < 2 ^ 32 -> load32 (store32 m a v) a = v.
Proof.
  intros Hv. unfold load32.
  pose proof (store32_inside m a v 0 ltac:(lia)) as H0.
  rewrite Z.add_0_r in H0. rewrite H0.
  rewrite (store32_inside m a v 1), (store32_inside m a v 2),
    (store32_inside m a v 3) by lia.
  rewrite !byte_of_div by lia.
  change (2 ^ (8 * 0)) with 1. change (2 ^ (8 * 1)) with 256.
  change (2 ^ (8 * 2)) with 65536. change (2 ^ (8 * 3)) with 16777216.
  change (2 ^ 8) with 256. change (2 ^ 16) with 65536. change (2 ^ 24) with 16777216.
  change (2 ^ 32) with 4294967296 in Hv.
  Z.div_mod_to_equations. lia.
Qed.

(** A word that does not overlap the stored one is unchanged. *)
Lemma load32_store32_other (m : memory) (a v b : Z) :
  b + 4 <= a \/ a + 4 <= b -> load32 (store32 m a v) b = load32 m b.
Proof.
  intros Hb. unfold load32. rewrite !store32_outside by lia. reflexivity.
Qed.

Lemma memcpy_inside (m : memory) (dst src n off : Z) :
  0 <= off < n -> memcpy m dst src n (dst + off) = m (src + off).
Proof.
  intros Hoff. unfold memcpy.
  replace (dst <=? dst + off) with true by (symmetry; apply Z.leb_le; lia).
  replace (dst + off <? dst + n) with true by (symmetry; apply Z.ltb_lt; lia).
  simpl. f_equal. lia.
Qed.

Lemma memcpy_outside (m : memory) (dst src n x : Z) :
  x < dst \/ dst + n <= x -> memcpy m dst src n x = m x.
Proof.
  intros Hx. unfold memcpy.
  destruct (dst <=? x) eqn:H1; [|reflexivity].
  destruct (x <? dst + n) eqn:H2; [|reflexivity].
  apply Z.leb_le in H1. apply Z.ltb_lt in H2. lia.
Qed.

Lemma load32_memcpy_other (m : memory) (dst src n b : Z) :
  b + 4 <= dst \/ dst + n <= b -> load32 (memcpy m dst src n) b = load32 m b.
Proof.
  intros Hb. unfold load32. rewrite !memcpy_outside by lia. reflexivity.
Qed.

(** Or-ing flags into a page-aligned address adds them. *)
Lemma lor_aligned (a f : Z) :
  0 <= a -> a mod PAGESIZE = 0 -> 0 <= f < PAGESIZE -> Z.lor a f = a + f.
Proof.
  unfold PAGESIZE. intros Ha Hal Hf. symmetry.
  assert (Hland : Z.land a f = 0).
  { apply Z.bits_inj'. intros n Hn. rewrite Z.land_spec, Z.bits_0.
    destruct (Z.lt_ge_cases n 12) as [Hlt | Hge].
    - assert (Z.testbit a n = false) as ->; [|reflexivity].
      rewrite <- (Z.mod_pow2_bits_low a 12 n) by lia.
      change (2 ^ 12) with 4096. rewrite Hal. apply Z.bits_0.
    - assert (Z.testbit f n = false) as ->; [|apply andb_false_r].
      destruct (Z.eq_dec f 0) as [->|Hf0]; [apply Z.bits_0|].
      apply Z.bits_above_log2; [lia|].
      apply Z.log2_lt_pow2; [lia|].
      apply Z.lt_le_trans with (2 ^ 12); [change (2 ^ 12) with 4096; lia|].
      apply Z.pow_le_mono_r; lia. }
  rewrite Z.add_nocarry_lxor by exact Hland.
  apply Z.lxor_lor. exact Hland.
Qed.

(** The address field of a 32-bit entry. *)
Lemma PTE_ADDR_sub (v : Z) : 0 <= v < 2 ^ 32 -> PTE_ADDR v = v - v mod PAGESIZE.
Proof.
  intros Hv. unfold PTE_ADDR.
  assert (Hsplit : v = Z.land v 0xFFFFF000 + Z.land v 0xFFF).
  { assert (Hdisj : Z.land (Z.land v 0xFFFFF000) (Z.land v 0xFFF) = 0).
    { apply Z.bits_inj'. intros n Hn. rewrite !Z.land_spec, Z.bits_0.
      assert (Hc : Z.testbit 0xFFFFF000 n && Z.testbit 0xFFF n = false).
      { rewrite <- Z.land_spec. change (Z.land 0xFFFFF000 0xFFF) with 0. apply Z.bits_0. }
      destruct (Z.testbit v n), (Z.testbit 0xFFFFF000 n), (Z.testbit 0xFFF n);
        simpl in *; congruence. }
    rewrite Z.add_nocarry_lxor, Z.lxor_lor by exact Hdisj.
    rewrite <- Z.land_lor_distr_r.
    change (Z.lor 0xFFFFF000 0xFFF) with (Z.ones 32).
    rewrite Z.land_ones by lia. symmetry. apply Z.mod_small. exact Hv. }
  rewrite land_0xFFF_mod in Hsplit. lia.
Qed.

(** Decoding the entry [pa | perm] of a page-aligned [pa]. *)
Lemma entry_decode (pa perm : Z) :
  0 <= pa -> pa + PAGESIZE <= 2 ^ 32 -> pa mod PAGESIZE = 0 -> 0 <= perm < PAGESIZE ->
  0 <= Z.lor pa perm < 2 ^ 32 /\
  PAGENUMBER (Z.lor pa perm) = pa / PAGESIZE /\
  PTE_ADDR (Z.lor pa perm) = pa /\
  PTE_FLAGS (Z.lor pa perm) = perm.
Proof.
  intros Hpa Hhi Hal Hperm. rewrite lor_aligned by assumption.
  assert (Hr : 0 <= pa + perm < 2 ^ 32) by (unfold PAGESIZE in *; lia).
  assert (Hm : (pa + perm) mod PAGESIZE = perm).
  { unfold PAGESIZE in *. Z.div_mod_to_equations. lia. }
  split; [exact Hr|]. split; [|split].
  - rewrite PAGENUMBER_div. unfold PAGESIZE in *. Z.div_mod_to_equations. lia.
  - rewrite PTE_ADDR_sub by exact Hr. rewrite Hm. lia.
  - unfold PTE_FLAGS. rewrite land_0xFFF_mod. exact Hm.
Qed.

Section Properties.
Context `{KernelConfig}.

Lemma MEMSIZE_PHYSICAL_eq : config_ok -> MEMSIZE_PHYSICAL = NPAGES * PAGESIZE.
Proof. intros [Hp _]. unfold MEMSIZE_PHYSICAL. apply PAGEADDRESS_small. lia. Qed.

(** ** Stepping through the monad *)

Lemma bind_ok {A B} (m : kernel A) (k : A -> kernel B) (st st' : kstate) (a : A) :
  m st = Ok (a, st') -> bind m k st = k a st'.
Proof. intros Hm. unfold bind. rewrite Hm. reflexivity. Qed.

Lemma bind_fault {A B} (m : kernel A) (k : A -> kernel B) (st : kstate) (f : fault) :
  m st = Fault f -> bind m k st = Fault f.
Proof. intros Hm. unfold bind. rewrite Hm. reflexivity. Qed.

Lemma bind_assoc {A B C} (m : kernel A) (k : A -> kernel B) (k' : B -> kernel C)
    (st : kstate) :
  bind (bind m k) k' st = bind m (fun a => bind (k a) k') st.
Proof. unfold bind. destruct (m st) as [[a st']|f]; reflexivity. Qed.

(** ** Array accesses inside the bounds *)

Lemma pageinfo_get_ok (st : kstate) (i : Z) :
  ledger_ok st -> 0 <= i < NPAGES ->
  exists e, pageinfo st !! Z.to_nat i = Some e /\ pageinfo_get i st = Ok (e, st).
Proof.
  intros Hl Hi. unfold pageinfo_get, in_pageinfo.
  destruct (pageinfo st !! Z.to_nat i) as [e|] eqn:He.
  - exists e. split; [reflexivity|].
    replace (0 <=? i) with true by (symmetry; apply Z.leb_le; lia).
    replace (i <? NPAGES) with true by (symmetry; apply Z.ltb_lt; lia).
    reflexivity.
  - apply lookup_ge_None in He. unfold ledger_ok in Hl. lia.
Qed.

Lemma pageinfo_get_oob (st : kstate) (i : Z) :
  ~ (0 <= i < NPAGES) -> pageinfo_get i st = Fault (OutOfBounds A_pageinfo i).
Proof.
  intros Hi. unfold pageinfo_get, in_pageinfo.
  destruct (0 <=? i) eqn:H0; [|reflexivity].
  destruct (i <? NPAGES) eqn:H1; [|reflexivity].
  apply Z.leb_le in H0. apply Z.ltb_lt in H1. lia.
Qed.

Lemma pageinfo_update_ok (st : kstate) (i : Z) (f : physical_pageinfo -> physical_pageinfo) :
  ledger_ok st -> 0 <= i < NPAGES ->
  exists e, pageinfo st !! Z.to_nat i = Some e /\
    pageinfo_update i f st =
      Ok (tt, set_pageinfo (<[Z.to_nat i := f e]> (pageinfo st)) st).
Proof.
  intros Hl Hi. destruct (pageinfo_get_ok st i Hl Hi) as (e & He & Hg).
  exists e. split; [exact He|]. unfold pageinfo_update, bind. rewrite Hg. reflexivity.
Qed.

Lemma ledger_ok_set_pageinfo (st : kstate) (i : nat) (e : physical_pageinfo) :
  ledger_ok st -> ledger_ok (set_pageinfo (<[i := e]> (pageinfo st)) st).
Proof. unfold ledger_ok. simpl. rewrite length_insert. auto. Qed.

Lemma proc_get_ok (st : kstate) (i : Z) :
  proctable_ok st -> 0 <= i < NPROC ->
  exists p, processes st !! Z.to_nat i = Some p /\ proc_get i st = Ok (p, st).
Proof.
  intros Hl Hi. unfold proc_get, in_processes.
  destruct (processes st !! Z.to_nat i) as [p|] eqn:Hp.
  - exists p. split; [reflexivity|].
    replace (0 <=? i) with true by (symmetry; apply Z.leb_le; lia).
    replace (i <? NPROC) with true by (symmetry; apply Z.ltb_lt; lia).
    reflexivity.
  - apply lookup_ge_None in Hp. unfold proctable_ok in Hl. lia.
Qed.

Lemma pageinfo_update_at (s : kstate) (i : Z) (e : physical_pageinfo)
    (f : physical_pageinfo -> physical_pageinfo) :
  ledger_ok s -> 0 <= i < NPAGES -> pageinfo s !! Z.to_nat i = Some e ->
  pageinfo_update i f s = Ok (tt, set_pageinfo (<[Z.to_nat i := f e]> (pageinfo s)) s).
Proof.
  intros Hl Hi He. destruct (pageinfo_update_ok s i f Hl Hi) as (e' & He' & Hu).
  rewrite He in He'. inversion He'; subst e'. exact Hu.
Qed.

Lemma proc_update_at (s : kstate) (i : Z) (p : proc) (f : proc -> proc) :
  proctable_ok s -> 0 <= i < NPROC -> processes s !! Z.to_nat i = Some p ->
  proc_update i f s = Ok (tt, set_processes (<[Z.to_nat i := f p]> (processes s)) s).
Proof.
  intros Hl Hi Hp. destruct (proc_get_ok s i Hl Hi) as (p' & Hp' & Hg).
  rewrite Hp in Hp'. inversion Hp'; subst p'.
  unfold proc_update. rewrite (bind_ok _ _ _ _ _ Hg). reflexivity.
Qed.

(** ** Scanning loops *)

Lemma trip_count_1 (lo hi : Z) : trip_count lo hi 1 = Z.to_nat (hi - lo).
Proof. unfold trip_count. rewrite Z.div_1_r. f_equal. lia. Qed.

(** A loop whose body only inspects the state stops at the first index
    that satisfies the test. *)
Lemma for_loop_search {R} (P : Z -> Prop) (g : Z -> R)
    (body : Z -> kernel (flow R)) (st : kstate) (n : nat) (lo : Z) :
  (forall i, lo <= i < lo + Z.of_nat n ->
     (P i /\ body i st = Ok (Break (g i), st)) \/
     (~ P i /\ body i st = Ok (Continue, st))) ->
  (exists i, lo <= i < lo + Z.of_nat n /\ P i /\
     (forall j, lo <= j < i -> ~ P j) /\
     for_loop n lo 1 body st = Ok (Some (g i), st))
  \/ ((forall j, lo <= j < lo + Z.of_nat n -> ~ P j) /\
      for_loop n lo 1 body st = Ok (None, st)).
Proof.
  revert lo. induction n as [|n IH]; intros lo Hb.
  - right. split; [intros; lia | reflexivity].
  - simpl for_loop.
    destruct (Hb lo ltac:(lia)) as [[HP Hlo] | [HP Hlo]];
      rewrite (bind_ok _ _ _ _ _ Hlo).
    + left. exists lo. split; [lia|]. split; [exact HP|].
      split; [intros; lia | reflexivity].
    + destruct (IH (lo + 1)) as [(i & Hi & HPi & Hmin & Hr) | (Hnone & Hr)].
      * intros i Hi. apply Hb. lia.
      * left. exists i. split; [lia|]. split; [exact HPi|]. split; [|exact Hr].
        intros j Hj. destruct (Z.eq_dec j lo) as [->|]; [exact HP|]. apply Hmin. lia.
      * right. split; [|exact Hr].
        intros j Hj. destruct (Z.eq_dec j lo) as [->|]; [exact HP|]. apply Hnone. lia.
Qed.

(** A loop that never leaves early carries an invariant to its end. *)
Lemma for_loop_invariant {R} (I : Z -> kstate -> Prop)
    (body : Z -> kernel (flow R)) (n : nat) (lo : Z) (st : kstate) :
  I lo st ->
  (forall i s, lo <= i < lo + Z.of_nat n -> I i s ->
     exists s', body i s = Ok (Continue, s') /\ I (i + 1) s') ->
  exists s', for_loop n lo 1 body st = Ok (None, s') /\ I (lo + Z.of_nat n) s'.
Proof.
  revert lo st. induction n as [|n IH]; intros lo st HI Hb.
  - exists st. split; [reflexivity|]. replace (lo + Z.of_nat 0) with lo by lia. exact HI.
  - destruct (Hb lo st ltac:(lia) HI) as (s1 & Hs1 & HI1).
    destruct (IH (lo + 1) s1 HI1) as (s' & Hs' & HI').
    { intros i s Hi. apply Hb. lia. }
    exists s'. split.
    + simpl for_loop. rewrite (bind_ok _ _ _ _ _ Hs1). exact Hs'.
    + replace (lo + Z.of_nat (S n)) with (lo + 1 + Z.of_nat n) by lia. exact HI'.
Qed.

(** The same, for a boolean test. *)
Lemma for_loop_scan {R} (P : Z -> bool) (g : Z -> R)
    (body : Z -> kernel (flow R)) (st : kstate) (n : nat) (lo : Z) :
  (forall i, lo <= i < lo + Z.of_nat n ->
     body i st = Ok (if P i then Break (g i) else Continue, st)) ->
  (exists i, lo <= i < lo + Z.of_nat n /\ P i = true /\
     (forall j, lo <= j < i -> P j = false) /\
     for_loop n lo 1 body st = Ok (Some (g i), st))
  \/ ((forall j, lo <= j < lo + Z.of_nat n -> P j = false) /\
      for_loop n lo 1 body st = Ok (None, st)).
Proof.
  intros Hb.
  destruct (for_loop_search (fun i => P i = true) g body st n lo)
    as [(i & Hi & HP & Hmin & Hr) | (Hnone & Hr)].
  - intros i Hi. rewrite (Hb i Hi). destruct (P i); [left | right]; split; auto.
  - left. exists i. repeat split; auto; try lia.
    intros j Hj. apply not_true_is_false. apply Hmin. exact Hj.
  - right. split; [|exact Hr].
    intros j Hj. apply not_true_is_false. apply Hnone. exact Hj.
Qed.

(** ** C6: physical_page_alloc *)

(** What [physical_page_alloc] returns and what it changes. *)
Lemma physical_page_alloc_result (st : kstate) (addr own : Z) :
  config_ok -> ledger_ok st -> 0 <= addr < 2 ^ 32 ->
  exists r st',
    physical_page_alloc addr own st = Ok (r, st') /\
    (r = -1 <->
       addr mod PAGESIZE <> 0 \/ MEMSIZE_PHYSICAL <= addr \/
       exists e, pageinfo st !! Z.to_nat (PAGENUMBER addr) = Some e /\ refcount e <> 0) /\
    (r = -1 -> st' = st) /\
    (r <> -1 ->
       r = 0 /\
       pageinfo st' !! Z.to_nat (PAGENUMBER addr) = Some (mk_pageinfo own 1) /\
       (forall j : nat, j <> Z.to_nat (PAGENUMBER addr) ->
          pageinfo st' !! j = pageinfo st !! j) /\
       length (pageinfo st') = length (pageinfo st) /\
       processes st' = processes st /\ current st' = current st /\
       ticks st' = ticks st /\ mem st' = mem st).
Proof.
  intros Hc Hl Ha. pose proof (MEMSIZE_PHYSICAL_eq Hc) as HM.
  unfold physical_page_alloc. rewrite land_0xFFF_mod.
  destruct (addr mod PAGESIZE =? 0) eqn:Hal; simpl.
  2:{ apply Z.eqb_neq in Hal. exists (-1), st. unfold ret.
      repeat split; auto; intros; try lia. }
  apply Z.eqb_eq in Hal.
  destruct (MEMSIZE_PHYSICAL <=? addr) eqn:Hrg.
  { apply Z.leb_le in Hrg. exists (-1), st. unfold ret.
    repeat split; auto; intros; try lia. }
  apply Z.leb_gt in Hrg.
  assert (Hpn : 0 <= PAGENUMBER addr < NPAGES).
  { rewrite PAGENUMBER_div. unfold PAGESIZE in *. split.
    - apply Z.div_pos; lia.
    - apply Z.div_lt_upper_bound; lia. }
  destruct (pageinfo_get_ok st _ Hl Hpn) as (e & He & Hg).
  unfold bind at 1. rewrite Hg.
  destruct (refcount e =? 0) eqn:Hrc; simpl.
  2:{ apply Z.eqb_neq in Hrc. exists (-1), st. unfold ret.
      repeat split; auto; intros; try lia.
      right; right. exists e. auto. }
  apply Z.eqb_eq in Hrc.
  destruct (pageinfo_update_ok st _ (set_refcount 1) Hl Hpn) as (e1 & He1 & Hu1).
  rewrite He in He1. inversion He1; subst e1; clear He1.
  unfold bind at 1. rewrite Hu1.
  set (st1 := set_pageinfo _ st).
  assert (Hl1 : ledger_ok st1) by (apply ledger_ok_set_pageinfo; auto).
  destruct (pageinfo_update_ok st1 _ (set_owner own) Hl1 Hpn) as (e2 & He2 & Hu2).
  unfold bind at 1. rewrite Hu2. unfold ret.
  assert (Hlt : (Z.to_nat (PAGENUMBER addr) < length (pageinfo st))%nat).
  { unfold ledger_ok in Hl. lia. }
  subst st1. simpl in He2. rewrite list_lookup_insert_eq in He2 by exact Hlt.
  inversion He2; subst e2; clear He2.
  eexists 0, _. split; [reflexivity|]. simpl.
  split.
  { split; [lia|]. intros [Hm | [Hm | (e' & He' & Hne)]]; try lia.
    rewrite He in He'. inversion He'; subst. contradiction. }
  split; [lia|]. intros _.
  split; [reflexivity|].
  split.
  { rewrite list_lookup_insert_eq by (rewrite length_insert; exact Hlt). reflexivity. }
  split.
  { intros j Hj. rewrite !list_lookup_insert_ne by auto. reflexivity. }
  split; [rewrite !length_insert; reflexivity|].
  repeat split.
Qed.

(** C6.  For every physical address and owner, [physical_page_alloc]
    returns -1 exactly when the address is misaligned, out of the physical
    range, or the page's refcount is nonzero, and then changes nothing;
    otherwise it returns 0, the page's ledger entry becomes refcount 1 with
    the given owner, and no other ledger entry (nor anything else in the
    kernel state) changes. *)
Theorem physical_page_alloc_spec (st : kstate) (addr own : Z) :
  config_ok -> ledger_ok st -> 0 <= addr < 2 ^ 32 ->
  exists r st',
    physical_page_alloc addr own st = Ok (r, st') /\
    (r = -1 <->
       addr mod PAGESIZE <> 0 \/ MEMSIZE_PHYSICAL <= addr \/
       exists e, pageinfo st !! Z.to_nat (PAGENUMBER addr) = Some e /\ refcount e <> 0) /\
    (r = -1 -> st' = st) /\
    (r <> -1 ->
       r = 0 /\
       pageinfo st' !! Z.to_nat (PAGENUMBER addr) = Some (mk_pageinfo own 1) /\
       (forall j : nat, j <> Z.to_nat (PAGENUMBER addr) ->
          pageinfo st' !! j = pageinfo st !! j) /\
       length (pageinfo st') = length (pageinfo st) /\
       processes st' = processes st /\ current st' = current st /\
       ticks st' = ticks st /\ mem st' = mem st).
Proof. exact (physical_page_alloc_result st addr own). Qed.

(** ** C10: alloc_free_page *)

(** [find_free_physical_page] returns the address of the first page whose
    entry is FREE with refcount 0, or NULL when there is none. *)
Lemma find_free_physical_page_spec (st : kstate) :
  config_ok -> ledger_ok st ->
  (exists i, 0 <= i < NPAGES /\ page_free st i = true /\
     (forall j, 0 <= j < i -> page_free st j = false) /\
     find_free_physical_page st = Ok (PAGEADDRESS i, st))
  \/ ((forall j, 0 <= j < NPAGES -> page_free st j = false) /\
      find_free_physical_page st = Ok (NULL, st)).
Proof.
  intros Hc Hl. unfold find_free_physical_page, for_range.
  rewrite trip_count_1.
  destruct (for_loop_scan (page_free st) PAGEADDRESS
      (fun i => e <- pageinfo_get i ;;
                if (owner e =? 0) && (refcount e =? 0)
                then ret (Break (PAGEADDRESS i)) else ret Continue)
      st (Z.to_nat (NPAGES - 0)) 0) as [(i & Hi & HP & Hmin & Hr) | (Hnone & Hr)].
  - intros i Hi. destruct Hc as [Hp _].
    destruct (pageinfo_get_ok st i Hl) as (e & He & Hg); [lia|].
    unfold bind. rewrite Hg. unfold page_free. rewrite He. unfold is_free.
    destruct ((owner e =? 0) && (refcount e =? 0)); reflexivity.
  - left. exists i. destruct Hc as [Hp _].
    repeat split; try lia; auto. rewrite (bind_ok _ _ _ _ _ Hr). reflexivity.
  - right. destruct Hc as [Hp _]. split.
    + intros j Hj. apply Hnone. lia.
    + rewrite (bind_ok _ _ _ _ _ Hr). reflexivity.
Qed.

(** The allocator hands out the first free page, unless that is page 0,
    whose address is NULL. *)
Lemma alloc_free_page_result (st : kstate) (own : Z) :
  config_ok -> ledger_ok st ->
  (exists i e,
     0 < i < NPAGES /\ PAGEADDRESS i <> NULL /\
     page_free st i = true /\ (forall j, 0 <= j < i -> page_free st j = false) /\
     pageinfo st !! Z.to_nat i = Some e /\ owner e = 0 /\ refcount e = 0 /\
     alloc_free_page own st =
       Ok (PAGEADDRESS i,
           set_pageinfo (<[Z.to_nat i := mk_pageinfo own 1]> (pageinfo st)) st))
  \/ (alloc_free_page own st = Ok (NULL, st) /\
      (page_free st 0 = true \/ forall j, 0 <= j < NPAGES -> page_free st j = false)).
Proof.
  intros Hc Hl. unfold alloc_free_page.
  destruct (find_free_physical_page_spec st Hc Hl)
    as [(i & Hi & HP & Hmin & Hr) | (Hnone & Hr)].
  2:{ right. rewrite (bind_ok _ _ _ _ _ Hr). split; [reflexivity | right; exact Hnone]. }
  rewrite (bind_ok _ _ _ _ _ Hr).
  assert (Hi20 : 0 <= i < 2 ^ 20) by (destruct Hc as [Hp _]; lia).
  destruct (PAGEADDRESS i =? NULL) eqn:Hnull.
  { right. split; [reflexivity|]. left.
    apply Z.eqb_eq in Hnull. rewrite PAGEADDRESS_small in Hnull by exact Hi20.
    unfold NULL, PAGESIZE in Hnull. assert (i = 0) as -> by lia. exact HP. }
  apply Z.eqb_neq in Hnull. left.
  assert (Ha : 0 <= PAGEADDRESS i < 2 ^ 32).
  { rewrite PAGEADDRESS_small by exact Hi20. unfold PAGESIZE. lia. }
  destruct (physical_page_alloc_result st (PAGEADDRESS i) own Hc Hl Ha)
    as (r & st' & Hpa & Hfail & Hsame & Hsucc).
  rewrite (bind_ok _ _ _ _ _ Hpa).
  rewrite PAGENUMBER_PAGEADDRESS in * by exact Hi20.
  pose proof HP as HP'. unfold page_free in HP'.
  destruct (pageinfo st !! Z.to_nat i) as [e|] eqn:He; [|discriminate].
  unfold is_free in HP'. apply andb_true_iff in HP'. destruct HP' as [Ho Hrc].
  apply Z.eqb_eq in Ho. apply Z.eqb_eq in Hrc.
  assert (Hr1 : r <> -1).
  { intros Hr1. apply Hfail in Hr1.
    destruct Hr1 as [Hm | [Hm | (e' & He' & Hne)]].
    - rewrite <- land_0xFFF_mod, PAGEADDRESS_aligned in Hm by exact Hi20. lia.
    - rewrite MEMSIZE_PHYSICAL_eq, PAGEADDRESS_small in Hm by assumption.
      unfold PAGESIZE in Hm. lia.
    - inversion He'; subst. contradiction. }
  destruct (Hsucc Hr1) as (-> & Hnew & Hother & Hlen & Hps & Hcur & Htk & Hmem).
  exists i, e.
  assert (Hi0 : 0 < i < NPAGES).
  { split; [|lia]. destruct (Z.eq_dec i 0) as [->|]; [|lia].
    exfalso. apply Hnull. reflexivity. }
  assert (Hst' : st' = set_pageinfo (<[Z.to_nat i := mk_pageinfo own 1]> (pageinfo st)) st).
  { assert (Hpi : pageinfo st' = <[Z.to_nat i := mk_pageinfo own 1]> (pageinfo st)).
    { apply list_eq. intros j. destruct (Nat.eq_dec j (Z.to_nat i)) as [->|Hj].
      - rewrite Hnew. symmetry. apply list_lookup_insert_eq.
        apply lookup_lt_Some in He. exact He.
      - rewrite Hother by exact Hj. rewrite list_lookup_insert_ne by auto. reflexivity. }
    destruct st', st; simpl in *; subst; reflexivity. }
  simpl. unfold ret. rewrite Hst'. repeat split; auto; lia.
Qed.

(** C10.  [alloc_free_page] returns either NULL, leaving the state as it
    was, or the address of a page whose ledger entry was owner FREE with
    refcount 0 just before the call (so neither RESERVED nor KERNEL); in
    that case the entry becomes the requested owner with refcount 1 and
    nothing else changes. *)
Theorem alloc_free_page_spec (st : kstate) (own : Z) :
  config_ok -> ledger_ok st ->
  exists a st',
    alloc_free_page own st = Ok (a, st') /\
    (a = NULL -> st' = st) /\
    (a <> NULL ->
       exists i e,
         0 <= i < NPAGES /\ a = PAGEADDRESS i /\
         pageinfo st !! Z.to_nat i = Some e /\
         owner e = PO_FREE /\ refcount e = 0 /\
         owner e <> PO_RESERVED /\ owner e <> PO_KERNEL /\
         pageinfo st' !! Z.to_nat i = Some (mk_pageinfo own 1) /\
         (forall j : nat, j <> Z.to_nat i -> pageinfo st' !! j = pageinfo st !! j) /\
         length (pageinfo st') = length (pageinfo st) /\
         processes st' = processes st /\ current st' = current st /\
         ticks st' = ticks st /\ mem st' = mem st).
Proof.
  intros Hc Hl.
  destruct (alloc_free_page_result st own Hc Hl)
    as [(i & e & Hi & Hnull & _ & _ & He & Ho & Hrc & Ha) | (Ha & _)].
  - eexists _, _. split; [exact Ha|]. split; [intros Hn; contradiction|]. intros _.
    exists i, e. unfold PO_FREE, PO_RESERVED, PO_KERNEL. simpl.
    assert (Hlt : (Z.to_nat i < length (pageinfo st))%nat)
      by (apply lookup_lt_Some in He; exact He).
    repeat split; auto; try lia.
    + apply list_lookup_insert_eq. exact Hlt.
    + intros j Hj. apply list_lookup_insert_ne. auto.
    + apply length_insert.
  - exists NULL, st. split; [exact Ha|]. split; [auto|]. intros Hn; contradiction.
Qed.

(** ** The page-allocate syscall *)

(** Mapping one page into a table whose first-level slot is present
    stores one second-level entry. *)
Lemma virtual_memory_map_page (st : kstate) (pagetable va pa perm : Z) :
  Z.land (load32 (mem st) (pagetable + 4 * L1PAGEINDEX va)) PTE_P <> 0 ->
  virtual_memory_map pagetable va pa PAGESIZE perm st =
    Ok (tt, set_mem
              (store32 (mem st)
                 (PTE_ADDR (load32 (mem st) (pagetable + 4 * L1PAGEINDEX va))
                  + 4 * L2PAGEINDEX va)
                 (if Z.land perm PTE_P =? 0 then perm else Z.lor pa perm)) st).
Proof.
  intros Hl1. unfold virtual_memory_map. apply Z.eqb_neq in Hl1.
  change (PAGESIZE mod PAGESIZE =? 0) with true.
  change (Z.to_nat (PAGESIZE / PAGESIZE)) with 1%nat.
  unfold map_pages, map_one, assert, bind, ret. rewrite Hl1. reflexivity.
Qed.


Lemma land_flags_present (x : Z) : Z.land x PTE_P = Z.land (PTE_FLAGS x) PTE_P.
Proof.
  unfold PTE_FLAGS, PTE_P. rewrite <- Z.land_assoc.
  change (Z.land 0xFFF 1) with 1. reflexivity.
Qed.

(** Looking up an address right after a present entry was stored for it. *)
Lemma lookup_after_map (m : memory) (pagetable va i perm : Z) :
  0 <= i < 2 ^ 20 -> 0 <= perm < PAGESIZE -> Z.land perm PTE_P <> 0 ->
  va mod PAGESIZE = 0 ->
  let l1 := pagetable + 4 * L1PAGEINDEX va in
  let pe1 := load32 m l1 in
  let slot := PTE_ADDR pe1 + 4 * L2PAGEINDEX va in
  Z.land pe1 PTE_P <> 0 ->
  (slot + 4 <= l1 \/ l1 + 4 <= slot) ->
  virtual_memory_lookup (store32 m slot (Z.lor (PAGEADDRESS i) perm)) pagetable va
    = mk_vam i (PAGEADDRESS i) perm.
Proof.
  intros Hi Hperm Hpres Hva l1 pe1 slot Hl1 Hdisj.
  assert (Hpa : PAGEADDRESS i = i * PAGESIZE) by (apply PAGEADDRESS_small; exact Hi).
  destruct (entry_decode (PAGEADDRESS i) perm) as (Hr & Hpn & Haddr & Hfl); auto.
  { rewrite Hpa. unfold PAGESIZE. lia. }
  { rewrite Hpa. unfold PAGESIZE. lia. }
  { rewrite Hpa. apply Z.mod_mul. unfold PAGESIZE. lia. }
  unfold virtual_memory_lookup. fold l1.
  rewrite load32_store32_other by (fold pe1; fold slot; lia).
  fold pe1. apply Z.eqb_neq in Hl1. rewrite Hl1. fold slot.
  rewrite load32_store32_same by exact Hr.
  rewrite land_flags_present, Hfl. apply Z.eqb_neq in Hpres. rewrite Hpres.
  rewrite Hpn, Haddr. unfold PAGEOFFSET. rewrite land_0xFFF_mod, Hva.
  rewrite Hpa at 1. rewrite Z.div_mul by (unfold PAGESIZE; lia).
  rewrite Z.add_0_r. reflexivity.
Qed.

(** What the page-allocate syscall does, for a caller whose first-level
    slot for the requested address is present.  With a free page and a
    valid address the first free page is charged to the caller, mapped at
    the address writable and user-accessible, and the caller gets 0.  With
    a free page and an invalid address the caller gets -1, and the page is
    charged to the caller all the same.  Without a free page the caller
    gets -1 and nothing else changes. *)
Lemma sys_page_alloc_spec (st : kstate) (curp : proc) :
  config_ok -> ledger_ok st -> proctable_ok st ->
  0 <= current st < NPROC ->
  processes st !! Z.to_nat (current st) = Some curp ->
  page_free st 0 = false ->
  let addr := reg_eax (p_registers curp) in
  let l1 := p_pagetable curp + 4 * L1PAGEINDEX addr in
  let slot := PTE_ADDR (load32 (mem st) l1) + 4 * L2PAGEINDEX addr in
  Z.land (load32 (mem st) l1) PTE_P <> 0 ->
  (slot + 4 <= l1 \/ l1 + 4 <= slot) ->
  (exists i st',
     0 < i < NPAGES /\ page_free st i = true /\
     (forall j, 0 <= j < i -> page_free st j = false) /\
     sys_page_alloc st = Ok (tt, st') /\
     pageinfo st' = <[Z.to_nat i := mk_pageinfo (int8 (p_pid curp)) 1]> (pageinfo st) /\
     current st' = current st /\
     (valid_request addr ->
        processes st' = <[Z.to_nat (current st) := update_eax 0 curp]> (processes st) /\
        virtual_memory_lookup (mem st') (p_pagetable curp) addr
          = mk_vam i (PAGEADDRESS i) (Z.lor (Z.lor PTE_P PTE_W) PTE_U)) /\
     (~ valid_request addr ->
        processes st' = <[Z.to_nat (current st) := update_eax (-1) curp]> (processes st) /\
        mem st' = mem st))
  \/
  ((forall j, 0 <= j < NPAGES -> page_free st j = false) /\
   sys_page_alloc st =
     Ok (tt, set_processes
               (<[Z.to_nat (current st) := update_eax (-1) curp]> (processes st)) st)).
Proof.
  intros Hc Hl Hpt Hcur Hp Hp0 addr l1 slot Hl1 Hdisj.
  destruct (proc_get_ok st _ Hpt Hcur) as (p' & Hp' & Hg).
  rewrite Hp in Hp'. inversion Hp'; subst p'; clear Hp'.
  unfold sys_page_alloc.
  rewrite (bind_ok _ _ st st (current st)) by reflexivity.
  rewrite (bind_ok _ _ _ _ _ Hg). cbv zeta. fold addr.
  destruct (alloc_free_page_result st (int8 (p_pid curp)) Hc Hl)
    as [(i & e & Hi & Hnull & Hfree & Hmin & He & _ & _ & Ha) | (Ha & [Hzero | Hnone])].
  - (* a page was allocated *)
    left. rewrite (bind_ok _ _ _ _ _ Ha).
    set (st1 := set_pageinfo _ st).
    assert (Hpt1 : proctable_ok st1) by exact Hpt.
    apply Z.eqb_neq in Hnull. rewrite Hnull. simpl negb. rewrite andb_true_l.
    destruct ((addr mod PAGESIZE =? 0) && (PROC_START_ADDR <=? addr)
              && (addr <? MEMSIZE_VIRTUAL)) eqn:Hok.
    + (* the request is valid *)
      apply andb_true_iff in Hok. destruct Hok as [Hok Hhi].
      apply andb_true_iff in Hok. destruct Hok as [Hal Hlo].
      apply Z.eqb_eq in Hal. apply Z.leb_le in Hlo. apply Z.ltb_lt in Hhi.
      rewrite (bind_ok _ _ _ _ _
                 (virtual_memory_map_page st1 (p_pagetable curp) addr (PAGEADDRESS i)
                    (Z.lor (Z.lor PTE_P PTE_W) PTE_U) Hl1)).
      set (st2 := set_mem _ st1).
      exists i. eexists. split; [exact Hi|]. split; [exact Hfree|]. split; [exact Hmin|].
      split; [apply (proc_update_at st2 _ curp); auto|].
      simpl. split; [reflexivity|]. split; [reflexivity|]. split.
      * intros _. split; [reflexivity|].
        apply (lookup_after_map (mem st) (p_pagetable curp) addr i 7); auto.
        -- destruct Hc as [Hnp _]. lia.
        -- unfold PAGESIZE. lia.
      * intros Hbad. exfalso. apply Hbad. split; [exact Hal | lia].
    + (* the request is rejected *)
      exists i. eexists. split; [exact Hi|]. split; [exact Hfree|]. split; [exact Hmin|].
      split; [apply (proc_update_at st1 _ curp); auto|].
      simpl. split; [reflexivity|]. split; [reflexivity|]. split.
      * intros (Hal & Hlo & Hhi). exfalso.
        apply Z.eqb_eq in Hal. apply Z.leb_le in Hlo. apply Z.ltb_lt in Hhi.
        rewrite Hal, Hlo, Hhi in Hok. discriminate.
      * intros _. split; reflexivity.
  - rewrite Hzero in Hp0. discriminate.
  - (* no free page *)
    right. split; [exact Hnone|].
    rewrite (bind_ok _ _ _ _ _ Ha). simpl.
    apply (proc_update_at st _ curp); auto.
Qed.

(** ** One iteration of the fork loop *)

(** A present, non-writable parent mapping of an existing page: the child
    gets an entry for the same page with the same permission and the
    page's refcount goes up by one (kernel.c:344-345). *)
Lemma fork_page_shared (st : kstate) (chld_pid va pn perm : Z) (curp copy : proc)
    (e : physical_pageinfo) :
  config_ok -> ledger_ok st -> proctable_ok st ->
  0 <= current st < NPROC -> processes st !! Z.to_nat (current st) = Some curp ->
  0 <= chld_pid < NPROC -> processes st !! Z.to_nat chld_pid = Some copy ->
  va mod PAGESIZE = 0 ->
  virtual_memory_lookup (mem st) (p_pagetable curp) va = mk_vam pn (PAGEADDRESS pn) perm ->
  0 <= pn < NPAGES -> pageinfo st !! Z.to_nat pn = Some e ->
  0 <= perm < PAGESIZE -> Z.land perm PTE_P <> 0 -> Z.land perm PTE_W = 0 ->
  let l1 := p_pagetable copy + 4 * L1PAGEINDEX va in
  let slot := PTE_ADDR (load32 (mem st) l1) + 4 * L2PAGEINDEX va in
  Z.land (load32 (mem st) l1) PTE_P <> 0 ->
  (slot + 4 <= l1 \/ l1 + 4 <= slot) ->
  exists st',
    fork_page chld_pid va st = Ok (Continue, st') /\
    pageinfo st' =
      <[Z.to_nat pn := set_refcount (int8 (refcount e + 1)) e]> (pageinfo st) /\
    processes st' = processes st /\ current st' = current st /\
    virtual_memory_lookup (mem st') (p_pagetable copy) va
      = mk_vam pn (PAGEADDRESS pn) perm.
Proof.
  intros Hc Hl Hpt Hcur Hcurp Hchld Hcopy Hva Hvam Hpn He Hperm Hpres Hro l1 slot Hl1 Hdisj.
  destruct (proc_get_ok st _ Hpt Hcur) as (p1 & Hp1 & Hg1).
  rewrite Hcurp in Hp1. inversion Hp1; subst p1; clear Hp1.
  destruct (proc_get_ok st _ Hpt Hchld) as (p2 & Hp2 & Hg2).
  rewrite Hcopy in Hp2. inversion Hp2; subst p2; clear Hp2.
  unfold fork_page.
  rewrite (bind_ok _ _ st st (current st)) by reflexivity.
  rewrite (bind_ok _ _ _ _ _ Hg1).
  rewrite (bind_ok _ _ st st (mk_vam pn (PAGEADDRESS pn) perm))
    by (unfold gets; rewrite Hvam; reflexivity).
  cbn [vam_perm vam_pa vam_pn].
  rewrite Hro. simpl negb. rewrite andb_false_r.
  rewrite (bind_ok _ _ _ _ _ Hg2).
  rewrite (bind_ok _ _ _ _ _
             (virtual_memory_map_page st (p_pagetable copy) va (PAGEADDRESS pn) perm Hl1)).
  set (st1 := set_mem _ st).
  assert (Hl' : ledger_ok st1) by exact Hl.
  rewrite (bind_ok _ _ _ _ _ (pageinfo_update_at st1 pn e _ Hl' Hpn He)).
  eexists. split; [reflexivity|]. simpl.
  split; [reflexivity|]. split; [reflexivity|]. split; [reflexivity|].
  apply Z.eqb_neq in Hpres. rewrite Hpres. apply Z.eqb_neq in Hpres.
  apply lookup_after_map; auto. destruct Hc as [Hnp _]. lia.
Qed.

(** A present, writable parent mapping, with a free page left: the first
    free page is charged to the child, receives the bytes of the parent's
    page and is entered in the child's table at the same address with the
    same permission (kernel.c:328-342). *)
Lemma fork_page_copied (st : kstate) (chld_pid va : Z) (vam : vamapping)
    (curp copy : proc) :
  config_ok -> ledger_ok st -> proctable_ok st ->
  0 <= current st < NPROC -> processes st !! Z.to_nat (current st) = Some curp ->
  0 <= chld_pid < NPROC -> processes st !! Z.to_nat chld_pid = Some copy ->
  va mod PAGESIZE = 0 ->
  virtual_memory_lookup (mem st) (p_pagetable curp) va = vam ->
  0 <= vam_perm vam < PAGESIZE ->
  Z.land (vam_perm vam) PTE_P <> 0 -> Z.land (vam_perm vam) PTE_W <> 0 ->
  page_free st 0 = false ->
  forall i, 0 <= i < NPAGES -> page_free st i = true ->
  (forall j, 0 <= j < i -> page_free st j = false) ->
  let l1 := p_pagetable copy + 4 * L1PAGEINDEX va in
  let slot := PTE_ADDR (load32 (mem st) l1) + 4 * L2PAGEINDEX va in
  Z.land (load32 (mem st) l1) PTE_P <> 0 ->
  (slot + 4 <= l1 \/ l1 + 4 <= slot) ->
  (l1 + 4 <= PAGEADDRESS i \/ PAGEADDRESS i + PAGESIZE <= l1) ->
  (slot + 4 <= PAGEADDRESS i \/ PAGEADDRESS i + PAGESIZE <= slot) ->
  exists st',
    fork_page chld_pid va st = Ok (Continue, st') /\
    pageinfo st' = <[Z.to_nat i := mk_pageinfo (int8 chld_pid) 1]> (pageinfo st) /\
    processes st' = processes st /\ current st' = current st /\
    (forall off, 0 <= off < PAGESIZE ->
       mem st' (PAGEADDRESS i + off) = mem st (vam_pa vam + off)) /\
    virtual_memory_lookup (mem st') (p_pagetable copy) va
      = mk_vam i (PAGEADDRESS i) (vam_perm vam).
Proof.
  intros Hc Hl Hpt Hcur Hcurp Hchld Hcopy Hva Hvam Hperm Hpres Hw Hp0
         i Hi Hfree Hmin l1 slot Hl1 Hdisj Hl1i Hsloti.
  destruct (proc_get_ok st _ Hpt Hcur) as (p1 & Hp1 & Hg1).
  rewrite Hcurp in Hp1. inversion Hp1; subst p1; clear Hp1.
  unfold fork_page.
  rewrite (bind_ok _ _ st st (current st)) by reflexivity.
  rewrite (bind_ok _ _ _ _ _ Hg1).
  rewrite (bind_ok _ _ st st vam) by (unfold gets; rewrite Hvam; reflexivity).
  assert (Hnz : (vam_perm vam =? 0) = false).
  { apply Z.eqb_neq. intros H0. rewrite H0 in Hpres. apply Hpres. reflexivity. }
  apply Z.eqb_neq in Hw. rewrite Hnz, Hw. cbn [negb andb].
  destruct (alloc_free_page_result st (int8 chld_pid) Hc Hl)
    as [(i' & e & Hi' & Hnull & Hfree' & Hmin' & He & _ & _ & Ha) | (Ha & [Hzero | Hnone])].
  2:{ rewrite Hzero in Hp0. discriminate. }
  2:{ rewrite Hnone in Hfree by exact Hi. discriminate. }
  assert (i' = i) as ->.
  { destruct (Z.lt_trichotomy i' i) as [Hlt | [Heq | Hgt]]; [|exact Heq|].
    - rewrite Hmin in Hfree' by lia. discriminate.
    - rewrite Hmin' in Hfree by lia. discriminate. }
  rewrite (bind_ok _ _ _ _ _ Ha).
  apply Z.eqb_neq in Hnull. rewrite Hnull.
  set (st1 := set_pageinfo _ st).
  rewrite (bind_ok _ _ st1 (set_mem (memcpy (mem st1) (PAGEADDRESS i) (vam_pa vam) PAGESIZE) st1) tt)
    by reflexivity.
  set (st2 := set_mem _ st1).
  assert (Hpt2 : proctable_ok st2) by exact Hpt.
  destruct (proc_get_ok st2 _ Hpt2 Hchld) as (p2 & Hp2 & Hg2).
  change (processes st2) with (processes st) in Hp2.
  rewrite Hcopy in Hp2. inversion Hp2; subst p2; clear Hp2.
  rewrite (bind_ok _ _ _ _ _ Hg2).
  assert (Hload : load32 (mem st2) l1 = load32 (mem st) l1).
  { subst st2 st1. simpl. apply load32_memcpy_other. lia. }
  assert (Hl1' : Z.land (load32 (mem st2) (p_pagetable copy + 4 * L1PAGEINDEX va)) PTE_P <> 0).
  { fold l1. rewrite Hload. exact Hl1. }
  rewrite (bind_ok _ _ _ _ _
             (virtual_memory_map_page st2 (p_pagetable copy) va (PAGEADDRESS i)
                (vam_perm vam) Hl1')).
  eexists. split; [reflexivity|]. simpl.
  split; [reflexivity|]. split; [reflexivity|]. split; [reflexivity|].
  assert (Hload' : load32 (memcpy (mem st) (PAGEADDRESS i) (vam_pa vam) PAGESIZE) l1
                   = load32 (mem st) l1) by exact Hload.
  apply Z.eqb_neq in Hpres. rewrite Hpres. apply Z.eqb_neq in Hpres.
  fold l1. split.
  - intros off Hoff. rewrite store32_outside by (rewrite Hload'; fold slot; lia).
    exact (memcpy_inside (mem st) (PAGEADDRESS i) (vam_pa vam) PAGESIZE off Hoff).
  - apply lookup_after_map; auto.
    + destruct Hc as [Hnp _]. lia.
    + fold l1. rewrite Hload'. exact Hdisj.
Qed.

(** ** C9: fork with a full process table *)

(** [find_free_process_slot] returns the lowest FREE slot among
    1..NPROC-1, or -1. *)
Lemma find_free_process_slot_spec (st : kstate) :
  config_ok -> proctable_ok st ->
  (exists i, 1 <= i < NPROC /\ slot_free st i = true /\
     (forall j, 1 <= j < i -> slot_free st j = false) /\
     find_free_process_slot st = Ok (i, st))
  \/ ((forall j, 1 <= j < NPROC -> slot_free st j = false) /\
      find_free_process_slot st = Ok (-1, st)).
Proof.
  intros Hc Hl. unfold find_free_process_slot, for_range.
  rewrite trip_count_1. destruct Hc as [_ Hn].
  destruct (for_loop_scan (slot_free st) (fun i => i)
      (fun i => p <- proc_get i ;;
                if procstate_eqb (p_state p) P_FREE then ret (Break i)
                else ret Continue)
      st (Z.to_nat (NPROC - 1)) 1) as [(i & Hi & HP & Hmin & Hr) | (Hnone & Hr)].
  - intros i Hi.
    destruct (proc_get_ok st i Hl) as (p & Hp & Hg); [lia|].
    rewrite (bind_ok _ _ _ _ _ Hg). unfold slot_free. rewrite Hp.
    destruct (procstate_eqb (p_state p) P_FREE); reflexivity.
  - left. exists i. repeat split; try lia; auto.
    rewrite (bind_ok _ _ _ _ _ Hr). reflexivity.
  - right. split.
    + intros j Hj. apply Hnone. lia.
    + rewrite (bind_ok _ _ _ _ _ Hr). reflexivity.
Qed.

(** C9.  If every slot from 1 to NPROC-1 is non-FREE, [fork_process]
    returns -1 and the kernel state (descriptors, ledger, memory and so
    every translation root) is exactly the state before the call. *)
Theorem fork_process_no_free_slot (st : kstate) :
  config_ok -> proctable_ok st ->
  (forall i p, 1 <= i < NPROC -> processes st !! Z.to_nat i = Some p ->
               p_state p <> P_FREE) ->
  fork_process st = Ok (-1, st).
Proof.
  intros Hc Hl Hfull. unfold fork_process.
  destruct (find_free_process_slot_spec st Hc Hl)
    as [(i & Hi & HP & _ & _) | (_ & Hr)].
  - exfalso. unfold slot_free in HP.
    destruct (processes st !! Z.to_nat i) as [p|] eqn:Hp; [|discriminate].
    apply procstate_eqb_eq in HP. exact (Hfull i p Hi Hp HP).
  - rewrite (bind_ok _ _ _ _ _ Hr). reflexivity.
Qed.

(** ** find_page_owner and free_current_process *)

(** The inner loop of [find_page_owner] over one address space. *)
Lemma find_page_owner_inner (st : kstate) (pagetable pagenum pid : Z) :
  config_ok ->
  (scan_hits (mem st) pagetable pagenum /\
   for_range 0 NPAGES (fun k =>
     vam <- gets (fun st => virtual_memory_lookup (mem st) pagetable (PAGEADDRESS k)) ;;
     if vam_pa vam =? PAGEADDRESS pagenum then ret (Break pid) else ret Continue) st
   = Ok (Some pid, st))
  \/
  (~ scan_hits (mem st) pagetable pagenum /\
   for_range 0 NPAGES (fun k =>
     vam <- gets (fun st => virtual_memory_lookup (mem st) pagetable (PAGEADDRESS k)) ;;
     if vam_pa vam =? PAGEADDRESS pagenum then ret (Break pid) else ret Continue) st
   = Ok (None, st)).
Proof.
  intros [Hp _]. unfold for_range. rewrite trip_count_1.
  match goal with |- context [for_loop _ _ _ ?b st] => set (body := b) end.
  destruct (for_loop_scan (fun k => maps_at (mem st) pagetable k pagenum)
              (fun _ => pid) body st (Z.to_nat (NPAGES - 0)) 0)
    as [(k & Hk & HP & _ & Hr) | (Hnone & Hr)].
  - intros k Hk. subst body. unfold bind, gets, maps_at. simpl.
    destruct (_ =? _); reflexivity.
  - left. split; [|exact Hr]. exists k. split; [lia | exact HP].
  - right. split; [|exact Hr]. intros (k & Hk & HP).
    rewrite Hnone in HP by lia. discriminate.
Qed.

(** [find_page_owner] returns the lowest RUNNABLE slot among 1..NPROC-1
    whose address space maps the page below virtual page NPAGES, or -1,
    and leaves the state alone. *)
Lemma find_page_owner_spec (st : kstate) (pagenum : Z) :
  config_ok -> proctable_ok st ->
  exists q, find_page_owner pagenum st = Ok (q, st) /\ page_owner_result st pagenum q.
Proof.
  intros Hc Hl. unfold find_page_owner, for_range at 1. rewrite trip_count_1.
  match goal with |- context [for_loop _ _ _ ?b] => set (body := b) end.
  destruct (for_loop_search (candidate st pagenum) (fun pid => pid) body st
              (Z.to_nat (NPROC - 1)) 1)
    as [(q & Hq & HP & Hmin & Hr) | (Hnone & Hr)].
  - intros pid Hpid. destruct Hc as [Hp Hn].
    destruct (proc_get_ok st pid Hl) as (p & Hp' & Hg); [lia|].
    subst body. cbv beta. rewrite (bind_ok _ _ _ _ _ Hg).
    destruct (procstate_eqb (p_state p) P_RUNNABLE) eqn:Hrun.
    + apply procstate_eqb_eq in Hrun.
      destruct (find_page_owner_inner st (p_pagetable p) pagenum pid (conj Hp Hn))
        as [[Hhit Hin] | [Hmiss Hin]]; rewrite (bind_ok _ _ _ _ _ Hin).
      * left. split; [|reflexivity]. exists p. auto.
      * right. split; [|reflexivity]. intros (p' & Hp'' & _ & Hhit).
        rewrite Hp' in Hp''. inversion Hp''; subst p'. contradiction.
    + right. split; [|reflexivity]. intros (p' & Hp'' & Hst & _).
      rewrite Hp' in Hp''. inversion Hp''; subst p'.
      rewrite Hst in Hrun. discriminate.
  - exists q. rewrite (bind_ok _ _ _ _ _ Hr). split; [reflexivity|].
    left. destruct Hc as [_ Hn]. repeat split; try lia; auto.
  - exists (-1). rewrite (bind_ok _ _ _ _ _ Hr). split; [reflexivity|].
    right. split; [reflexivity|]. intros j Hj. apply Hnone. destruct Hc as [_ Hn]. lia.
Qed.

Lemma candidate_frame (s s' : kstate) (pagenum pid : Z) :
  processes s = processes s' -> mem s = mem s' ->
  candidate s pagenum pid -> candidate s' pagenum pid.
Proof. unfold candidate. intros <- <-. auto. Qed.

Lemma page_owner_result_frame (s s' : kstate) (pagenum q : Z) :
  processes s = processes s' -> mem s = mem s' ->
  page_owner_result s pagenum q -> page_owner_result s' pagenum q.
Proof.
  intros Hps Hm [(Hq & Hc & Hmin) | (Hq & Hnone)]; [left | right].
  - split; [exact Hq|]. split; [eapply candidate_frame; eauto|].
    intros j Hj Hcj. apply (Hmin j Hj).
    apply (candidate_frame s' s); auto.
  - split; [exact Hq|]. intros j Hj Hcj. apply (Hnone j Hj).
    apply (candidate_frame s' s); auto.
Qed.

Lemma page_owner_result_unique (st : kstate) (pagenum q q' : Z) :
  page_owner_result st pagenum q -> page_owner_result st pagenum q' -> q = q'.
Proof.
  intros [(Hq & Hc & Hmin) | (-> & Hnone)] [(Hq' & Hc' & Hmin') | (-> & Hnone')].
  - destruct (Z.lt_trichotomy q q') as [Hlt | [Heq | Hgt]]; [|exact Heq|].
    + exfalso. apply (Hmin' q); [lia | exact Hc].
    + exfalso. apply (Hmin q'); [lia | exact Hc'].
  - exfalso. apply (Hnone' q Hq Hc).
  - exfalso. apply (Hnone q' Hq' Hc').
  - reflexivity.
Qed.

(** One iteration of the exit loop rewrites entry [i] to [exit_entry]. *)
Lemma free_page_entry_spec (s : kstate) (p i : Z) (pr : proc) (e : physical_pageinfo) :
  config_ok -> ledger_ok s -> proctable_ok s ->
  0 <= i < NPAGES -> 0 <= p < NPROC ->
  processes s !! Z.to_nat p = Some pr ->
  pageinfo s !! Z.to_nat i = Some e ->
  exists q, page_owner_result s i q /\
    free_page_entry p i s =
      Ok (Continue,
          set_pageinfo (<[Z.to_nat i := exit_entry (p_pid pr) e q]> (pageinfo s)) s).
Proof.
  intros Hc Hl Hpt Hi Hp Hpr He.
  destruct (pageinfo_get_ok s i Hl Hi) as (e' & He' & Hg).
  rewrite He in He'. inversion He'; subst e'; clear He'.
  destruct (proc_get_ok s p Hpt Hp) as (pr' & Hpr' & Hgp).
  rewrite Hpr in Hpr'. inversion Hpr'; subst pr'; clear Hpr'.
  assert (Hlt : (Z.to_nat i < length (pageinfo s))%nat)
    by (apply lookup_lt_Some in He; exact He).
  unfold free_page_entry.
  rewrite (bind_ok _ _ _ _ _ Hg), (bind_ok _ _ _ _ _ Hgp).
  unfold exit_entry. cbv zeta.
  destruct (owner e =? p_pid pr) eqn:Hown; cbv iota.
  2:{ destruct (find_page_owner_spec s i Hc Hpt) as (q & _ & Hq).
      exists q. split; [exact Hq|]. rewrite list_insert_id by exact He.
      destruct s; reflexivity. }
  destruct (1 <? refcount e) eqn:Hrc; cbv iota.
  - (* several references *)
    set (e1 := set_refcount (int8 (refcount e - 1)) e).
    set (s1 := set_pageinfo (<[Z.to_nat i := e1]> (pageinfo s)) s).
    assert (Hl1 : ledger_ok s1) by (apply ledger_ok_set_pageinfo; exact Hl).
    assert (He1 : pageinfo s1 !! Z.to_nat i = Some e1)
      by (apply list_lookup_insert_eq; exact Hlt).
    destruct (find_page_owner_spec s1 i Hc Hpt) as (q & Hfq & Hq).
    exists q. split; [apply (page_owner_result_frame s1 s); auto|].
    rewrite !bind_assoc.
    rewrite (bind_ok _ _ _ _ _ (pageinfo_update_at s i e _ Hl Hi He)).
    fold e1. fold s1.
    rewrite !bind_assoc, (bind_ok _ _ _ _ _ Hfq).
    destruct (q =? -1) eqn:Hq1; simpl negb; cbv iota.
    + rewrite !bind_assoc.
      rewrite (bind_ok _ _ _ _ _ (pageinfo_update_at s1 i e1 _ Hl1 Hi He1)).
      set (s2 := set_pageinfo _ s1).
      assert (Hl2 : ledger_ok s2) by (apply ledger_ok_set_pageinfo; exact Hl1).
      assert (He2 : pageinfo s2 !! Z.to_nat i = Some (set_owner PO_FREE e1)).
      { apply list_lookup_insert_eq. simpl. rewrite length_insert. exact Hlt. }
      rewrite (bind_ok _ _ _ _ _ (pageinfo_update_at s2 i _ _ Hl2 Hi He2)).
      unfold ret. subst s2 s1. simpl. rewrite !list_insert_insert_eq. reflexivity.
    + rewrite !bind_assoc, (bind_ok _ _ _ _ _ Hfq).
      rewrite (bind_ok _ _ _ _ _ (pageinfo_update_at s1 i e1 _ Hl1 Hi He1)).
      unfold ret. subst s1. simpl. rewrite !list_insert_insert_eq. reflexivity.
  - destruct (refcount e =? 1) eqn:Hrc1; cbv iota.
    + (* the last reference *)
      destruct (find_page_owner_spec s i Hc Hpt) as (q & _ & Hq).
      exists q. split; [exact Hq|].
      set (e1 := set_refcount (int8 (refcount e - 1)) e).
      set (s1 := set_pageinfo (<[Z.to_nat i := e1]> (pageinfo s)) s).
      assert (Hl1 : ledger_ok s1) by (apply ledger_ok_set_pageinfo; exact Hl).
      assert (He1 : pageinfo s1 !! Z.to_nat i = Some e1)
        by (apply list_lookup_insert_eq; exact Hlt).
      rewrite !bind_assoc.
      rewrite (bind_ok _ _ _ _ _ (pageinfo_update_at s i e _ Hl Hi He)).
      fold e1. fold s1.
      rewrite (bind_ok _ _ _ _ _ (pageinfo_update_at s1 i e1 _ Hl1 Hi He1)).
      unfold ret. subst s1. simpl. rewrite !list_insert_insert_eq. reflexivity.
    + (* no reference *)
      destruct (find_page_owner_spec s i Hc Hpt) as (q & _ & Hq).
      exists q. split; [exact Hq|].
      rewrite (bind_ok _ _ _ _ _ (pageinfo_update_at s i e _ Hl Hi He)).
      reflexivity.
Qed.

(** What exit does to the whole state: the descriptor ends FREE, every
    ledger entry [e] becomes [exit_entry pid e q], where [q] is the answer
    of [find_page_owner] while the process is BLOCKED; memory is not
    touched. *)
Lemma free_current_process_spec (st : kstate) (p : Z) (pr : proc) :
  config_ok -> ledger_ok st -> proctable_ok st ->
  0 <= p < NPROC -> processes st !! Z.to_nat p = Some pr ->
  exists st',
    free_current_process p st = Ok (tt, st') /\
    processes st' = <[Z.to_nat p := set_p_state P_FREE pr]> (processes st) /\
    mem st' = mem st /\ current st' = current st /\ ticks st' = ticks st /\
    length (pageinfo st') = length (pageinfo st) /\
    forall i e, 0 <= i < NPAGES -> pageinfo st !! Z.to_nat i = Some e ->
      exists q,
        page_owner_result
          (set_processes (<[Z.to_nat p := set_p_state P_BLOCKED pr]> (processes st)) st)
          i q /\
        pageinfo st' !! Z.to_nat i = Some (exit_entry (p_pid pr) e q).
Proof.
  intros Hc Hl Hpt Hp Hpr.
  set (prb := set_p_state P_BLOCKED pr).
  set (stb := set_processes (<[Z.to_nat p := prb]> (processes st)) st).
  assert (Hplt : (Z.to_nat p < length (processes st))%nat)
    by (apply lookup_lt_Some in Hpr; exact Hpr).
  pose (I := fun (i : Z) (s : kstate) =>
    processes s = processes stb /\ mem s = mem st /\ current s = current st /\
    ticks s = ticks st /\ length (pageinfo s) = length (pageinfo st) /\
    (forall j e, 0 <= j < i -> pageinfo st !! Z.to_nat j = Some e ->
       exists q, page_owner_result stb j q /\
                 pageinfo s !! Z.to_nat j = Some (exit_entry (p_pid pr) e q)) /\
    (forall j, i <= j -> pageinfo s !! Z.to_nat j = pageinfo st !! Z.to_nat j)).
  assert (Hloop : exists s', for_range 0 NPAGES (free_page_entry p) stb = Ok (None, s')
                             /\ I NPAGES s').
  { unfold for_range. rewrite trip_count_1.
    destruct (for_loop_invariant I (free_page_entry p) (Z.to_nat (NPAGES - 0)) 0 stb)
      as (s' & Hs' & HI').
    - unfold I. repeat split; auto. intros; lia.
    - intros i s Hi (Hps & Hm & Hcu & Htk & Hlen & Hdone & Htodo).
      assert (Hi' : 0 <= i < NPAGES) by lia.
      assert (Hls : ledger_ok s) by (unfold ledger_ok in *; lia).
      assert (Hpts : proctable_ok s).
      { unfold proctable_ok in *. rewrite Hps. subst stb. simpl.
        rewrite length_insert. exact Hpt. }
      assert (Hprs : processes s !! Z.to_nat p = Some prb).
      { rewrite Hps. subst stb. simpl. apply list_lookup_insert_eq. exact Hplt. }
      destruct (pageinfo_get_ok st i Hl Hi') as (e & He & _).
      assert (Hes : pageinfo s !! Z.to_nat i = Some e) by (rewrite Htodo by lia; exact He).
      destruct (free_page_entry_spec s p i prb e Hc Hls Hpts Hi' Hp Hprs Hes)
        as (q & Hq & Hbody).
      eexists. split; [exact Hbody|].
      unfold I. simpl. rewrite length_insert.
      repeat split; auto.
      + intros j e0 Hj He0. destruct (Z.eq_dec j i) as [->|Hne].
        * rewrite He in He0. inversion He0; subst e0. exists q. split.
          -- apply (page_owner_result_frame s stb); auto.
          -- apply list_lookup_insert_eq. apply lookup_lt_Some in Hes. exact Hes.
        * destruct (Hdone j e0 ltac:(lia) He0) as (q0 & Hq0 & Hj0).
          exists q0. split; [exact Hq0|].
          rewrite list_lookup_insert_ne by lia. exact Hj0.
      + intros j Hj. rewrite list_lookup_insert_ne by lia. apply Htodo. lia.
    - exists s'. split; [exact Hs'|]. destruct Hc as [Hnp _].
      replace (0 + Z.of_nat (Z.to_nat (NPAGES - 0))) with NPAGES in HI' by lia.
      exact HI'. }
  destruct Hloop as (s' & Hs' & Hps & Hm & Hcu & Htk & Hlen & Hdone & _).
  assert (Hpts : proctable_ok s').
  { unfold proctable_ok in *. rewrite Hps. subst stb. simpl.
    rewrite length_insert. exact Hpt. }
  assert (Hprs : processes s' !! Z.to_nat p = Some prb).
  { rewrite Hps. subst stb. simpl. apply list_lookup_insert_eq. exact Hplt. }
  eexists. split.
  { unfold free_current_process.
    rewrite (bind_ok _ _ _ _ _ (proc_update_at st p pr _ Hpt Hp Hpr)).
    fold prb. fold stb. rewrite (bind_ok _ _ _ _ _ Hs').
    apply (proc_update_at s' p prb _ Hpts Hp Hprs). }
  simpl. rewrite Hps. subst stb. simpl. rewrite list_insert_insert_eq.
  repeat split; auto.
Qed.

(** ** C7: the scheduler *)

Lemma scan_slot_range (pid : Z) (d : nat) : config_ok -> 0 <= scan_slot pid d < NPROC.
Proof. intros [_ Hn]. unfold scan_slot. apply Z.mod_pos_bound. lia. Qed.

Lemma scan_slot_next (pid : Z) (d : nat) :
  config_ok -> scan_slot (scan_slot pid 0) d = scan_slot pid (S d).
Proof.
  intros [_ Hn]. unfold scan_slot.
  rewrite <- Z.add_assoc, Zplus_mod_idemp_l. f_equal. lia.
Qed.

Lemma run_runnable (st : kstate) (i : Z) :
  proctable_ok st -> 0 <= i < NPROC -> runnable st i = true ->
  run i st = Resumed (set_current i st).
Proof.
  intros Hl Hi Hr. unfold run.
  destruct (proc_get_ok st i Hl Hi) as (p & Hp & Hg). rewrite Hg.
  unfold runnable in Hr. rewrite Hp in Hr. rewrite Hr. reflexivity.
Qed.

(** The least index at which a boolean test holds. *)
Lemma first_true (P : nat -> bool) (n : nat) :
  P n = true ->
  exists d, (d <= n)%nat /\ P d = true /\ forall d', (d' < d)%nat -> P d' = false.
Proof.
  induction n as [n IH] using lt_wf_ind. intros Hn.
  destruct (existsb P (seq 0 n)) eqn:Hex.
  - apply existsb_exists in Hex. destruct Hex as (m & Hm & HPm).
    apply in_seq in Hm. destruct (IH m ltac:(lia) HPm) as (d & Hd & HPd & Hmin).
    exists d. repeat split; auto. lia.
  - exists n. repeat split; auto.
    intros d' Hd'. destruct (P d') eqn:HP; [|reflexivity].
    assert (Hin : existsb P (seq 0 n) = true).
    { apply existsb_exists. exists d'. split; [apply in_seq; lia | exact HP]. }
    rewrite Hin in Hex. discriminate.
Qed.

Lemma schedule_loop_step (st : kstate) (kbd : nat -> bool) (fuel polls : nat) (pid : Z) :
  config_ok -> proctable_ok st -> 0 <= pid < NPROC ->
  schedule_loop (S fuel) kbd polls pid st =
    if runnable st (scan_slot pid 0) then Resumed (set_current (scan_slot pid 0) st)
    else if kbd polls then Cancelled
    else schedule_loop fuel kbd (S polls) (scan_slot pid 0) st.
Proof.
  intros Hc Hl Hpid. simpl schedule_loop.
  assert (Hrem : Z.rem (pid + 1) NPROC = scan_slot pid 0).
  { unfold scan_slot. destruct Hc as [_ Hn].
    rewrite Z.rem_mod_nonneg by lia. f_equal. lia. }
  rewrite Hrem. pose proof (scan_slot_range pid 0 Hc) as Hs.
  destruct (proc_get_ok st _ Hl Hs) as (p & Hp & Hg). rewrite Hg.
  unfold runnable at 1. rewrite Hp.
  destruct (procstate_eqb (p_state p) P_RUNNABLE) eqn:Hrun; [|reflexivity].
  apply run_runnable; auto. unfold runnable. rewrite Hp. exact Hrun.
Qed.

(** The loop resumes the first RUNNABLE slot it meets, provided the cancel
    signal is not seen before. *)
Lemma schedule_loop_resume (st : kstate) (kbd : nat -> bool) (d : nat) :
  config_ok -> proctable_ok st ->
  forall (fuel polls : nat) (pid : Z),
  (d < fuel)%nat -> 0 <= pid < NPROC ->
  runnable st (scan_slot pid d) = true ->
  (forall d', (d' < d)%nat -> runnable st (scan_slot pid d') = false) ->
  (forall k, (k < d)%nat -> kbd (polls + k)%nat = false) ->
  schedule_loop fuel kbd polls pid st = Resumed (set_current (scan_slot pid d) st).
Proof.
  intros Hc Hl. induction d as [|d IH]; intros fuel polls pid Hfuel Hpid Hrd Hmin Hk;
    (destruct fuel as [|fuel]; [lia|]); rewrite schedule_loop_step by assumption.
  - rewrite Hrd. reflexivity.
  - rewrite (Hmin O) by lia.
    replace (kbd polls) with false by (symmetry; rewrite <- (Nat.add_0_r polls); apply Hk; lia).
    rewrite <- scan_slot_next by exact Hc.
    apply IH; try lia.
    + apply scan_slot_range; exact Hc.
    + rewrite scan_slot_next by exact Hc. exact Hrd.
    + intros d' Hd'. rewrite scan_slot_next by exact Hc. apply Hmin. lia.
    + intros k Hk'. replace (S polls + k)%nat with (polls + S k)%nat by lia.
      apply Hk. lia.
Qed.

(** With nothing RUNNABLE and no cancel signal the loop is still running
    after [fuel] iterations, having polled the keyboard [fuel] times. *)
Lemma schedule_loop_spin (st : kstate) (kbd : nat -> bool) (fuel : nat) :
  config_ok -> proctable_ok st ->
  forall (polls : nat) (pid : Z),
  0 <= pid < NPROC ->
  (forall d, (d < fuel)%nat -> runnable st (scan_slot pid d) = false) ->
  (forall k, (k < fuel)%nat -> kbd (polls + k)%nat = false) ->
  schedule_loop fuel kbd polls pid st = Spinning (polls + fuel) st.
Proof.
  intros Hc Hl. induction fuel as [|fuel IH]; intros polls pid Hpid Hnone Hk.
  - simpl. f_equal. lia.
  - rewrite schedule_loop_step by assumption.
    rewrite (Hnone O) by lia.
    replace (kbd polls) with false by (symmetry; rewrite <- (Nat.add_0_r polls); apply Hk; lia).
    rewrite IH.
    + f_equal. lia.
    + apply scan_slot_range; exact Hc.
    + intros d Hd. rewrite scan_slot_next by exact Hc. apply Hnone. lia.
    + intros k Hk'. replace (S polls + k)%nat with (polls + S k)%nat by lia.
      apply Hk. lia.
Qed.

(** With nothing RUNNABLE the loop leaves at the first poll that sees the
    cancel signal. *)
Lemma schedule_loop_cancel (st : kstate) (kbd : nat -> bool) (c : nat) :
  config_ok -> proctable_ok st ->
  forall (fuel polls : nat) (pid : Z),
  (c < fuel)%nat -> 0 <= pid < NPROC ->
  (forall d, (d <= c)%nat -> runnable st (scan_slot pid d) = false) ->
  (forall k, (k < c)%nat -> kbd (polls + k)%nat = false) ->
  kbd (polls + c)%nat = true ->
  schedule_loop fuel kbd polls pid st = Cancelled.
Proof.
  intros Hc Hl. induction c as [|c IH]; intros fuel polls pid Hfuel Hpid Hnone Hk Hkc;
    (destruct fuel as [|fuel]; [lia|]); rewrite schedule_loop_step by assumption;
    rewrite (Hnone O) by lia.
  - rewrite Nat.add_0_r in Hkc. rewrite Hkc. reflexivity.
  - replace (kbd polls) with false by (symmetry; rewrite <- (Nat.add_0_r polls); apply Hk; lia).
    apply IH; try lia.
    + apply scan_slot_range; exact Hc.
    + intros d Hd. rewrite scan_slot_next by exact Hc. apply Hnone. lia.
    + intros k Hk'. replace (S polls + k)%nat with (polls + S k)%nat by lia.
      apply Hk. lia.
    + replace (S polls + c)%nat with (polls + S c)%nat by lia. exact Hkc.
Qed.

(** Every slot is examined within NPROC iterations. *)
Lemma scan_slot_covers (pid i : Z) :
  config_ok -> 0 <= i < NPROC ->
  exists d, (d < Z.to_nat NPROC)%nat /\ scan_slot pid d = i.
Proof.
  intros [_ Hn] Hi. exists (Z.to_nat ((i - pid - 1) mod NPROC)).
  assert (Hb : 0 <= (i - pid - 1) mod NPROC < NPROC) by (apply Z.mod_pos_bound; lia).
  split; [lia|].
  unfold scan_slot. rewrite Z2Nat.id by lia.
  rewrite Zplus_mod_idemp_r. replace (pid + 1 + (i - pid - 1)) with i by lia.
  apply Z.mod_small. lia.
Qed.

(** C7.  If some process is RUNNABLE, [schedule] resumes the first
    RUNNABLE slot met when scanning cyclically from the slot after the
    current process (the cancel signal not being raised during the scan).
    If none is RUNNABLE, the loop never returns and resumes nothing: after
    any number of iterations it is still spinning, having checked the
    cancel signal once per iteration, and the only way out is that check
    seeing the signal. *)
Theorem schedule_round_robin (st : kstate) (kbd : nat -> bool) (polls : nat) (p : proc) :
  config_ok -> proctable_ok st ->
  0 <= current st < NPROC ->
  processes st !! Z.to_nat (current st) = Some p ->
  p_pid p = current st ->
  ((exists i, 0 <= i < NPROC /\ runnable st i = true) ->
   exists d, (d < Z.to_nat NPROC)%nat /\
     runnable st (scan_slot (current st) d) = true /\
     (forall d', (d' < d)%nat -> runnable st (scan_slot (current st) d') = false) /\
     forall fuel, (Z.to_nat NPROC <= fuel)%nat ->
       (forall k, (k < d)%nat -> kbd (polls + k)%nat = false) ->
       schedule fuel kbd polls st =
         Resumed (set_current (scan_slot (current st) d) st))
  /\
  ((forall i, 0 <= i < NPROC -> runnable st i = false) ->
   forall fuel,
     ((forall k, (k < fuel)%nat -> kbd (polls + k)%nat = false) ->
      schedule fuel kbd polls st = Spinning (polls + fuel) st) /\
     (forall c, (c < fuel)%nat -> kbd (polls + c)%nat = true ->
        (forall k, (k < c)%nat -> kbd (polls + k)%nat = false) ->
        schedule fuel kbd polls st = Cancelled)).
Proof.
  intros Hc Hl Hcur Hp Hpid.
  assert (Hsched : forall fuel,
            schedule fuel kbd polls st = schedule_loop fuel kbd polls (current st) st).
  { intros fuel. unfold schedule.
    destruct (proc_get_ok st _ Hl Hcur) as (p' & Hp' & Hg).
    rewrite Hg. rewrite Hp in Hp'. inversion Hp'; subst p'. rewrite Hpid. reflexivity. }
  split.
  - intros (i & Hi & Hri).
    destruct (scan_slot_covers (current st) i Hc Hi) as (di & Hdi & Hsi).
    destruct (first_true (fun d => runnable st (scan_slot (current st) d)) di)
      as (d & Hd & Hrd & Hmin).
    { cbv beta. rewrite Hsi. exact Hri. }
    exists d. split; [lia|]. split; [exact Hrd|]. split; [exact Hmin|].
    intros fuel Hfuel Hk. rewrite Hsched.
    apply schedule_loop_resume; auto. lia.
  - intros Hnone fuel. rewrite Hsched. split.
    + intros Hk. apply schedule_loop_spin; auto.
      intros d _. apply Hnone. apply scan_slot_range. exact Hc.
    + intros c Hcf Hkc Hk. apply (schedule_loop_cancel st kbd c); auto.
      intros d _. apply Hnone. apply scan_slot_range. exact Hc.
Qed.

End Properties.


(** * The rest of the kernel *)

(** ** virtual_memory_check: what its assertions decide *)

Section Checker.
Context `{KernelConfig}.

Lemma bind_inv {A B} (m : kernel A) (k : A -> kernel B) (st st'' : kstate) (b : B) :
  bind m k st = Ok (b, st'') ->
  exists a st', m st = Ok (a, st') /\ k a st' = Ok (b, st'').
Proof.
  unfold bind. destruct (m st) as [[a st']|f]; [|discriminate].
  intros Hk. exists a, st'. auto.
Qed.

Lemma readonly_ret {A} (a : A) : readonly (ret a).
Proof. intros st a' st' Hr. inversion Hr. reflexivity. Qed.

Lemma readonly_raise {A} (f : fault) : readonly (@raise A f).
Proof. intros st a' st' Hr. discriminate. Qed.

Lemma readonly_gets {A} (f : kstate -> A) : readonly (gets f).
Proof. intros st a' st' Hr. inversion Hr. reflexivity. Qed.

Lemma readonly_assert (b : bool) : readonly (assert b).
Proof. destruct b; [apply readonly_ret | apply readonly_raise]. Qed.

Lemma readonly_bind {A B} (m : kernel A) (k : A -> kernel B) :
  readonly m -> (forall a, readonly (k a)) -> readonly (bind m k).
Proof.
  intros Hm Hk st b st'' Hr. apply bind_inv in Hr. destruct Hr as (a & st' & H1 & H2).
  apply Hm in H1. subst st'. apply Hk in H2. exact H2.
Qed.

Lemma readonly_pageinfo_get (i : Z) : readonly (pageinfo_get i).
Proof.
  intros st a st' Hr. unfold pageinfo_get in Hr.
  destruct (in_pageinfo i); [|discriminate].
  destruct (pageinfo st !! Z.to_nat i); [|discriminate]. inversion Hr. reflexivity.
Qed.

Lemma readonly_proc_get (i : Z) : readonly (proc_get i).
Proof.
  intros st a st' Hr. unfold proc_get in Hr.
  destruct (in_processes i); [|discriminate].
  destruct (processes st !! Z.to_nat i); [|discriminate]. inversion Hr. reflexivity.
Qed.

Lemma readonly_for_loop {R} (body : Z -> kernel (flow R)) (n : nat) (lo step : Z) :
  (forall i, readonly (body i)) -> readonly (for_loop n lo step body).
Proof.
  intros Hb. revert lo. induction n as [|n IH]; intros lo; simpl.
  - apply readonly_ret.
  - apply readonly_bind; [apply Hb|]. intros [|r]; [apply IH | apply readonly_ret].
Qed.

Lemma readonly_for_acc {A} (body : Z -> A -> kernel A) (n : nat) (i : Z) (acc : A) :
  (forall i a, readonly (body i a)) -> readonly (for_acc n i acc body).
Proof.
  intros Hb. revert i acc. induction n as [|n IH]; intros i acc; simpl.
  - apply readonly_ret.
  - apply readonly_bind; [apply Hb|]. intros a. apply IH.
Qed.

Ltac readonly_step :=
  first
    [ apply readonly_ret | apply readonly_raise | apply readonly_gets
    | apply readonly_assert | apply readonly_pageinfo_get | apply readonly_proc_get
    | apply readonly_for_loop; intros
    | apply readonly_for_acc; intros
    | apply readonly_bind; [|intros]
    | match goal with
      | |- readonly (if ?b then _ else _) => destruct b
      | |- readonly (match ?x with _ => _ end) => destruct x
      end ].

Lemma readonly_check_pagetable (pt o r : Z) : readonly (check_pagetable pt o r).
Proof. unfold check_pagetable, for_range. repeat readonly_step. Qed.

Lemma readonly_virtual_memory_check : readonly virtual_memory_check.
Proof.
  unfold virtual_memory_check, for_range.
  repeat first [apply readonly_check_pagetable | readonly_step].
Qed.

Lemma readonly_find_page_owner (pn : Z) : readonly (find_page_owner pn).
Proof. unfold find_page_owner, for_range. repeat readonly_step. Qed.

Lemma for_loop_check {R} (P : Z -> Prop) (body : Z -> kernel (flow R)) (st : kstate)
    (n : nat) (lo : Z) :
  (forall i, lo <= i < lo + Z.of_nat n -> decides (body i) st (P i) Continue) ->
  decides (for_loop n lo 1 body) st (forall i, lo <= i < lo + Z.of_nat n -> P i) None.
Proof.
  revert lo. induction n as [|n IH]; intros lo Hb.
  - left. split; [intros; lia | reflexivity].
  - simpl for_loop. unfold decides.
    destruct (Hb lo ltac:(lia)) as [[HP Hlo] | [HP (f & Hlo)]].
    + rewrite (bind_ok _ _ _ _ _ Hlo).
      destruct (IH (lo + 1)) as [[Hall Hr] | [Hex (f & Hr)]].
      * intros i Hi. apply Hb. lia.
      * left. split; [|exact Hr]. intros i Hi.
        destruct (Z.eq_dec i lo) as [->|]; [exact HP | apply Hall; lia].
      * right. split; [|exists f; exact Hr]. intros Hall. apply Hex.
        intros i Hi. apply Hall. lia.
    + right. split; [intros Hall; apply HP, Hall; lia|].
      exists f. apply bind_fault. exact Hlo.
Qed.

Lemma decides_iff {A} (m : kernel A) (st : kstate) (P Q : Prop) (a : A) :
  (P <-> Q) -> decides m st P a -> decides m st Q a.
Proof. intros HPQ [[HP Hm] | [HP Hm]]; [left | right]; split; tauto. Qed.

Lemma PTE_ADDR_nonneg (x : Z) : 0 <= PTE_ADDR x.
Proof. unfold PTE_ADDR. apply Z.land_nonneg. right. lia. Qed.

Lemma PAGENUMBER_nonneg (x : Z) : 0 <= x -> 0 <= PAGENUMBER x.
Proof. intros Hx. unfold PAGENUMBER. apply Z.shiftr_nonneg. exact Hx. Qed.

Lemma pageinfo_get_decides (st : kstate) (i : Z) :
  ledger_ok st ->
  (0 <= i < NPAGES /\ exists e, pageinfo st !! Z.to_nat i = Some e /\
                                pageinfo_get i st = Ok (e, st))
  \/ (~ 0 <= i < NPAGES /\ pageinfo_get i st = Fault (OutOfBounds A_pageinfo i)).
Proof.
  intros Hl. destruct (Z_le_dec 0 i) as [H0|H0]; [destruct (Z_lt_dec i NPAGES) as [H1|H1]|].
  - left. split; [lia|]. apply pageinfo_get_ok; auto.
  - right. split; [lia|]. apply pageinfo_get_oob. lia.
  - right. split; [lia|]. apply pageinfo_get_oob. lia.
Qed.

Lemma proc_get_oob (st : kstate) (i : Z) :
  ~ (0 <= i < NPROC) -> proc_get i st = Fault (OutOfBounds A_processes i).
Proof.
  intros Hi. unfold proc_get, in_processes.
  destruct (0 <=? i) eqn:H0; [|reflexivity].
  destruct (i <? NPROC) eqn:H1; [|reflexivity].
  apply Z.leb_le in H0. apply Z.ltb_lt in H1. lia.
Qed.

(** One second-level-table check of [check_pagetable] (kernel.c:575-580). *)
Lemma check_entry_decides (st : kstate) (pagetable o pn : Z) :
  ledger_ok st ->
  decides
    (pte <- gets (fun st => load32 (mem st) (pagetable + 4 * pn)) ;;
     if negb (Z.land pte PTE_P =? 0) then
       assert (PAGENUMBER pte <? NPAGES) ;;;
       e <- pageinfo_get (PAGENUMBER pte) ;;
       assert (owner e =? o) ;;;
       assert (refcount e =? 1) ;;;
       ret (@Continue unit)
     else ret Continue) st
    (Z.land (load32 (mem st) (pagetable + 4 * pn)) PTE_P <> 0 ->
     0 <= PAGENUMBER (load32 (mem st) (pagetable + 4 * pn)) < NPAGES /\
     pageinfo st !! Z.to_nat (PAGENUMBER (load32 (mem st) (pagetable + 4 * pn)))
       = Some (mk_pageinfo o 1))
    Continue.
Proof.
  intros Hl. unfold decides.
  rewrite (bind_ok _ _ st st (load32 (mem st) (pagetable + 4 * pn))) by reflexivity.
  set (pte := load32 (mem st) (pagetable + 4 * pn)).
  destruct (Z.land pte PTE_P =? 0) eqn:Hp; cbn [negb]; cbv iota.
  { apply Z.eqb_eq in Hp. left. split; [intros Hn; contradiction | reflexivity]. }
  apply Z.eqb_neq in Hp.
  destruct (PAGENUMBER pte <? NPAGES) eqn:Hlt.
  2:{ apply Z.ltb_ge in Hlt. right. split; [intros Hc; apply Hc in Hp; lia|].
      exists AssertionFailed. reflexivity. }
  apply Z.ltb_lt in Hlt.
  rewrite (bind_ok _ _ st st tt) by reflexivity.
  destruct (pageinfo_get_decides st (PAGENUMBER pte) Hl) as [(Hi & e & He & Hg) | (Hi & Hg)].
  2:{ right. split; [intros Hc; apply Hc in Hp; lia|].
      eexists. apply bind_fault. exact Hg. }
  rewrite (bind_ok _ _ _ _ _ Hg).
  destruct (owner e =? o) eqn:Ho.
  2:{ apply Z.eqb_neq in Ho. right. split.
      - intros Hc. destruct (Hc Hp) as [_ He']. rewrite He in He'.
        inversion He'; subst e. apply Ho. reflexivity.
      - exists AssertionFailed. reflexivity. }
  apply Z.eqb_eq in Ho. rewrite (bind_ok _ _ st st tt) by reflexivity.
  destruct (refcount e =? 1) eqn:Hr.
  2:{ apply Z.eqb_neq in Hr. right. split.
      - intros Hc. destruct (Hc Hp) as [_ He']. rewrite He in He'.
        inversion He'; subst e. apply Hr. reflexivity.
      - exists AssertionFailed. reflexivity. }
  apply Z.eqb_eq in Hr. rewrite (bind_ok _ _ st st tt) by reflexivity.
  left. split; [|reflexivity]. intros _. split; [exact Hi|].
  rewrite He. destruct e; simpl in *; subst; reflexivity.
Qed.

(** [check_pagetable] passes exactly on the tables that are [pagetable_ok]. *)
Lemma check_pagetable_decides (st : kstate) (pagetable o r : Z) :
  ledger_ok st ->
  decides (check_pagetable pagetable o r) st (pagetable_ok st pagetable o r) tt.
Proof.
  intros Hl. unfold check_pagetable, pagetable_ok, decides.
  destruct (PTE_ADDR pagetable =? pagetable) eqn:Hal.
  2:{ apply Z.eqb_neq in Hal. right. split; [tauto|]. exists AssertionFailed. reflexivity. }
  apply Z.eqb_eq in Hal. rewrite (bind_ok _ _ st st tt) by reflexivity.
  destruct (PAGENUMBER pagetable <? NPAGES) eqn:Hlt.
  2:{ apply Z.ltb_ge in Hlt. right. split; [intros (_ & Hc & _); lia|].
      exists AssertionFailed. reflexivity. }
  apply Z.ltb_lt in Hlt. rewrite (bind_ok _ _ st st tt) by reflexivity.
  assert (Hpn : 0 <= PAGENUMBER pagetable < NPAGES).
  { split; [|exact Hlt]. apply PAGENUMBER_nonneg. rewrite <- Hal. apply PTE_ADDR_nonneg. }
  destruct (pageinfo_get_ok st _ Hl Hpn) as (e & He & Hg).
  rewrite (bind_ok _ _ _ _ _ Hg).
  destruct (owner e =? o) eqn:Ho.
  2:{ apply Z.eqb_neq in Ho. right. split.
      - intros (_ & _ & He' & _). rewrite He in He'. inversion He'; subst e.
        apply Ho. reflexivity.
      - exists AssertionFailed. reflexivity. }
  apply Z.eqb_eq in Ho. rewrite (bind_ok _ _ st st tt) by reflexivity.
  destruct (refcount e =? r) eqn:Hr.
  2:{ apply Z.eqb_neq in Hr. right. split.
      - intros (_ & _ & He' & _). rewrite He in He'. inversion He'; subst e.
        apply Hr. reflexivity.
      - exists AssertionFailed. reflexivity. }
  apply Z.eqb_eq in Hr. rewrite (bind_ok _ _ st st tt) by reflexivity.
  assert (Hent : pageinfo st !! Z.to_nat (PAGENUMBER pagetable) = Some (mk_pageinfo o r)).
  { rewrite He. destruct e; simpl in *; subst; reflexivity. }
  unfold for_range. rewrite trip_count_1.
  match goal with |- context [for_loop _ _ _ ?b] => set (body := b) end.
  destruct (for_loop_check
              (fun pn => Z.land (load32 (mem st) (pagetable + 4 * pn)) PTE_P <> 0 ->
                 0 <= PAGENUMBER (load32 (mem st) (pagetable + 4 * pn)) < NPAGES /\
                 pageinfo st !! Z.to_nat (PAGENUMBER (load32 (mem st) (pagetable + 4 * pn)))
                   = Some (mk_pageinfo o 1))
              body st (Z.to_nat (PAGETABLE_NENTRIES - 0)) 0)
    as [[Hall Hloop] | [Hex (f & Hloop)]].
  - intros pn _. subst body. apply check_entry_decides. exact Hl.
  - left. rewrite (bind_ok _ _ _ _ _ Hloop). split; [|reflexivity].
    repeat split; auto; apply Hall; unfold PAGETABLE_NENTRIES in *; lia.
  - right. split.
    + intros (_ & _ & _ & Hall). apply Hex. intros pn Hpn'. apply Hall.
      unfold PAGETABLE_NENTRIES in *. lia.
    + exists f. apply bind_fault. exact Hloop.
Qed.

End Checker.

Section CheckerWhole.
Context `{KernelConfig}.

(** The counting loop of kernel.c:545-549. *)
Lemma for_acc_kernel_users (st : kstate) (n : nat) (i acc : Z) :
  proctable_ok st -> 0 <= i -> i + Z.of_nat n <= NPROC ->
  for_acc n i acc (fun pid acc =>
      p <- proc_get pid ;;
      if negb (procstate_eqb (p_state p) P_FREE)
         && (p_pagetable p =? kernel_pagetable)
      then ret (acc + 1) else ret acc) st
  = Ok (acc + kernel_table_users (take n (drop (Z.to_nat i) (processes st))), st).
Proof.
  intros Hpt. revert i acc. induction n as [|n IH]; intros i acc Hi Hn.
  - simpl. unfold ret. rewrite Z.add_0_r. reflexivity.
  - cbn [for_acc]. rewrite bind_assoc.
    destruct (proc_get_ok st i Hpt ltac:(lia)) as (p & Hp & Hg).
    rewrite (bind_ok _ _ _ _ _ Hg).
    rewrite (drop_S _ _ _ Hp). simpl take. simpl kernel_table_users.
    unfold uses_kernel_table.
    destruct (negb (procstate_eqb (p_state p) P_FREE) && (p_pagetable p =? kernel_pagetable)).
    + rewrite (bind_ok _ _ st st (acc + 1)) by reflexivity.
      rewrite IH by lia. replace (Z.to_nat (i + 1)) with (S (Z.to_nat i)) by lia.
      f_equal. f_equal. lia.
    + rewrite (bind_ok _ _ st st acc) by reflexivity.
      rewrite IH by lia. replace (Z.to_nat (i + 1)) with (S (Z.to_nat i)) by lia.
      reflexivity.
Qed.

(** The last loop of the checker (kernel.c:584-586) at page [pn]. *)
Lemma check_owner_decides (st : kstate) (pn : Z) :
  ledger_ok st -> proctable_ok st -> 0 <= pn < NPAGES ->
  decides
    (e <- pageinfo_get pn ;;
     if (0 <? refcount e) && (0 <=? owner e) then
       p <- proc_get (owner e) ;;
       assert (negb (procstate_eqb (p_state p) P_FREE)) ;;;
       ret (@Continue unit)
     else ret Continue) st
    (forall e, pageinfo st !! Z.to_nat pn = Some e -> 0 < refcount e -> 0 <= owner e ->
       owner e < NPROC /\
       exists p, processes st !! Z.to_nat (owner e) = Some p /\ p_state p <> P_FREE)
    Continue.
Proof.
  intros Hl Hpt Hpn. unfold decides.
  destruct (pageinfo_get_ok st pn Hl Hpn) as (e & He & Hg).
  rewrite (bind_ok _ _ _ _ _ Hg).
  destruct (0 <? refcount e) eqn:Hrc; cbn [andb].
  2:{ apply Z.ltb_ge in Hrc. left. split; [|reflexivity].
      intros e' He'. rewrite He in He'. inversion He'; subst e'. lia. }
  apply Z.ltb_lt in Hrc.
  destruct (0 <=? owner e) eqn:Ho.
  2:{ apply Z.leb_gt in Ho. left. split; [|reflexivity].
      intros e' He'. rewrite He in He'. inversion He'; subst e'. lia. }
  apply Z.leb_le in Ho.
  destruct (Z_lt_dec (owner e) NPROC) as [Hlt | Hge].
  2:{ right. split; [intros Hc; destruct (Hc e He Hrc Ho); lia|].
      eexists. apply bind_fault. apply proc_get_oob. lia. }
  destruct (proc_get_ok st (owner e) Hpt ltac:(lia)) as (p & Hp & Hgp).
  rewrite (bind_ok _ _ _ _ _ Hgp).
  destruct (procstate_eqb (p_state p) P_FREE) eqn:Hfree; cbn [negb].
  - apply procstate_eqb_eq in Hfree. right. split.
    + intros Hc. destruct (Hc e He Hrc Ho) as (_ & p' & Hp' & Hne).
      rewrite Hp in Hp'. inversion Hp'; subst p'. contradiction.
    + exists AssertionFailed. reflexivity.
  - left. split; [|reflexivity].
    intros e' He' _ _. rewrite He in He'. inversion He'; subst e'.
    split; [exact Hlt|]. exists p. split; [exact Hp|].
    intros Heq. apply procstate_eqb_eq in Heq. rewrite Heq in Hfree. discriminate.
Qed.

(** The per-process iteration of the checker (kernel.c:551-581), once the
    kernel's own table has passed. *)
Lemma check_process_decides (st : kstate) (pid r : Z) :
  ledger_ok st -> proctable_ok st -> 0 <= pid < NPROC ->
  check_pagetable kernel_pagetable PO_KERNEL r st = Ok (tt, st) ->
  decides
    (p <- proc_get pid ;;
     if procstate_eqb (p_state p) P_FREE then ret (@Continue unit)
     else
       (if p_pagetable p =? kernel_pagetable
        then check_pagetable kernel_pagetable PO_KERNEL r
        else check_pagetable (p_pagetable p) pid 1) ;;;
       ret Continue) st
    (forall p, processes st !! Z.to_nat pid = Some p -> p_state p <> P_FREE ->
       p_pagetable p <> kernel_pagetable -> pagetable_ok st (p_pagetable p) pid 1)
    Continue.
Proof.
  intros Hl Hpt Hpid Hk. unfold decides.
  destruct (proc_get_ok st pid Hpt Hpid) as (p & Hp & Hg).
  rewrite (bind_ok _ _ _ _ _ Hg).
  destruct (procstate_eqb (p_state p) P_FREE) eqn:Hfree.
  { apply procstate_eqb_eq in Hfree. left. split; [|reflexivity].
    intros p' Hp'. rewrite Hp in Hp'. inversion Hp'; subst p'. contradiction. }
  destruct (p_pagetable p =? kernel_pagetable) eqn:Hkt.
  { apply Z.eqb_eq in Hkt. left. rewrite (bind_ok _ _ _ _ _ Hk). split; [|reflexivity].
    intros p' Hp'. rewrite Hp in Hp'. inversion Hp'; subst p'. contradiction. }
  destruct (check_pagetable_decides st (p_pagetable p) pid 1 Hl) as [[HP Hc] | [HP (f & Hc)]].
  - left. rewrite (bind_ok _ _ _ _ _ Hc). split; [|reflexivity].
    intros p' Hp'. rewrite Hp in Hp'. inversion Hp'; subst p'. intros; exact HP.
  - right. split.
    + intros Hall. apply HP. apply (Hall p Hp).
      * intros Heq. apply procstate_eqb_eq in Heq. rewrite Heq in Hfree. discriminate.
      * apply Z.eqb_neq. exact Hkt.
    + exists f. apply bind_fault. exact Hc.
Qed.

(** [virtual_memory_check] returns, leaving the state as it is, exactly
    when the state satisfies [vm_invariants]; otherwise it stops. *)
Lemma virtual_memory_check_decides (st : kstate) :
  config_ok -> ledger_ok st -> proctable_ok st ->
  decides virtual_memory_check st (vm_invariants st) tt.
Proof.
  intros Hc Hl Hpt. pose proof Hc as [Hnp Hn].
  unfold virtual_memory_check, vm_invariants, decides.
  destruct (proc_get_ok st 0 Hpt ltac:(lia)) as (p0 & Hp0 & Hg0).
  change (Z.to_nat 0) with 0%nat in Hp0.
  rewrite (bind_ok _ _ _ _ _ Hg0).
  destruct (procstate_eqb (p_state p0) P_FREE) eqn:Hfree.
  2:{ right. split; [|exists AssertionFailed; reflexivity].
      intros ((p' & Hp' & Hst) & _). rewrite Hp0 in Hp'. inversion Hp'; subst p'.
      rewrite Hst in Hfree. discriminate. }
  apply procstate_eqb_eq in Hfree. rewrite (bind_ok _ _ st st tt) by reflexivity.
  rewrite (bind_ok _ _ _ _ _ (for_acc_kernel_users st (Z.to_nat NPROC) 0 1 Hpt
                                ltac:(lia) ltac:(lia))).
  change (Z.to_nat 0) with 0%nat. rewrite drop_0.
  rewrite take_ge by (unfold proctable_ok in Hpt; lia).
  fold (expected_kernel_refcount st).
  destruct (check_pagetable_decides st kernel_pagetable PO_KERNEL
              (expected_kernel_refcount st) Hl) as [[HK Hck] | [HK (f & Hck)]].
  2:{ right. split; [tauto|]. exists f. apply bind_fault. exact Hck. }
  rewrite (bind_ok _ _ _ _ _ Hck).
  unfold for_range. rewrite !trip_count_1.
  match goal with |- context [bind (for_loop _ 0 1 ?b) _] => set (body1 := b) end.
  destruct (for_loop_check
              (fun pid => forall p, processes st !! Z.to_nat pid = Some p ->
                 p_state p <> P_FREE -> p_pagetable p <> kernel_pagetable ->
                 pagetable_ok st (p_pagetable p) pid 1)
              body1 st (Z.to_nat (NPROC - 0)) 0)
    as [[Hall1 Hloop1] | [Hex1 (f & Hloop1)]].
  { intros pid Hpid. subst body1. apply check_process_decides; auto. lia. }
  2:{ right. split.
      - intros (_ & _ & Hprocs & _). apply Hex1. intros pid Hpid p Hp Hst Hkt.
        apply (Hprocs pid p); auto; lia.
      - exists f. apply bind_fault. exact Hloop1. }
  rewrite (bind_ok _ _ _ _ _ Hloop1).
  match goal with |- context [bind (for_loop _ 0 1 ?b) _] => set (body2 := b) end.
  destruct (for_loop_check
              (fun pn => forall e, pageinfo st !! Z.to_nat pn = Some e ->
                 0 < refcount e -> 0 <= owner e ->
                 owner e < NPROC /\
                 exists p, processes st !! Z.to_nat (owner e) = Some p /\ p_state p <> P_FREE)
              body2 st (Z.to_nat (NPAGES - 0)) 0)
    as [[Hall2 Hloop2] | [Hex2 (f & Hloop2)]].
  { intros pn Hpn. subst body2. apply check_owner_decides; auto. lia. }
  2:{ right. split.
      - intros (_ & _ & _ & Hpages). apply Hex2. intros pn Hpn e He Hrc Ho.
        apply (Hpages pn e); auto; lia.
      - exists f. apply bind_fault. exact Hloop2. }
  rewrite (bind_ok _ _ _ _ _ Hloop2).
  left. split; [|reflexivity].
  split; [exists p0; auto|]. split; [exact HK|]. split.
  - intros pid p Hpid. apply Hall1. lia.
  - intros pn e Hpn. apply Hall2. lia.
Qed.

End CheckerWhole.

(** ** Memory fills and the allocator *)

Lemma load32_memcpy_inside (m : memory) (dst src n off : Z) :
  0 <= off -> off + 4 <= n ->
  load32 (memcpy m dst src n) (dst + off) = load32 m (src + off).
Proof.
  intros H0 Hn. unfold load32.
  rewrite <- !Z.add_assoc.
  rewrite (memcpy_inside m dst src n off), (memcpy_inside m dst src n (off + 1)),
    (memcpy_inside m dst src n (off + 2)), (memcpy_inside m dst src n (off + 3)) by lia.
  reflexivity.
Qed.

Lemma memset_inside (m : memory) (dst c n off : Z) :
  0 <= off < n -> memset m dst c n (dst + off) = Z.land c 255.
Proof.
  intros Hoff. unfold memset.
  replace (dst <=? dst + off) with true by (symmetry; apply Z.leb_le; lia).
  replace (dst + off <? dst + n) with true by (symmetry; apply Z.ltb_lt; lia).
  reflexivity.
Qed.

Lemma memset_outside (m : memory) (dst c n x : Z) :
  x < dst \/ dst + n <= x -> memset m dst c n x = m x.
Proof.
  intros Hx. unfold memset.
  destruct (dst <=? x) eqn:H1; [|reflexivity].
  destruct (x <? dst + n) eqn:H2; [|reflexivity].
  apply Z.leb_le in H1. apply Z.ltb_lt in H2. lia.
Qed.

Lemma load32_memset_zero (m : memory) (dst n off : Z) :
  0 <= off -> off + 4 <= n -> load32 (memset m dst 0 n) (dst + off) = 0.
Proof.
  intros H0 Hn. unfold load32. rewrite <- !Z.add_assoc.
  rewrite (memset_inside m dst 0 n off), (memset_inside m dst 0 n (off + 1)),
    (memset_inside m dst 0 n (off + 2)), (memset_inside m dst 0 n (off + 3)) by lia.
  reflexivity.
Qed.

Lemma load32_memset_other (m : memory) (dst c n b : Z) :
  b + 4 <= dst \/ dst + n <= b -> load32 (memset m dst c n) b = load32 m b.
Proof.
  intros Hb. unfold load32. rewrite !memset_outside by lia. reflexivity.
Qed.

Lemma int8_small (z : Z) : -128 <= z < 128 -> int8 z = z.
Proof. intros Hz. unfold int8. rewrite Z.mod_small by lia. lia. Qed.

Lemma L1PAGEINDEX_low (va : Z) : 0 <= va < 2 ^ 22 -> L1PAGEINDEX va = 0.
Proof.
  intros Hva. unfold L1PAGEINDEX. rewrite Z.shiftr_div_pow2 by lia.
  apply Z.div_small. exact Hva.
Qed.

Lemma L1PAGEINDEX_range (va : Z) : 0 <= va < 2 ^ 32 -> 0 <= L1PAGEINDEX va < 1024.
Proof.
  intros Hva. unfold L1PAGEINDEX. rewrite Z.shiftr_div_pow2 by lia.
  change (2 ^ 22) with 4194304. change (2 ^ 32) with 4294967296 in Hva.
  split; [apply Z.div_pos; lia | apply Z.div_lt_upper_bound; lia].
Qed.

Lemma L1PAGEINDEX_high (va : Z) : 2 ^ 22 <= va -> 1 <= L1PAGEINDEX va.
Proof.
  intros Hva. unfold L1PAGEINDEX. rewrite Z.shiftr_div_pow2 by lia.
  change (2 ^ 22) with 4194304 in *. apply Z.div_le_lower_bound; lia.
Qed.

Lemma L2PAGEINDEX_eq (va : Z) : L2PAGEINDEX va = (va / PAGESIZE) mod 1024.
Proof.
  unfold L2PAGEINDEX, PAGESHIFT. rewrite Z.shiftr_div_pow2 by lia.
  change 0x3FF with (Z.ones 10). rewrite Z.land_ones by lia. reflexivity.
Qed.

Lemma L2PAGEINDEX_range (va : Z) : 0 <= L2PAGEINDEX va < 1024.
Proof. rewrite L2PAGEINDEX_eq. apply Z.mod_pos_bound. lia. Qed.

Lemma L2PAGEINDEX_low (va : Z) :
  0 <= va < PROC_START_ADDR -> 0 <= L2PAGEINDEX va < PAGENUMBER PROC_START_ADDR.
Proof.
  intros Hva. rewrite L2PAGEINDEX_eq. change (PAGENUMBER PROC_START_ADDR) with 256.
  unfold PROC_START_ADDR, PAGESIZE in *.
  assert (0 <= va / 4096 < 256)
    by (split; [apply Z.div_pos; lia | apply Z.div_lt_upper_bound; lia]).
  rewrite Z.mod_small by lia. lia.
Qed.

Lemma L2PAGEINDEX_private (va : Z) :
  PROC_START_ADDR <= va < 2 ^ 22 -> PAGENUMBER PROC_START_ADDR <= L2PAGEINDEX va < 1024.
Proof.
  intros Hva. rewrite L2PAGEINDEX_eq. change (PAGENUMBER PROC_START_ADDR) with 256.
  unfold PROC_START_ADDR, PAGESIZE in *. change (2 ^ 22) with 4194304 in Hva.
  assert (256 <= va / 4096 < 1024)
    by (split; [apply Z.div_le_lower_bound; lia | apply Z.div_lt_upper_bound; lia]).
  rewrite Z.mod_small by lia. lia.
Qed.

Section Allocation.
Context `{KernelConfig}.

Lemma page_free_charge_ne (st : kstate) (i own k : Z) :
  0 <= i -> 0 <= k -> k <> i -> page_free (charge i own st) k = page_free st k.
Proof.
  intros Hi Hk Hne. unfold page_free, charge. simpl.
  rewrite list_lookup_insert_ne by lia. reflexivity.
Qed.

Lemma page_free_charge_eq (st : kstate) (i own : Z) :
  page_free (charge i own st) i = false.
Proof.
  unfold page_free, charge. simpl.
  destruct (decide (Z.to_nat i < length (pageinfo st))%nat) as [Hlt|Hge].
  - rewrite list_lookup_insert_eq by exact Hlt. unfold is_free. simpl. apply andb_false_r.
  - rewrite list_insert_ge by lia. rewrite lookup_ge_None_2 by lia. reflexivity.
Qed.

Lemma ledger_ok_charge (st : kstate) (i own : Z) : ledger_ok st -> ledger_ok (charge i own st).
Proof. apply ledger_ok_set_pageinfo. Qed.

(** The allocator takes the lowest free page. *)
Lemma alloc_free_page_at (st : kstate) (own i : Z) :
  config_ok -> ledger_ok st ->
  0 < i < NPAGES -> page_free st i = true ->
  (forall j, 0 <= j < i -> page_free st j = false) ->
  alloc_free_page own st = Ok (PAGEADDRESS i, charge i own st).
Proof.
  intros Hc Hl Hi Hfree Hmin.
  destruct (alloc_free_page_result st own Hc Hl)
    as [(i' & e & Hi' & _ & Hfree' & Hmin' & _ & _ & _ & Ha) | (_ & [Hzero | Hnone])].
  - assert (i' = i) as ->; [|exact Ha].
    destruct (Z.lt_trichotomy i' i) as [Hlt | [Heq | Hgt]]; [|exact Heq|].
    + rewrite Hmin in Hfree' by lia. discriminate.
    + rewrite Hmin' in Hfree by lia. discriminate.
  - rewrite Hmin in Hzero by lia. discriminate.
  - rewrite Hnone in Hfree by lia. discriminate.
Qed.

(** Without an allocatable page the allocator fails and changes nothing. *)
Lemma alloc_free_page_none (st : kstate) (own : Z) :
  config_ok -> ledger_ok st ->
  (page_free st 0 = true \/ forall j, 0 <= j < NPAGES -> page_free st j = false) ->
  alloc_free_page own st = Ok (NULL, st).
Proof.
  intros Hc Hl Hno.
  destruct (alloc_free_page_result st own Hc Hl)
    as [(i & e & Hi & _ & Hfree & Hmin & _) | (Ha & _)]; [|exact Ha].
  destruct Hno as [Hzero | Hnone].
  - rewrite Hmin in Hzero by lia. discriminate.
  - rewrite Hnone in Hfree by lia. discriminate.
Qed.

Lemma PAGEADDRESS_lt (i j : Z) :
  0 <= i -> i < j -> j < 2 ^ 20 -> PAGEADDRESS i + PAGESIZE <= PAGEADDRESS j.
Proof.
  intros Hi Hij Hj. rewrite !PAGEADDRESS_small by lia. unfold PAGESIZE. lia.
Qed.

End Allocation.

(** ** copy_pagetable *)

Section CopyTables.
Context `{KernelConfig}.

(** The memory [copy_pagetable] leaves behind, with the new first-level
    table in page [i] and the new second-level table in page [j]. *)
Lemma copy_pagetable_success (st : kstate) (pagetable own i j : Z) :
  config_ok -> ledger_ok st ->
  0 < i -> i < j -> j < NPAGES ->
  page_free st i = true -> page_free st j = true ->
  (forall k, 0 <= k < j -> k <> i -> page_free st k = false) ->
  outside_free st pagetable 4 ->
  outside_free st (PTE_ADDR (load32 (mem st) pagetable)) (PAGENUMBER PROC_START_ADDR * 4) ->
  exists st',
    copy_pagetable pagetable own st = Ok (PAGEADDRESS i, st') /\
    pageinfo st' = pageinfo (charge j own (charge i own st)) /\
    processes st' = processes st /\ current st' = current st /\ ticks st' = ticks st /\
    (forall a, (a < PAGEADDRESS i \/ PAGEADDRESS i + PAGESIZE <= a) ->
               (a < PAGEADDRESS j \/ PAGEADDRESS j + PAGESIZE <= a) ->
               mem st' a = mem st a) /\
    load32 (mem st') (PAGEADDRESS i) = Z.lor (PAGEADDRESS j) (Z.lor (Z.lor PTE_P PTE_W) PTE_U) /\
    (forall k, 1 <= k < PAGETABLE_NENTRIES -> load32 (mem st') (PAGEADDRESS i + 4 * k) = 0) /\
    (forall k, 0 <= k < PAGENUMBER PROC_START_ADDR ->
       load32 (mem st') (PAGEADDRESS j + 4 * k)
         = load32 (mem st) (PTE_ADDR (load32 (mem st) pagetable) + 4 * k)) /\
    (forall k, PAGENUMBER PROC_START_ADDR <= k < PAGETABLE_NENTRIES ->
       load32 (mem st') (PAGEADDRESS j + 4 * k) = 0).
Proof.
  intros Hc Hl Hi Hij Hj Hfi Hfj Hmin Hsrc1 Hsrc2.
  pose proof Hc as [Hnp _].
  assert (Hai : PAGEADDRESS i = i * PAGESIZE) by (apply PAGEADDRESS_small; lia).
  assert (Haj : PAGEADDRESS j = j * PAGESIZE) by (apply PAGEADDRESS_small; lia).
  set (l1 := PAGEADDRESS i) in *. set (l2 := PAGEADDRESS j) in *.
  assert (Hsep : l1 + PAGESIZE <= l2) by (apply PAGEADDRESS_lt; lia).
  assert (Hl1pos : 0 < l1) by (rewrite Hai; unfold PAGESIZE; lia).
  (* the two allocations *)
  assert (Ha1 : alloc_free_page own st = Ok (l1, charge i own st)).
  { apply alloc_free_page_at; auto; [lia|]. intros k Hk. apply Hmin; lia. }
  assert (Ha2 : alloc_free_page own (charge i own st) = Ok (l2, charge j own (charge i own st))).
  { apply alloc_free_page_at; auto.
    - apply ledger_ok_charge; exact Hl.
    - lia.
    - rewrite page_free_charge_ne by lia. exact Hfj.
    - intros k Hk. destruct (Z.eq_dec k i) as [->|Hne].
      + apply page_free_charge_eq.
      + rewrite page_free_charge_ne by lia. apply Hmin; lia. }
  unfold copy_pagetable.
  rewrite (bind_ok _ _ _ _ _ Ha1).
  replace (l1 =? NULL) with false by (symmetry; apply Z.eqb_neq; unfold NULL; lia).
  rewrite (bind_ok _ _ _ _ _ Ha2).
  replace (l2 =? NULL) with false
    by (symmetry; apply Z.eqb_neq; unfold NULL, PAGESIZE in *; lia).
  set (st2 := charge j own (charge i own st)).
  cbv [bind modify gets ret].
  eexists. split; [reflexivity|]. cbn [pageinfo processes current ticks mem set_mem].
  change (mem st2) with (mem st).
  split; [reflexivity|]. split; [reflexivity|]. split; [reflexivity|]. split; [reflexivity|].
  set (m := mem st).
  set (m1 := memset m l1 0 (PAGETABLE_NENTRIES * 4)).
  set (m2 := memset m1 l2 0 (PAGETABLE_NENTRIES * 4)).
  set (entry := Z.lor l2 (Z.lor (Z.lor PTE_P PTE_W) PTE_U)).
  set (m3 := store32 m2 l1 entry).
  (* the source table lies outside the two new pages *)
  assert (Hs1 : (pagetable + 4 <= l1 \/ l1 + PAGESIZE <= pagetable) /\
                (pagetable + 4 <= l2 \/ l2 + PAGESIZE <= pagetable)).
  { split; [apply (Hsrc1 i) | apply (Hsrc1 j)]; auto; lia. }
  assert (Hm3src : load32 m3 pagetable = load32 m pagetable).
  { subst m3 m2 m1. unfold PAGETABLE_NENTRIES, PAGESIZE in *.
    rewrite load32_store32_other by lia.
    rewrite !load32_memset_other by lia. reflexivity. }
  rewrite Hm3src.
  set (kptl20 := PTE_ADDR (load32 m pagetable)) in *.
  assert (Hs2 : (kptl20 + PAGENUMBER PROC_START_ADDR * 4 <= l1 \/ l1 + PAGESIZE <= kptl20) /\
                (kptl20 + PAGENUMBER PROC_START_ADDR * 4 <= l2 \/ l2 + PAGESIZE <= kptl20)).
  { split; [apply (Hsrc2 i) | apply (Hsrc2 j)]; auto; lia. }
  change (PAGENUMBER PROC_START_ADDR) with 256 in *.
  set (m4 := memcpy m3 l2 kptl20 (256 * 4)).
  assert (Hentry : 0 <= entry < 2 ^ 32).
  { subst entry. change (Z.lor (Z.lor PTE_P PTE_W) PTE_U) with 7.
    assert (Hmod : l2 mod PAGESIZE = 0)
      by (rewrite Haj; apply Z.mod_mul; unfold PAGESIZE; lia).
    destruct (entry_decode l2 7) as (Hr & _);
      [ unfold PAGESIZE in *; lia | unfold PAGESIZE in *; lia | exact Hmod
      | unfold PAGESIZE; lia | exact Hr ]. }
  split; [|split; [|split; [|split]]].
  - (* memory outside the new pages *)
    intros a Hout1 Hout2. subst m4 m3 m2 m1. unfold PAGETABLE_NENTRIES, PAGESIZE in *.
    rewrite memcpy_outside by lia. rewrite store32_outside by lia.
    rewrite !memset_outside by lia. reflexivity.
  - (* entry 0 of the first-level table *)
    subst m4. unfold PAGESIZE in *. rewrite load32_memcpy_other by lia.
    subst m3. apply load32_store32_same. exact Hentry.
  - (* the other first-level entries *)
    intros k Hk. subst m4 m3 m2. unfold PAGETABLE_NENTRIES, PAGESIZE in *.
    rewrite load32_memcpy_other by lia.
    rewrite load32_store32_other by lia.
    rewrite load32_memset_other by lia.
    subst m1. apply load32_memset_zero; lia.
  - (* the kernel part of the second-level table *)
    intros k Hk. subst m4. rewrite load32_memcpy_inside by lia.
    subst m3 m2 m1. unfold PAGETABLE_NENTRIES, PAGESIZE in *.
    rewrite load32_store32_other by lia.
    rewrite !load32_memset_other by lia. reflexivity.
  - (* the private part of the second-level table *)
    intros k Hk. subst m4 m3. unfold PAGETABLE_NENTRIES, PAGESIZE in *.
    rewrite load32_memcpy_other by lia.
    rewrite load32_store32_other by lia.
    subst m2. apply load32_memset_zero; lia.
Qed.

End CopyTables.

Section CopyAddressSpace.
Context `{KernelConfig}.

Lemma present_entry_7 (pa : Z) :
  0 <= pa -> pa + PAGESIZE <= 2 ^ 32 -> pa mod PAGESIZE = 0 ->
  Z.land (Z.lor pa (Z.lor (Z.lor PTE_P PTE_W) PTE_U)) PTE_P <> 0 /\
  PTE_ADDR (Z.lor pa (Z.lor (Z.lor PTE_P PTE_W) PTE_U)) = pa.
Proof.
  intros H0 Hhi Hal. change (Z.lor (Z.lor PTE_P PTE_W) PTE_U) with 7.
  destruct (entry_decode pa 7 H0 Hhi Hal) as (_ & _ & Haddr & Hfl); [unfold PAGESIZE; lia|].
  split; [|exact Haddr]. rewrite land_flags_present, Hfl. discriminate.
Qed.

(** X5. With page 0 taken and i < j the two lowest free pages,
    copy_pagetable returns page i as the new first-level table, charges
    pages i and j to the owner and changes no other ledger entry; the new
    address space translates every address below PROC_START_ADDR as the
    source table does and maps nothing from PROC_START_ADDR up. *)
Theorem copy_pagetable_address_space (st : kstate) (pagetable own i j : Z) :
  config_ok -> ledger_ok st ->
  0 < i -> i < j -> j < NPAGES ->
  page_free st i = true -> page_free st j = true ->
  (forall k, 0 <= k < j -> k <> i -> page_free st k = false) ->
  Z.land (load32 (mem st) pagetable) PTE_P <> 0 ->
  outside_free st pagetable 4 ->
  outside_free st (PTE_ADDR (load32 (mem st) pagetable)) (PAGENUMBER PROC_START_ADDR * 4) ->
  exists st',
    copy_pagetable pagetable own st = Ok (PAGEADDRESS i, st') /\
    pageinfo st' = pageinfo (charge j own (charge i own st)) /\
    processes st' = processes st /\ current st' = current st /\ ticks st' = ticks st /\
    (forall va, 0 <= va < PROC_START_ADDR ->
       virtual_memory_lookup (mem st') (PAGEADDRESS i) va
         = virtual_memory_lookup (mem st) pagetable va) /\
    (forall va, PROC_START_ADDR <= va < 2 ^ 32 ->
       virtual_memory_lookup (mem st') (PAGEADDRESS i) va = vam_unmapped).
Proof.
  intros Hc Hl Hi Hij Hj Hfi Hfj Hmin Hpres Hsrc1 Hsrc2.
  destruct (copy_pagetable_success st pagetable own i j Hc Hl Hi Hij Hj Hfi Hfj Hmin
              Hsrc1 Hsrc2)
    as (st' & Hcp & Hpi & Hps & Hcur & Htk & _ & Hl1 & Hl1z & Hl2k & Hl2z).
  exists st'. split; [exact Hcp|]. split; [exact Hpi|].
  split; [exact Hps|]. split; [exact Hcur|]. split; [exact Htk|].
  pose proof Hc as [Hnp _].
  assert (Haj : PAGEADDRESS j = j * PAGESIZE) by (apply PAGEADDRESS_small; lia).
  destruct (present_entry_7 (PAGEADDRESS j)) as (Hp7 & Ha7).
  { rewrite Haj. unfold PAGESIZE. lia. }
  { rewrite Haj. unfold PAGESIZE. lia. }
  { rewrite Haj. apply Z.mod_mul. unfold PAGESIZE. lia. }
  split.
  - (* kernel addresses translate as in the source table *)
    intros va Hva. unfold virtual_memory_lookup.
    rewrite L1PAGEINDEX_low by (unfold PROC_START_ADDR in Hva; lia).
    rewrite Z.mul_0_r, !Z.add_0_r. rewrite Hl1.
    apply Z.eqb_neq in Hp7. rewrite Hp7. apply Z.eqb_neq in Hpres. rewrite Hpres.
    rewrite Ha7. rewrite Hl2k by (apply L2PAGEINDEX_low; exact Hva). reflexivity.
  - (* private addresses are unmapped *)
    intros va Hva. unfold virtual_memory_lookup.
    destruct (Z_lt_dec va (2 ^ 22)) as [Hlow | Hhigh].
    + rewrite L1PAGEINDEX_low by (unfold PROC_START_ADDR in Hva; lia).
      rewrite Z.mul_0_r, !Z.add_0_r. rewrite Hl1.
      apply Z.eqb_neq in Hp7. rewrite Hp7. rewrite Ha7.
      rewrite Hl2z by (unfold PAGETABLE_NENTRIES; apply L2PAGEINDEX_private; lia).
      reflexivity.
    + rewrite Hl1z; [reflexivity|]. unfold PAGETABLE_NENTRIES.
      pose proof (L1PAGEINDEX_range va ltac:(lia)). pose proof (L1PAGEINDEX_high va ltac:(lia)).
      lia.
Qed.

(** [copy_pagetable] with fewer than two pages to allocate. *)
Lemma copy_pagetable_short (st : kstate) (pagetable own : Z) :
  config_ok -> ledger_ok st ->
  ((page_free st 0 = true \/ forall j, 0 <= j < NPAGES -> page_free st j = false) ->
   copy_pagetable pagetable own st = Ok (NULL, st)) /\
  (forall i, 0 < i < NPAGES -> page_free st i = true ->
     (forall k, 0 <= k < NPAGES -> k <> i -> page_free st k = false) ->
     copy_pagetable pagetable own st = Ok (NULL, charge i own st)).
Proof.
  intros Hc Hl. split.
  - intros Hno. unfold copy_pagetable.
    rewrite (bind_ok _ _ _ _ _ (alloc_free_page_none st own Hc Hl Hno)). reflexivity.
  - intros i Hi Hfi Honly. unfold copy_pagetable.
    assert (Ha1 : alloc_free_page own st = Ok (PAGEADDRESS i, charge i own st)).
    { apply alloc_free_page_at; auto. intros k Hk. apply Honly; lia. }
    rewrite (bind_ok _ _ _ _ _ Ha1).
    destruct Hc as [Hnp Hn]. 
    replace (PAGEADDRESS i =? NULL) with false.
    2:{ symmetry. apply Z.eqb_neq. rewrite PAGEADDRESS_small by lia.
        unfold NULL, PAGESIZE. lia. }
    assert (Ha2 : alloc_free_page own (charge i own st) = Ok (NULL, charge i own st)).
    { apply alloc_free_page_none; [split; auto | apply ledger_ok_charge; exact Hl |].
      right. intros k Hk. destruct (Z.eq_dec k i) as [->|Hne].
      - apply page_free_charge_eq.
      - rewrite page_free_charge_ne by lia. apply Honly; lia. }
    rewrite (bind_ok _ _ _ _ _ Ha2). reflexivity.
Qed.

End CopyAddressSpace.

(** ** Teardown of a process that owns nothing shared, and fork without memory *)

Section ForkShort.
Context `{KernelConfig}.

Lemma kstate_eq (s s' : kstate) :
  processes s = processes s' -> current s = current s' -> pageinfo s = pageinfo s' ->
  ticks s = ticks s' -> mem s = mem s' -> s = s'.
Proof. destruct s, s'; simpl; intros; subst; reflexivity. Qed.

Lemma set_p_state_same (p : proc) (s : procstate) : p_state p = s -> set_p_state s p = p.
Proof. destruct p; simpl; intros; subst; reflexivity. Qed.

Lemma exit_entry_other (pid q : Z) (e : physical_pageinfo) :
  owner e <> pid -> exit_entry pid e q = e.
Proof. intros Hne. unfold exit_entry. apply Z.eqb_neq in Hne. rewrite Hne. reflexivity. Qed.

(** A slot that is not RUNNABLE is no candidate. *)
Lemma candidate_runnable (st : kstate) (pagenum pid : Z) (p : proc) :
  candidate st pagenum pid -> processes st !! Z.to_nat pid = Some p ->
  p_state p = P_RUNNABLE.
Proof.
  intros (p' & Hp' & Hrun & _) Hp. rewrite Hp in Hp'. inversion Hp'; subst p'. exact Hrun.
Qed.

(** Candidates among the other slots do not depend on the state of slot [p]. *)
Lemma candidate_other_slot (st : kstate) (p : Z) (pr' : proc) (pagenum q : Z) :
  0 <= p -> 0 <= q -> q <> p ->
  candidate (set_processes (<[Z.to_nat p := pr']> (processes st)) st) pagenum q
  <-> candidate st pagenum q.
Proof.
  intros Hp Hq Hne. unfold candidate. simpl.
  rewrite list_lookup_insert_ne by lia. reflexivity.
Qed.

(** The exit of a process that shares no page: its pages return to the
    free pool, whatever the page tables hold. *)
Lemma free_current_process_unshared (st : kstate) (p : Z) (pr : proc) :
  config_ok -> ledger_ok st -> proctable_ok st ->
  0 <= p < NPROC -> processes st !! Z.to_nat p = Some pr ->
  (forall i e, pageinfo st !! i = Some e -> owner e = p_pid pr -> refcount e <= 1) ->
  exists st',
    free_current_process p st = Ok (tt, st') /\
    processes st' = <[Z.to_nat p := set_p_state P_FREE pr]> (processes st) /\
    mem st' = mem st /\ current st' = current st /\ ticks st' = ticks st /\
    length (pageinfo st') = length (pageinfo st) /\
    forall i e, pageinfo st !! i = Some e ->
      pageinfo st' !! i =
        Some (if owner e =? p_pid pr
              then mk_pageinfo PO_FREE (if refcount e =? 1 then 0 else refcount e)
              else e).
Proof.
  intros Hc Hl Hpt Hp Hpr Hun.
  destruct (free_current_process_spec st p pr Hc Hl Hpt Hp Hpr)
    as (st' & Hf & Hps & Hm & Hcu & Htk & Hlen & Hent).
  exists st'. repeat (split; [assumption|]).
  intros i e He.
  assert (Hi : 0 <= Z.of_nat i < NPAGES).
  { apply lookup_lt_Some in He. unfold ledger_ok in Hl. lia. }
  destruct (Hent (Z.of_nat i) e Hi) as (q & _ & Hq); [rewrite Nat2Z.id; exact He|].
  rewrite Nat2Z.id in Hq. rewrite Hq. f_equal. unfold exit_entry.
  destruct (owner e =? p_pid pr) eqn:Ho; [|reflexivity].
  apply Z.eqb_eq in Ho. pose proof (Hun i e He Ho) as Hrc.
  replace (1 <? refcount e) with false by (symmetry; apply Z.ltb_ge; lia).
  destruct (refcount e =? 1) eqn:H1; [|reflexivity].
  apply Z.eqb_eq in H1. rewrite H1. reflexivity.
Qed.

(** Charging a free page to a FREE slot's pid and tearing that slot down
    gives back the state one started from. *)
Lemma charge_then_free (st : kstate) (p i : Z) (pr : proc) :
  config_ok -> ledger_ok st -> proctable_ok st ->
  1 <= p < NPROC -> processes st !! Z.to_nat p = Some pr ->
  p_pid pr = p -> p_state pr = P_FREE ->
  (forall k e, pageinfo st !! k = Some e -> owner e <> p) ->
  0 <= i < NPAGES -> page_free st i = true ->
  free_current_process p (charge i (int8 p) st) = Ok (tt, st).
Proof.
  intros Hc Hl Hpt Hp Hpr Hpid Hfree Hnone Hi Hfi.
  pose proof Hc as [_ Hn].
  assert (Hp8 : int8 p = p) by (apply int8_small; lia).
  destruct (free_current_process_unshared (charge i (int8 p) st) p pr Hc
              (ledger_ok_charge st i (int8 p) Hl) Hpt ltac:(lia) Hpr)
    as (st' & Hf & Hps & Hm & Hcu & Htk & Hlen & Hent).
  { intros k e He Ho. unfold charge in He. simpl in He.
    destruct (Nat.eq_dec k (Z.to_nat i)) as [->|Hne].
    - apply list_lookup_insert_Some in He.
      destruct He as [(_ & <- & _) | (Hne & _)]; [simpl; lia | contradiction].
    - rewrite list_lookup_insert_ne in He by auto.
      exfalso. apply (Hnone k e He). rewrite Ho. exact Hpid. }
  rewrite Hf. f_equal. f_equal. apply kstate_eq; auto.
  - rewrite Hps. simpl. rewrite set_p_state_same by exact Hfree.
    apply list_insert_id. exact Hpr.
  - apply list_eq. intros k.
    destruct (pageinfo (charge i (int8 p) st) !! k) as [e|] eqn:He.
    + rewrite (Hent k e He). unfold charge in He. simpl in He.
      destruct (Nat.eq_dec k (Z.to_nat i)) as [->|Hne].
      * apply list_lookup_insert_Some in He.
        destruct He as [(_ & <- & _) | (Hne & _)]; [|contradiction].
        simpl. rewrite Hp8, Hpid, Z.eqb_refl. simpl.
        unfold page_free in Hfi. destruct (pageinfo st !! Z.to_nat i) as [e0|]; [|discriminate].
        unfold is_free in Hfi. apply andb_true_iff in Hfi. destruct Hfi as [Ho Hr].
        apply Z.eqb_eq in Ho. apply Z.eqb_eq in Hr.
        destruct e0; simpl in *; subst. reflexivity.
      * rewrite list_lookup_insert_ne in He by auto.
        replace (owner e =? p_pid pr) with false; [symmetry; exact He|].
        symmetry. apply Z.eqb_neq. rewrite Hpid. apply (Hnone k e He).
    + apply lookup_ge_None in He. rewrite lookup_ge_None_2 by lia.
      unfold charge in He. simpl in He. rewrite length_insert in He.
      symmetry. apply lookup_ge_None_2. lia.
Qed.

(** Tearing down a FREE slot that owns nothing changes nothing. *)
Lemma free_nothing (st : kstate) (p : Z) (pr : proc) :
  config_ok -> ledger_ok st -> proctable_ok st ->
  0 <= p < NPROC -> processes st !! Z.to_nat p = Some pr ->
  p_state pr = P_FREE ->
  (forall k e, pageinfo st !! k = Some e -> owner e <> p_pid pr) ->
  free_current_process p st = Ok (tt, st).
Proof.
  intros Hc Hl Hpt Hp Hpr Hfree Hnone.
  destruct (free_current_process_unshared st p pr Hc Hl Hpt Hp Hpr)
    as (st' & Hf & Hps & Hm & Hcu & Htk & Hlen & Hent).
  { intros k e He Ho. exfalso. exact (Hnone k e He Ho). }
  rewrite Hf. f_equal. f_equal. apply kstate_eq; auto.
  - rewrite Hps. rewrite set_p_state_same by exact Hfree. apply list_insert_id. exact Hpr.
  - apply list_eq. intros k. destruct (pageinfo st !! k) as [e|] eqn:He.
    + rewrite (Hent k e He).
      replace (owner e =? p_pid pr) with false; [reflexivity|].
      symmetry. apply Z.eqb_neq. apply (Hnone k e He).
    + apply lookup_ge_None in He. apply lookup_ge_None_2. lia.
Qed.

(** X10. A fork that finds a free slot but cannot allocate its two
    page-table pages (page 0 free, or at most one page free) returns -1 and
    leaves the whole kernel state as it was: the slot is FREE again and a
    first-level page taken on the way is released. *)
Theorem fork_process_no_table_pages (st : kstate) (chld : Z) (copy : proc) :
  config_ok -> ledger_ok st -> proctable_ok st ->
  0 <= current st < NPROC ->
  1 <= chld < NPROC -> slot_free st chld = true ->
  (forall j, 1 <= j < chld -> slot_free st j = false) ->
  processes st !! Z.to_nat chld = Some copy -> p_pid copy = chld ->
  (forall k e, pageinfo st !! k = Some e -> owner e <> chld) ->
  (page_free st 0 = true \/
   forall i j, 0 <= i < j -> j < NPAGES -> page_free st i = true -> page_free st j = false) ->
  fork_process st = Ok (-1, st).
Proof.
  intros Hc Hl Hpt Hcur Hchld Hsf Hmin Hcopy Hpid Hnone Hshort.
  assert (Hfree : p_state copy = P_FREE).
  { unfold slot_free in Hsf. rewrite Hcopy in Hsf. apply procstate_eqb_eq. exact Hsf. }
  unfold fork_process.
  assert (Hslot : find_free_process_slot st = Ok (chld, st)).
  { destruct (find_free_process_slot_spec st Hc Hpt)
      as [(c & Hcr & Hcf & Hcmin & Hr) | (Hno & _)].
    - assert (c = chld) as ->; [|exact Hr].
      destruct (Z.lt_trichotomy c chld) as [Hlt | [Heq | Hgt]]; [|exact Heq|].
      + rewrite Hmin in Hcf by lia. discriminate.
      + rewrite Hcmin in Hsf by lia. discriminate.
    - rewrite Hno in Hsf by lia. discriminate. }
  rewrite (bind_ok _ _ _ _ _ Hslot).
  replace (chld =? -1) with false by (symmetry; apply Z.eqb_neq; lia). cbn [negb].
  rewrite (bind_ok _ _ st st (current st)) by reflexivity.
  destruct (proc_get_ok st _ Hpt Hcur) as (curp & _ & Hg).
  rewrite (bind_ok _ _ _ _ _ Hg).
  destruct (copy_pagetable_short st (p_pagetable curp) (int8 chld) Hc Hl) as [Hzero Hone].
  (* is there a free page at all? *)
  destruct (find_free_physical_page_spec st Hc Hl)
    as [(i & Hi & Hfi & Himin & _) | (Hnofree & _)].
  - destruct (Z.eq_dec i 0) as [-> | Hi0].
    + rewrite (bind_ok _ _ _ _ _ (Hzero (or_introl Hfi))). simpl.
      rewrite (bind_ok _ _ _ _ _ (free_nothing st chld copy Hc Hl Hpt ltac:(lia) Hcopy Hfree
                                    ltac:(rewrite Hpid; exact Hnone))).
      reflexivity.
    + destruct Hshort as [H0 | Hone'].
      { rewrite Himin in H0 by lia. discriminate. }
      rewrite (bind_ok _ _ _ _ _ (Hone i ltac:(lia) Hfi
                 ltac:(intros k Hk Hne; destruct (Z_lt_dec k i);
                       [apply Himin; lia | apply (Hone' i k); auto; lia]))).
      simpl.
      rewrite (bind_ok _ _ _ _ _ (charge_then_free st chld i copy Hc Hl Hpt Hchld Hcopy Hpid
                                    Hfree Hnone Hi Hfi)).
      reflexivity.
  - rewrite (bind_ok _ _ _ _ _ (Hzero (or_intror Hnofree))). simpl.
    rewrite (bind_ok _ _ _ _ _ (free_nothing st chld copy Hc Hl Hpt ltac:(lia) Hcopy Hfree
                                  ltac:(rewrite Hpid; exact Hnone))).
    reflexivity.
Qed.

End ForkShort.

(** ** The dispatcher *)

Section TrapPrelude.
Context `{KernelConfig}.

Lemma same_tables_refl (ps : list proc) : same_tables ps ps.
Proof. induction ps; constructor; auto. Qed.

Lemma same_tables_insert (ps : list proc) (i : nat) (p p' : proc) :
  ps !! i = Some p -> p_state p' = p_state p -> p_pagetable p' = p_pagetable p ->
  same_tables ps (<[i := p']> ps).
Proof.
  intros Hp Hs Hpt. rewrite <- (list_insert_id ps i p Hp) at 1.
  apply Forall2_insert; [apply same_tables_refl | auto].
Qed.

Lemma same_tables_users (ps ps' : list proc) :
  same_tables ps ps' -> kernel_table_users ps' = kernel_table_users ps.
Proof.
  induction 1 as [|p p' ps ps' [Hs Hpt] _ IH]; [reflexivity|].
  simpl. rewrite IH. unfold uses_kernel_table. rewrite Hs, Hpt. reflexivity.
Qed.

Lemma pagetable_ok_frame (s s' : kstate) (pt o r : Z) :
  pageinfo s' = pageinfo s -> mem s' = mem s ->
  pagetable_ok s pt o r -> pagetable_ok s' pt o r.
Proof. unfold pagetable_ok. intros -> ->. auto. Qed.

Lemma vm_invariants_frame (s s' : kstate) :
  same_tables (processes s) (processes s') ->
  pageinfo s' = pageinfo s -> mem s' = mem s ->
  vm_invariants s -> vm_invariants s'.
Proof.
  intros Hps Hpi Hm ((p0 & Hp0 & Hfree) & HK & Hprocs & Hpages).
  split; [|split; [|split]].
  - destruct (Forall2_lookup_l _ _ _ _ _ Hps Hp0) as (p0' & Hp0' & Hs & _).
    exists p0'. split; [exact Hp0' | congruence].
  - unfold expected_kernel_refcount. rewrite (same_tables_users _ _ Hps).
    apply (pagetable_ok_frame s s'); auto.
  - intros pid p' Hpid Hp' Hst Hkt.
    destruct (Forall2_lookup_r _ _ _ _ _ Hps Hp') as (p & Hp & Hs & Hpt).
    rewrite Hpt. apply (pagetable_ok_frame s s'); auto.
    apply (Hprocs pid p); auto; congruence.
  - intros pn e Hpn He Hrc Ho. rewrite Hpi in He.
    destruct (Hpages pn e Hpn He Hrc Ho) as (Hlt & p & Hp & Hst).
    split; [exact Hlt|].
    destruct (Forall2_lookup_l _ _ _ _ _ Hps Hp) as (p' & Hp' & Hs & _).
    exists p'. split; [exact Hp' | congruence].
Qed.

(** *** The first steps of [exception] *)

Lemma save_registers_eq (st : kstate) (reg : x86_registers) (curp : proc) :
  processes st !! Z.to_nat (current st) = Some curp ->
  save_registers reg st =
    set_processes (<[Z.to_nat (current st) := set_p_registers reg curp]> (processes st)) st.
Proof. intros Hp. unfold save_registers. rewrite Hp. reflexivity. Qed.

Lemma exception_prelude (st : kstate) (reg : x86_registers) (curp : proc) :
  config_ok -> ledger_ok st -> proctable_ok st ->
  0 <= current st < NPROC -> processes st !! Z.to_nat (current st) = Some curp ->
  vm_invariants st ->
  (proc_update (current st) (set_p_registers reg) ;;; virtual_memory_check) st
    = Ok (tt, save_registers reg st) /\
  proctable_ok (save_registers reg st) /\ ledger_ok (save_registers reg st) /\
  processes (save_registers reg st) !! Z.to_nat (current st)
    = Some (set_p_registers reg curp).
Proof.
  intros Hc Hl Hpt Hcur Hp Hinv. rewrite (save_registers_eq st reg curp Hp).
  set (st1 := set_processes _ st).
  assert (Hpt1 : proctable_ok st1).
  { unfold proctable_ok, st1. simpl. rewrite length_insert. exact Hpt. }
  assert (Hinv1 : vm_invariants st1).
  { apply (vm_invariants_frame st st1); auto.
    apply (same_tables_insert _ _ curp); auto. }
  split; [|split; [exact Hpt1|split; [exact Hl|]]].
  - rewrite (bind_ok _ _ _ _ _ (proc_update_at st _ curp _ Hpt Hcur Hp)). fold st1.
    destruct (virtual_memory_check_decides st1 Hc Hl Hpt1) as [[_ Hck] | [Hn _]];
      [exact Hck | contradiction].
  - unfold st1. simpl. apply list_lookup_insert_eq.
    apply lookup_lt_Some in Hp. exact Hp.
Qed.

Lemma set_current_same (st : kstate) : set_current (current st) st = st.
Proof. destruct st; reflexivity. Qed.

(** *** What a resumption tells *)

Lemma run_resumed (st st' : kstate) (i : Z) :
  run i st = Resumed st' ->
  0 <= i < NPROC /\ runnable st i = true /\ st' = set_current i st.
Proof.
  unfold run, proc_get, in_processes, runnable. intros Hr.
  destruct ((0 <=? i) && (i <? NPROC)) eqn:Hb; [|discriminate].
  apply andb_true_iff in Hb. destruct Hb as [H0 H1].
  apply Z.leb_le in H0. apply Z.ltb_lt in H1.
  destruct (processes st !! Z.to_nat i) as [p|]; [|discriminate].
  destruct (procstate_eqb (p_state p) P_RUNNABLE); [|discriminate].
  inversion Hr. auto.
Qed.

Lemma schedule_loop_resumed (kbd : nat -> bool) (st st' : kstate) (fuel polls : nat) (pid : Z) :
  schedule_loop fuel kbd polls pid st = Resumed st' ->
  exists i, 0 <= i < NPROC /\ runnable st i = true /\ st' = set_current i st.
Proof.
  revert polls pid. induction fuel as [|fuel IH]; intros polls pid Hr; [discriminate|].
  simpl in Hr.
  destruct (proc_get (Z.rem (pid + 1) NPROC) st) as [[p s]|f] eqn:Hg; [|discriminate].
  destruct (procstate_eqb (p_state p) P_RUNNABLE).
  - exists (Z.rem (pid + 1) NPROC). apply run_resumed. exact Hr.
  - destruct (kbd polls); [discriminate|]. apply (IH _ _ Hr).
Qed.

Lemma schedule_resumed (kbd : nat -> bool) (st st' : kstate) (fuel polls : nat) :
  schedule fuel kbd polls st = Resumed st' ->
  exists i, 0 <= i < NPROC /\ runnable st i = true /\ st' = set_current i st.
Proof.
  unfold schedule. destruct (proc_get (current st) st) as [[p s]|f]; [|discriminate].
  apply schedule_loop_resumed.
Qed.

End TrapPrelude.

Section TrapResume.
Context `{KernelConfig}.

Lemma runnable_set_current (st : kstate) (i j : Z) :
  runnable (set_current i st) j = runnable st j.
Proof. reflexivity. Qed.

(** X14. Whatever the trap and the state it arrives in, when exception
    resumes a process then current is a slot of the process table and that
    process is RUNNABLE. *)
Theorem exception_resumes_runnable (fuel : nat) (kbd : nat -> bool) (reg : x86_registers)
    (st st' : kstate) :
  exception fuel kbd reg st = Resumed st' ->
  0 <= current st' < NPROC /\ runnable st' (current st') = true.
Proof.
  assert (Hsched : forall s n, schedule fuel kbd n s = Resumed st' ->
            0 <= current st' < NPROC /\ runnable st' (current st') = true).
  { intros s n Hr. apply schedule_resumed in Hr. destruct Hr as (i & Hi & Hrun & ->).
    simpl. split; [exact Hi | exact Hrun]. }
  assert (Hrun : forall s i, run i s = Resumed st' ->
            0 <= current st' < NPROC /\ runnable st' (current st') = true).
  { intros s i Hr. apply run_resumed in Hr. destruct Hr as (Hi & Hrun & ->).
    simpl. split; [exact Hi | exact Hrun]. }
  unfold exception.
  destruct ((proc_update (current st) (set_p_registers reg);;; virtual_memory_check) st)
    as [[u st1]|f]; [|discriminate].
  destruct (kbd 0%nat); [discriminate|].
  destruct (reg_intno reg); try apply Hsched;
    (destruct ((handle_trap reg;;; proc_get (current st1)) st1) as [[p st2]|f];
     [|discriminate]);
    (destruct (procstate_eqb (p_state p) P_RUNNABLE); [apply Hrun | apply Hsched]).
Qed.


End TrapResume.

Section TrapFaults.
Context `{KernelConfig}.

Lemma save_registers_fields (st : kstate) (reg : x86_registers) :
  current (save_registers reg st) = current st /\
  pageinfo (save_registers reg st) = pageinfo st /\
  mem (save_registers reg st) = mem st /\
  ticks (save_registers reg st) = ticks st.
Proof.
  unfold save_registers. destruct (processes st !! Z.to_nat (current st)); auto.
Qed.

Lemma runnable_save_registers (st : kstate) (reg : x86_registers) (i : Z) :
  runnable (save_registers reg st) i = runnable st i.
Proof.
  unfold save_registers.
  destruct (processes st !! Z.to_nat (current st)) as [p|] eqn:Hp; [|reflexivity].
  unfold runnable. simpl.
  destruct (Nat.eq_dec (Z.to_nat (current st)) (Z.to_nat i)) as [Heq|Hne].
  - rewrite <- Heq. rewrite list_lookup_insert_eq by (apply lookup_lt_Some in Hp; exact Hp).
    rewrite Hp. reflexivity.
  - rewrite list_lookup_insert_ne by exact Hne. reflexivity.
Qed.

(** X17. The panic syscall, a page fault raised in kernel mode and every
    trap number the dispatcher does not know stop the machine with a panic. *)
Theorem exception_panics (fuel : nat) (kbd : nat -> bool) (reg : x86_registers)
    (st : kstate) (curp : proc) :
  config_ok -> ledger_ok st -> proctable_ok st ->
  0 <= current st < NPROC -> processes st !! Z.to_nat (current st) = Some curp ->
  vm_invariants st -> kbd 0%nat = false ->
  reg_intno reg = INT_SYS_PANIC \/
  (exists n, reg_intno reg = INT_OTHER n) \/
  (reg_intno reg = INT_PAGEFAULT /\ Z.land (reg_err reg) PFERR_USER = 0) ->
  exception fuel kbd reg st = Halted Panic.
Proof.
  intros Hc Hl Hpt Hcur Hp Hinv Hk Hcase.
  destruct (exception_prelude st reg curp Hc Hl Hpt Hcur Hp Hinv) as (Hpre & _).
  unfold exception. rewrite Hpre, Hk.
  destruct Hcase as [Hint | [(n & Hint) | (Hint & Herr)]]; rewrite Hint;
    unfold handle_trap; rewrite Hint; rewrite bind_assoc;
    rewrite (bind_ok _ _ _ _ (current (save_registers reg st))) by reflexivity.
  - reflexivity.
  - reflexivity.
  - rewrite Herr. reflexivity.
Qed.



End TrapFaults.

Section TrapExit.
Context `{KernelConfig}.

(** While slot [p] is BLOCKED it is no candidate owner. *)
Lemma blocked_no_candidate (st : kstate) (p : Z) (pr : proc) (pagenum : Z) :
  processes st !! Z.to_nat p = Some pr ->
  ~ candidate (set_processes (<[Z.to_nat p := set_p_state P_BLOCKED pr]> (processes st)) st)
      pagenum p.
Proof.
  intros Hpr (p' & Hp' & Hrun & _). simpl in Hp'.
  rewrite list_lookup_insert_eq in Hp' by (apply lookup_lt_Some in Hpr; exact Hpr).
  inversion Hp'; subst p'. discriminate.
Qed.

(** After its exit a process owns no page, and the pages of the others
    are as they were. *)
Lemma exit_disowns (st : kstate) (p : Z) (pr : proc) :
  config_ok -> ledger_ok st -> proctable_ok st ->
  1 <= p < NPROC -> processes st !! Z.to_nat p = Some pr -> p_pid pr = p ->
  exists st',
    free_current_process p st = Ok (tt, st') /\
    processes st' = <[Z.to_nat p := set_p_state P_FREE pr]> (processes st) /\
    mem st' = mem st /\ current st' = current st /\ ticks st' = ticks st /\
    length (pageinfo st') = length (pageinfo st) /\
    (forall i e', pageinfo st' !! i = Some e' -> owner e' <> p) /\
    (forall i e, pageinfo st !! i = Some e -> owner e <> p -> pageinfo st' !! i = Some e) /\
    (forall i e, pageinfo st !! i = Some e -> owner e = p -> refcount e = 1 ->
       pageinfo st' !! i = Some (mk_pageinfo PO_FREE 0)).
Proof.
  intros Hc Hl Hpt Hp Hpr Hpid. pose proof Hc as [_ Hn].
  destruct (free_current_process_spec st p pr Hc Hl Hpt ltac:(lia) Hpr)
    as (st' & Hf & Hps & Hm & Hcu & Htk & Hlen & Hent).
  exists st'. repeat (split; [assumption|]).
  assert (Hidx : forall i e, pageinfo st !! i = Some e -> 0 <= Z.of_nat i < NPAGES).
  { intros i e He. apply lookup_lt_Some in He. unfold ledger_ok in Hl. lia. }
  split; [|split].
  - intros i e' He'.
    assert (Hlt : (i < length (pageinfo st))%nat)
      by (apply lookup_lt_Some in He'; lia).
    destruct (lookup_lt_is_Some_2 _ _ Hlt) as (e & He).
    destruct (Hent (Z.of_nat i) e (Hidx i e He)) as (q & Hq & Hi');
      [rewrite Nat2Z.id; exact He|].
    rewrite Nat2Z.id in Hi'. rewrite He' in Hi'. inversion Hi'; subst e'. clear Hi'.
    unfold exit_entry. rewrite Hpid.
    destruct (owner e =? p) eqn:Ho; [|apply Z.eqb_neq; exact Ho].
    destruct (1 <? refcount e).
    + destruct (q =? -1) eqn:Hq1; [simpl; unfold PO_FREE; lia|].
      apply Z.eqb_neq in Hq1. simpl.
      destruct Hq as [(Hqr & Hcand & _) | (-> & _)]; [|contradiction].
      rewrite int8_small by lia. intros ->.
      exact (blocked_no_candidate st p pr (Z.of_nat i) Hpr Hcand).
    + destruct (refcount e =? 1); simpl; unfold PO_FREE; lia.
  - intros i e He Ho.
    destruct (Hent (Z.of_nat i) e (Hidx i e He)) as (q & _ & Hi');
      [rewrite Nat2Z.id; exact He|].
    rewrite Nat2Z.id in Hi'. rewrite Hi'. f_equal. apply exit_entry_other.
    rewrite Hpid. exact Ho.
  - intros i e He Ho Hrc.
    destruct (Hent (Z.of_nat i) e (Hidx i e He)) as (q & _ & Hi');
      [rewrite Nat2Z.id; exact He|].
    rewrite Nat2Z.id in Hi'. rewrite Hi'. f_equal. unfold exit_entry.
    rewrite Hpid, Ho, Z.eqb_refl, Hrc. reflexivity.
Qed.

(** X9. For a page the exiting process owns with refcount above 1,
    free_current_process passes ownership to the lowest-numbered other
    RUNNABLE process that find_page_owner's scan finds mapping it and lowers
    the refcount by one; when the scan finds none the entry becomes (FREE,
    0). *)
Theorem free_current_process_hands_over (st : kstate) (p : Z) (pr : proc) (i : Z)
    (e : physical_pageinfo) :
  config_ok -> ledger_ok st -> proctable_ok st ->
  1 <= p < NPROC -> processes st !! Z.to_nat p = Some pr -> p_pid pr = p ->
  0 <= i < NPAGES -> pageinfo st !! Z.to_nat i = Some e ->
  owner e = p -> 1 < refcount e ->
  exists st',
    free_current_process p st = Ok (tt, st') /\
    (forall q, 1 <= q < NPROC -> q <> p -> candidate st i q ->
       (forall j, 1 <= j < q -> j <> p -> ~ candidate st i j) ->
       pageinfo st' !! Z.to_nat i = Some (mk_pageinfo q (int8 (refcount e - 1)))) /\
    ((forall j, 1 <= j < NPROC -> j <> p -> ~ candidate st i j) ->
     pageinfo st' !! Z.to_nat i = Some (mk_pageinfo PO_FREE 0)).
Proof.
  intros Hc Hl Hpt Hp Hpr Hpid Hi He Ho Hrc. pose proof Hc as [_ Hn].
  destruct (free_current_process_spec st p pr Hc Hl Hpt ltac:(lia) Hpr)
    as (st' & Hf & _ & _ & _ & _ & _ & Hent).
  exists st'. split; [exact Hf|].
  destruct (Hent i e Hi He) as (q' & Hq' & Hi').
  set (stb := set_processes (<[Z.to_nat p := set_p_state P_BLOCKED pr]> (processes st)) st) in *.
  assert (Hcand : forall j, 0 <= j -> j <> p -> candidate stb i j <-> candidate st i j).
  { intros j Hj Hne. apply candidate_other_slot; lia. }
  assert (Hee : exit_entry (p_pid pr) e q' =
                if q' =? -1 then mk_pageinfo PO_FREE 0
                else mk_pageinfo (int8 q') (int8 (refcount e - 1))).
  { unfold exit_entry. rewrite Hpid, Ho, Z.eqb_refl.
    replace (1 <? refcount e) with true by (symmetry; apply Z.ltb_lt; exact Hrc).
    reflexivity. }
  rewrite Hee in Hi'. split.
  - intros q Hq Hqp Hcq Hqmin.
    assert (Hres : page_owner_result stb i q).
    { left. split; [exact Hq|]. split; [apply Hcand; auto; lia|].
      intros j Hj Hcj. destruct (Z.eq_dec j p) as [->|Hne].
      - exact (blocked_no_candidate st p pr i Hpr Hcj).
      - apply (Hqmin j Hj Hne). apply Hcand; auto; lia. }
    rewrite (page_owner_result_unique stb i q' q Hq' Hres) in Hi'.
    replace (q =? -1) with false in Hi' by (symmetry; apply Z.eqb_neq; lia).
    rewrite int8_small in Hi' by lia. exact Hi'.
  - intros Hnone.
    assert (Hres : page_owner_result stb i (-1)).
    { right. split; [reflexivity|]. intros j Hj Hcj.
      destruct (Z.eq_dec j p) as [->|Hne].
      - exact (blocked_no_candidate st p pr i Hpr Hcj).
      - apply (Hnone j Hj Hne). apply Hcand; auto; lia. }
    rewrite (page_owner_result_unique stb i q' (-1) Hq' Hres) in Hi'.
    exact Hi'.
Qed.


End TrapExit.

(** ** pageinfo_init *)

Section BootLedger.
Context `{KernelConfig} `{BootConfig}.

(** A loop with any stride that never leaves early carries an invariant
    over its iteration count. *)
Lemma for_loop_count {R} (I : nat -> kstate -> Prop)
    (body : Z -> kernel (flow R)) (n : nat) (lo step : Z) (st : kstate) :
  I 0%nat st ->
  (forall k s, (k < n)%nat -> I k s ->
     exists s', body (lo + Z.of_nat k * step) s = Ok (Continue, s') /\ I (S k) s') ->
  exists s', for_loop n lo step body st = Ok (None, s') /\ I n s'.
Proof.
  revert I lo st. induction n as [|n IH]; intros I lo st HI Hb.
  - exists st. split; [reflexivity | exact HI].
  - destruct (Hb 0%nat st ltac:(lia) HI) as (s1 & Hs1 & HI1).
    rewrite Z.mul_0_l, Z.add_0_r in Hs1.
    destruct (IH (fun k => I (S k)) (lo + step) s1 HI1) as (s' & Hs' & HI').
    { intros k s Hk HIk. destruct (Hb (S k) s ltac:(lia) HIk) as (s2 & Hs2 & HI2).
      exists s2. split; [|exact HI2].
      replace (lo + step + Z.of_nat k * step) with (lo + Z.of_nat (S k) * step) by lia.
      exact Hs2. }
    exists s'. split; [|exact HI'].
    simpl for_loop. rewrite (bind_ok _ _ _ _ _ Hs1). exact Hs'.
Qed.

Lemma trip_count_pages : config_ok -> trip_count 0 MEMSIZE_PHYSICAL PAGESIZE = Z.to_nat NPAGES.
Proof.
  intros Hc. unfold trip_count. rewrite (MEMSIZE_PHYSICAL_eq Hc). f_equal.
  destruct Hc as [Hnp _]. unfold PAGESIZE.
  replace (NPAGES * 4096 - 0 + 4096 - 1) with (4095 + NPAGES * 4096) by lia.
  rewrite Z.div_add by lia. reflexivity.
Qed.

Lemma initial_owner_cases (addr : Z) :
  initial_owner addr = PO_RESERVED \/ initial_owner addr = PO_KERNEL
  \/ initial_owner addr = PO_FREE.
Proof.
  unfold initial_owner. destruct (physical_memory_isreserved addr); [auto|].
  destruct (_ || _); auto.
Qed.

(** The ledger [pageinfo_init] leaves behind. *)
Lemma pageinfo_init_result (st : kstate) :
  config_ok -> ledger_ok st ->
  exists st',
    pageinfo_init st = Ok (tt, st') /\
    processes st' = processes st /\ current st' = current st /\
    ticks st' = ticks st /\ mem st' = mem st /\
    length (pageinfo st') = length (pageinfo st) /\
    forall pn, 0 <= pn < NPAGES ->
      pageinfo st' !! Z.to_nat pn =
        Some (mk_pageinfo (initial_owner (PAGEADDRESS pn))
                (if initial_owner (PAGEADDRESS pn) =? PO_FREE then 0 else 1)).
Proof.
  intros Hc Hl. pose proof Hc as [Hnp _].
  unfold pageinfo_init. rewrite (trip_count_pages Hc).
  pose (I := fun (k : nat) (s : kstate) =>
    processes s = processes st /\ current s = current st /\
    ticks s = ticks st /\ mem s = mem st /\
    length (pageinfo s) = length (pageinfo st) /\
    forall pn, 0 <= pn < Z.of_nat k ->
      pageinfo s !! Z.to_nat pn =
        Some (mk_pageinfo (initial_owner (PAGEADDRESS pn))
                (if initial_owner (PAGEADDRESS pn) =? PO_FREE then 0 else 1))).
  match goal with |- context [for_loop _ _ _ ?b] => set (body := b) end.
  destruct (for_loop_count I body (Z.to_nat NPAGES) 0 PAGESIZE st) as (s' & Hs' & HI').
  - unfold I. repeat split; auto. intros; lia.
  - intros k s Hk (Hps & Hcu & Htk & Hm & Hlen & Hdone).
    assert (Hk' : 0 <= Z.of_nat k < NPAGES) by lia.
    assert (Haddr : 0 + Z.of_nat k * PAGESIZE = PAGEADDRESS (Z.of_nat k)).
    { rewrite PAGEADDRESS_small by lia. lia. }
    rewrite Haddr. subst body. cbv beta zeta.
    rewrite PAGENUMBER_PAGEADDRESS by lia.
    assert (Hls : ledger_ok s) by (unfold ledger_ok in *; lia).
    destruct (pageinfo_get_ok s _ Hls Hk') as (e & He & _).
    rewrite (bind_ok _ _ _ _ _ (pageinfo_update_at s _ e _ Hls Hk' He)).
    set (s1 := set_pageinfo _ s).
    assert (Hls1 : ledger_ok s1) by (apply ledger_ok_set_pageinfo; exact Hls).
    assert (Hlt : (Z.to_nat (Z.of_nat k) < length (pageinfo s))%nat)
      by (apply lookup_lt_Some in He; exact He).
    assert (He1 : pageinfo s1 !! Z.to_nat (Z.of_nat k)
                  = Some (set_owner (int8 (initial_owner (PAGEADDRESS (Z.of_nat k)))) e))
      by (apply list_lookup_insert_eq; exact Hlt).
    rewrite (bind_ok _ _ _ _ _ (pageinfo_update_at s1 _ _ _ Hls1 Hk' He1)).
    eexists. split; [reflexivity|].
    unfold I, s1. simpl. rewrite !length_insert, list_insert_insert_eq.
    repeat (split; [assumption|]).
    intros pn Hpn. destruct (Z.eq_dec pn (Z.of_nat k)) as [->|Hne].
    + rewrite list_lookup_insert_eq by exact Hlt. f_equal.
      unfold set_refcount, set_owner. simpl.
      destruct (initial_owner_cases (PAGEADDRESS (Z.of_nat k))) as [-> | [-> | ->]];
        reflexivity.
    + rewrite list_lookup_insert_ne by lia. apply Hdone. lia.
  - exists s'. rewrite (bind_ok _ _ _ _ _ Hs').
    destruct HI' as (Hps & Hcu & Htk & Hm & Hlen & Hdone).
    split; [reflexivity|]. repeat (split; [assumption|]).
    intros pn Hpn. apply Hdone. lia.
Qed.

End BootLedger.

(** ** memshow_physical *)

(** X21. The cell memshow_physical draws for a page shows K for the kernel,
    R for reserved, . for free (or refcount 0) and 1-9, A-F for processes 1
    to 15, with the two bright bits of the attribute cleared when the page
    is shared; for an owner outside PO_KERNEL..15 the index into
    memstate_colors is outside the table. *)
Lemma memshow_physical_color_char (e : physical_pageinfo) :
  let shown := if refcount e =? 0 then PO_FREE else owner e in
  (PO_KERNEL <= shown <= 15 ->
   exists color, memshow_physical_color e = Some color /\
     Z.land color 0xFF = owner_char shown /\
     (1 < refcount e -> Z.land color 0x8800 = 0)) /\
  (~ (PO_KERNEL <= shown <= 15) -> memshow_physical_color e = None).
Proof.
  cbv zeta. unfold memshow_physical_color.
  set (shown := if refcount e =? 0 then PO_FREE else owner e).
  split.
  - intros Hr. unfold PO_KERNEL in *.
    assert (Hcases : exists n : nat, (n < 18)%nat /\ shown = Z.of_nat n - 2).
    { exists (Z.to_nat (shown + 2)). lia. }
    destruct Hcases as (n & Hn & ->).
    replace (Z.of_nat n - 2 - -2) with (Z.of_nat n) by lia.
    replace (0 <=? Z.of_nat n) with true by (symmetry; apply Z.leb_le; lia).
    rewrite Nat2Z.id.
    do 18 (destruct n as [|n];
           [destruct (1 <? refcount e) eqn:Hs; eexists;
            (split; [reflexivity|]); (split; [reflexivity|]);
            intros Hrc; first [reflexivity | apply Z.ltb_ge in Hs; lia]|]).
    lia.
  - intros Hr. unfold PO_KERNEL in *.
    destruct (0 <=? shown - -2) eqn:Hlo; [|reflexivity].
    apply Z.leb_le in Hlo.
    rewrite lookup_ge_None_2; [reflexivity|]. simpl length. lia.
Qed.

(** ** The search loops *)

Section Lowest.
Context `{KernelConfig}.

(** X1. find_free_process_slot returns the lowest-numbered FREE slot among
    1..NPROC-1 and -1 exactly when none of them is FREE; slot 0 is never
    returned and the kernel state is left as it was. *)
Theorem find_free_process_slot_lowest (st : kstate) :
  config_ok -> proctable_ok st ->
  exists r,
    find_free_process_slot st = Ok (r, st) /\
    (r = -1 \/ 1 <= r < NPROC) /\
    (r = -1 <-> forall j, 1 <= j < NPROC -> slot_free st j = false) /\
    (r <> -1 -> slot_free st r = true /\ forall j, 1 <= j < r -> slot_free st j = false).
Proof.
  intros Hc Hpt.
  destruct (find_free_process_slot_spec st Hc Hpt)
    as [(i & Hi & Hf & Hmin & Hr) | (Hnone & Hr)].
  - exists i. split; [exact Hr|]. split; [right; exact Hi|]. split.
    + split; [intros ->; lia|]. intros Hnone. rewrite Hnone in Hf by exact Hi. discriminate.
    + intros _. split; [exact Hf | exact Hmin].
  - exists (-1). split; [exact Hr|]. split; [left; reflexivity|]. split.
    + split; auto.
    + intros Hne. contradiction.
Qed.

(** X2. find_free_physical_page leaves the state as it was and returns the
    address of the lowest page whose entry has owner FREE and refcount 0; it
    returns NULL when no page is free, and also when the lowest free page is
    page 0, whose address is NULL. *)
Theorem find_free_physical_page_lowest (st : kstate) :
  config_ok -> ledger_ok st ->
  exists a,
    find_free_physical_page st = Ok (a, st) /\
    ((forall j, 0 <= j < NPAGES -> page_free st j = false) -> a = NULL) /\
    (forall i, 0 <= i < NPAGES -> page_free st i = true ->
       (forall j, 0 <= j < i -> page_free st j = false) ->
       a = i * PAGESIZE /\ (a = NULL <-> i = 0)).
Proof.
  intros Hc Hl. pose proof Hc as [Hnp _].
  destruct (find_free_physical_page_spec st Hc Hl)
    as [(i & Hi & Hf & Hmin & Hr) | (Hnone & Hr)].
  - exists (PAGEADDRESS i). split; [exact Hr|]. split.
    + intros Hnone. rewrite Hnone in Hf by exact Hi. discriminate.
    + intros i' Hi' Hf' Hmin'.
      assert (i' = i) as ->.
      { destruct (Z.lt_trichotomy i' i) as [Hlt | [Heq | Hgt]]; [|exact Heq|].
        - rewrite Hmin in Hf' by lia. discriminate.
        - rewrite Hmin' in Hf by lia. discriminate. }
      rewrite PAGEADDRESS_small by lia. split; [reflexivity|].
      unfold NULL, PAGESIZE. lia.
  - exists NULL. split; [exact Hr|]. split; [auto|].
    intros i Hi Hf. rewrite Hnone in Hf by exact Hi. discriminate.
Qed.

(** X3. Page 0 is never handed out: while page 0 is free, alloc_free_page
    returns NULL and changes nothing, whatever else is free; a successful
    allocation returns an address of at least PAGESIZE and leaves the ledger
    entry of page 0 as it was. *)
Theorem alloc_free_page_skips_page_zero (st : kstate) (own : Z) :
  config_ok -> ledger_ok st ->
  (page_free st 0 = true -> alloc_free_page own st = Ok (NULL, st)) /\
  (forall a st', alloc_free_page own st = Ok (a, st') -> a <> NULL ->
     PAGESIZE <= a /\ page_free st 0 = false /\ pageinfo st' !! 0%nat = pageinfo st !! 0%nat).
Proof.
  intros Hc Hl. split.
  - intros H0. apply alloc_free_page_none; auto.
  - intros a st' Ha Hne.
    destruct (alloc_free_page_result st own Hc Hl)
      as [(i & e & Hi & _ & _ & Hmin & _ & _ & _ & Ha') | (Ha' & _)].
    + rewrite Ha' in Ha. inversion Ha; subst a st'. clear Ha.
      destruct Hc as [Hnp _]. rewrite PAGEADDRESS_small by lia.
      split; [unfold PAGESIZE; lia|]. split; [apply Hmin; lia|].
      simpl. apply list_lookup_insert_ne. lia.
    + rewrite Ha' in Ha. inversion Ha; subst. contradiction.
Qed.

(** X4. Two allocations in a row never return the same page: after a
    successful alloc_free_page the next call returns NULL or a strictly
    higher address, and the first page is still recorded for its owner with
    refcount 1. *)
Theorem alloc_free_page_no_reuse (st st1 st2 : kstate) (own1 own2 a1 a2 : Z) :
  config_ok -> ledger_ok st ->
  alloc_free_page own1 st = Ok (a1, st1) -> a1 <> NULL ->
  alloc_free_page own2 st1 = Ok (a2, st2) ->
  a2 <> a1 /\ (a2 <> NULL -> a1 < a2) /\
  pageinfo st2 !! Z.to_nat (PAGENUMBER a1) = Some (mk_pageinfo own1 1).
Proof.
  intros Hc Hl Ha1 Hne1 Ha2. pose proof Hc as [Hnp _].
  destruct (alloc_free_page_result st own1 Hc Hl)
    as [(i & e & Hi & _ & Hfi & Hmini & He & _ & _ & Ha1') | (Ha1' & _)].
  2:{ rewrite Ha1' in Ha1. inversion Ha1; subst. contradiction. }
  rewrite Ha1' in Ha1. inversion Ha1; subst a1 st1. clear Ha1.
  fold (charge i own1 st) in *.
  assert (Hl1 : ledger_ok (charge i own1 st)) by (apply ledger_ok_charge; exact Hl).
  assert (Hlt : (Z.to_nat i < length (pageinfo st))%nat)
    by (apply lookup_lt_Some in He; exact He).
  rewrite PAGENUMBER_PAGEADDRESS by lia.
  destruct (alloc_free_page_result (charge i own1 st) own2 Hc Hl1)
    as [(j & e' & Hj & _ & Hfj & Hminj & _ & _ & _ & Ha2') | (Ha2' & _)].
  - rewrite Ha2' in Ha2. inversion Ha2; subst a2 st2. clear Ha2.
    assert (Hij : i < j).
    { destruct (Z.lt_trichotomy j i) as [Hlt' | [Heq | Hgt]]; [| |exact Hgt].
      - rewrite page_free_charge_ne in Hfj by lia.
        rewrite Hmini in Hfj by lia. discriminate.
      - subst j. rewrite page_free_charge_eq in Hfj. discriminate. }
    rewrite !PAGEADDRESS_small by lia. unfold PAGESIZE.
    split; [lia|]. split; [lia|].
    simpl. rewrite list_lookup_insert_ne by lia.
    apply list_lookup_insert_eq. exact Hlt.
  - rewrite Ha2' in Ha2. inversion Ha2; subst a2 st2. clear Ha2.
    split; [auto|]. split; [intros Hn; contradiction|].
    simpl. apply list_lookup_insert_eq. exact Hlt.
Qed.

(** X7. find_page_owner leaves the state as it was and returns the
    lowest-numbered RUNNABLE process among 1..NPROC-1 that maps the page at
    one of the virtual addresses PAGEADDRESS(k), k < NPAGES; it returns -1
    exactly when no RUNNABLE process maps the page at such an address. *)
Theorem find_page_owner_lowest_runnable (st : kstate) (pagenum : Z) :
  config_ok -> proctable_ok st ->
  exists q,
    find_page_owner pagenum st = Ok (q, st) /\
    (q = -1 \/ 1 <= q < NPROC) /\
    (q = -1 <->
       forall j p, 1 <= j < NPROC -> processes st !! Z.to_nat j = Some p ->
         p_state p = P_RUNNABLE ->
         forall k, 0 <= k < NPAGES ->
           vam_pa (virtual_memory_lookup (mem st) (p_pagetable p) (PAGEADDRESS k))
             <> PAGEADDRESS pagenum) /\
    (q <> -1 ->
       runnable st q = true /\
       (exists p k, processes st !! Z.to_nat q = Some p /\ 0 <= k < NPAGES /\
          vam_pa (virtual_memory_lookup (mem st) (p_pagetable p) (PAGEADDRESS k))
            = PAGEADDRESS pagenum) /\
       forall j, 1 <= j < q -> ~ candidate st pagenum j).
Proof.
  intros Hc Hpt.
  assert (Hno : forall j, ~ candidate st pagenum j <->
            forall p, processes st !! Z.to_nat j = Some p -> p_state p = P_RUNNABLE ->
              forall k, 0 <= k < NPAGES ->
                vam_pa (virtual_memory_lookup (mem st) (p_pagetable p) (PAGEADDRESS k))
                  <> PAGEADDRESS pagenum).
  { intros j. unfold candidate, scan_hits, maps_at. split.
    - intros Hn p Hp Hrun k Hk Heq. apply Hn. exists p. split; [exact Hp|].
      split; [exact Hrun|]. exists k. split; [exact Hk|]. apply Z.eqb_eq. exact Heq.
    - intros Hall (p & Hp & Hrun & k & Hk & Heq). apply Z.eqb_eq in Heq.
      exact (Hall p Hp Hrun k Hk Heq). }
  destruct (find_page_owner_spec st pagenum Hc Hpt) as (q & Hf & Hq).
  exists q. split; [exact Hf|].
  destruct Hq as [(Hqr & Hcand & Hmin) | (-> & Hnone)].
  - split; [right; exact Hqr|]. split.
    + split; [intros ->; lia|]. intros Hall. exfalso.
      apply (proj2 (Hno q)); [|exact Hcand].
      intros p Hp Hrun k Hk. apply (Hall q p); auto.
    + intros _. destruct Hcand as (p & Hp & Hrun & k & Hk & Heq).
      split; [unfold runnable; rewrite Hp, Hrun; reflexivity|]. split; [|exact Hmin].
      exists p, k. split; [exact Hp|]. split; [exact Hk|].
      apply Z.eqb_eq. exact Heq.
  - split; [left; reflexivity|]. split.
    + split; [|reflexivity]. intros _ j p Hj Hp Hrun k Hk.
      apply (proj1 (Hno j) (Hnone j Hj) p Hp Hrun k Hk).
    + intros Hne. contradiction.
Qed.

End Lowest.

(** ** The checker and the dispatcher together *)

Section CheckerUse.
Context `{KernelConfig}.

(** X12. virtual_memory_check only reads: whenever it returns, the kernel
    state is the one it was called on. *)
Theorem virtual_memory_check_preserves_state (st st' : kstate) (u : unit) :
  virtual_memory_check st = Ok (u, st') -> st' = st.
Proof. apply readonly_virtual_memory_check. Qed.

(** X13. virtual_memory_check returns exactly on the states that satisfy its
    invariants (slot 0 FREE; every page table in use aligned, inside
    physical memory and recorded with the expected owner and refcount,
    likewise every present first-level entry; every referenced page with a
    process owner belongs to a non-FREE process) and fails an assertion on
    every other state. *)
Theorem virtual_memory_check_passes_iff (st : kstate) :
  config_ok -> ledger_ok st -> proctable_ok st ->
  (virtual_memory_check st = Ok (tt, st) <-> vm_invariants st) /\
  (~ vm_invariants st -> exists f, virtual_memory_check st = Fault f).
Proof.
  intros Hc Hl Hpt.
  destruct (virtual_memory_check_decides st Hc Hl Hpt) as [[Hinv Hck] | [Hinv (f & Hck)]].
  - split; [tauto|]. intros Hn. contradiction.
  - split.
    + split; [|intros Hi; contradiction]. intros Hok. rewrite Hok in Hck. discriminate.
    + intros _. exists f. exact Hck.
Qed.


End CheckerUse.

Section CheckerUseBoot.
Context `{KernelConfig} `{BootConfig}.

Lemma initial_owner_free (addr : Z) :
  initial_owner addr = PO_FREE <->
  physical_memory_isreserved addr = false /\
  ~ (KERNEL_START_ADDR <= addr < kernel_end) /\
  addr <> KERNEL_STACK_TOP - PAGESIZE.
Proof.
  unfold initial_owner, PO_FREE, PO_RESERVED, PO_KERNEL.
  destruct (physical_memory_isreserved addr).
  { split; [discriminate | intros (Hf & _); discriminate]. }
  destruct (Z.leb_spec KERNEL_START_ADDR addr), (Z.ltb_spec addr kernel_end),
    (Z.eqb_spec addr (KERNEL_STACK_TOP - PAGESIZE)); simpl;
    split; intros Hx; try discriminate; try (exfalso; lia);
    repeat split; auto; lia.
Qed.

(** X20. pageinfo_init touches only the ledger and writes every entry: a
    reserved page gets (RESERVED, 1), a page of the kernel image or the
    kernel stack page (KERNEL, 1), every other page (FREE, 0); a page is
    free afterwards exactly when it is none of the three. *)
Theorem pageinfo_init_ledger (st : kstate) :
  config_ok -> ledger_ok st ->
  exists st',
    pageinfo_init st = Ok (tt, st') /\
    processes st' = processes st /\ current st' = current st /\
    ticks st' = ticks st /\ mem st' = mem st /\
    length (pageinfo st') = length (pageinfo st) /\
    forall pn, 0 <= pn < NPAGES ->
      exists e, pageinfo st' !! Z.to_nat pn = Some e /\
        owner e = initial_owner (PAGEADDRESS pn) /\
        (owner e = PO_RESERVED \/ owner e = PO_KERNEL \/ owner e = PO_FREE) /\
        refcount e = (if owner e =? PO_FREE then 0 else 1) /\
        (page_free st' pn = true <->
           physical_memory_isreserved (PAGEADDRESS pn) = false /\
           ~ (KERNEL_START_ADDR <= PAGEADDRESS pn < kernel_end) /\
           PAGEADDRESS pn <> KERNEL_STACK_TOP - PAGESIZE).
Proof.
  intros Hc Hl.
  destruct (pageinfo_init_result st Hc Hl) as (st' & Hi & Hps & Hcu & Htk & Hm & Hlen & Hent).
  exists st'. repeat (split; [assumption|]).
  intros pn Hpn. eexists. split; [apply Hent; exact Hpn|]. simpl.
  split; [reflexivity|]. split; [apply initial_owner_cases|]. split; [reflexivity|].
  unfold page_free. rewrite (Hent pn Hpn). unfold is_free. simpl.
  rewrite <- initial_owner_free. unfold PO_FREE.
  destruct (initial_owner (PAGEADDRESS pn) =? 0) eqn:Ho; simpl.
  - apply Z.eqb_eq in Ho. tauto.
  - apply Z.eqb_neq in Ho. split; [discriminate | tauto].
Qed.

End CheckerUseBoot.

(** ** Operations that keep the invariants *)

Section Invariants.
Context `{KernelConfig}.

(** *** Operations that keep the checker's invariants *)

(** A page table stays in order when the ledger entries of its owner and
    the memory are kept. *)
Lemma pagetable_ok_ledger (s s' : kstate) (pt o r : Z) :
  mem s' = mem s ->
  (forall k e, pageinfo s !! k = Some e -> owner e = o -> pageinfo s' !! k = Some e) ->
  pagetable_ok s pt o r -> pagetable_ok s' pt o r.
Proof.
  intros Hm Hkeep (Hal & Hlt & He & Hent).
  split; [exact Hal|]. split; [exact Hlt|]. split; [apply (Hkeep _ _ He); reflexivity|].
  intros pn Hpn. rewrite Hm. intros Hpres.
  destruct (Hent pn Hpn Hpres) as (Hr & He'). split; [exact Hr|].
  apply (Hkeep _ _ He'). reflexivity.
Qed.

Lemma kernel_table_users_insert (ps : list proc) (i : nat) (p p' : proc) :
  ps !! i = Some p -> uses_kernel_table p' = uses_kernel_table p ->
  kernel_table_users (<[i := p']> ps) = kernel_table_users ps.
Proof.
  revert i. induction ps as [|x ps IH]; intros i Hp Hu; [discriminate|].
  destruct i as [|i]; simpl in *.
  - inversion Hp; subst x. rewrite Hu. reflexivity.
  - rewrite (IH i Hp Hu). reflexivity.
Qed.

Lemma kernel_table_users_nonneg (ps : list proc) : 0 <= kernel_table_users ps.
Proof. induction ps as [|x ps IH]; simpl; [lia|]. destruct (uses_kernel_table x); lia. Qed.

(** Charging a free page to the kernel, to reserved memory or to a
    process that is in use keeps the invariants. *)
Lemma vm_invariants_charge (st : kstate) (i own : Z) :
  vm_invariants st -> 0 <= i < NPAGES -> page_free st i = true ->
  (0 <= own -> own < NPROC /\
     exists p, processes st !! Z.to_nat own = Some p /\ p_state p <> P_FREE) ->
  vm_invariants (charge i own st).
Proof.
  intros ((p0 & Hp0 & Hfree0) & HK & Hprocs & Hpages) Hi Hfi Hown.
  assert (Hkeep : forall o, o <> 0 -> forall k e,
            pageinfo st !! k = Some e -> owner e = o ->
            pageinfo (charge i own st) !! k = Some e).
  { intros o Ho k e He Hoe. unfold charge. simpl.
    destruct (Nat.eq_dec k (Z.to_nat i)) as [->|Hne].
    - unfold page_free in Hfi. rewrite He in Hfi. unfold is_free in Hfi.
      apply andb_true_iff in Hfi. destruct Hfi as [Hz _]. apply Z.eqb_eq in Hz. lia.
    - rewrite list_lookup_insert_ne by auto. exact He. }
  split; [|split; [|split]].
  - exists p0. auto.
  - apply (pagetable_ok_ledger st); [reflexivity | apply Hkeep; discriminate | exact HK].
  - intros pid p Hpid Hp Hst Hkt.
    apply (pagetable_ok_ledger st); [reflexivity | | apply (Hprocs pid p); auto].
    apply Hkeep. intros ->. simpl in Hp. change (Z.to_nat 0) with 0%nat in Hp.
    rewrite Hp0 in Hp. inversion Hp; subst p. contradiction.
  - intros pn e Hpn He Hrc Ho. unfold charge in He. simpl in He.
    destruct (Z.eq_dec pn i) as [->|Hne].
    + apply list_lookup_insert_Some in He.
      destruct He as [(_ & <- & _) | (Hne & _)]; [|contradiction].
      simpl in *. apply Hown. exact Ho.
    + rewrite list_lookup_insert_ne in He by lia. apply (Hpages pn e); auto.
Qed.

(** X22. alloc_free_page keeps the invariants virtual_memory_check asserts,
    whether it succeeds or not, when the page is allocated to the kernel, as
    reserved, or to a process that is not FREE. *)
Theorem alloc_free_page_keeps_invariants (st st' : kstate) (own a : Z) :
  config_ok -> ledger_ok st -> vm_invariants st ->
  (0 <= own -> own < NPROC /\
     exists p, processes st !! Z.to_nat own = Some p /\ p_state p <> P_FREE) ->
  alloc_free_page own st = Ok (a, st') ->
  vm_invariants st'.
Proof.
  intros Hc Hl Hinv Hown Ha.
  destruct (alloc_free_page_result st own Hc Hl)
    as [(i & e & Hi & _ & Hfi & _ & _ & _ & _ & Ha') | (Ha' & _)];
    rewrite Ha' in Ha; inversion Ha; subst.
  - apply vm_invariants_charge; auto. lia.
  - exact Hinv.
Qed.

(** X23. Tearing down a process that has its own page table keeps the
    invariants virtual_memory_check asserts. *)
Theorem free_current_process_keeps_invariants (st : kstate) (p : Z) (pr : proc) :
  config_ok -> ledger_ok st -> proctable_ok st ->
  1 <= p < NPROC -> processes st !! Z.to_nat p = Some pr -> p_pid pr = p ->
  p_pagetable pr <> kernel_pagetable ->
  vm_invariants st ->
  exists st', free_current_process p st = Ok (tt, st') /\ vm_invariants st'.
Proof.
  intros Hc Hl Hpt Hp Hpr Hpid Hown ((p0 & Hp0 & Hfree0) & HK & Hprocs & Hpages).
  pose proof Hc as [_ Hn].
  destruct (free_current_process_spec st p pr Hc Hl Hpt ltac:(lia) Hpr)
    as (st' & Hf & Hps & Hm & _ & _ & Hlen & Hent).
  exists st'. split; [exact Hf|].
  assert (Hplt : (Z.to_nat p < length (processes st))%nat)
    by (apply lookup_lt_Some in Hpr; exact Hpr).
  assert (Hkeep : forall o, o <> p -> forall k e,
            pageinfo st !! k = Some e -> owner e = o -> pageinfo st' !! k = Some e).
  { intros o Ho k e He Hoe.
    assert (Hk : 0 <= Z.of_nat k < NPAGES).
    { apply lookup_lt_Some in He. unfold ledger_ok in Hl. lia. }
    destruct (Hent (Z.of_nat k) e Hk) as (q & _ & Hk'); [rewrite Nat2Z.id; exact He|].
    rewrite Nat2Z.id in Hk'. rewrite Hk'. f_equal. apply exit_entry_other. lia. }
  assert (Hother : forall j x, j <> p -> 0 <= j ->
            processes st' !! Z.to_nat j = Some x -> processes st !! Z.to_nat j = Some x).
  { intros j x Hne Hj Hx. rewrite Hps in Hx.
    rewrite list_lookup_insert_ne in Hx by lia. exact Hx. }
  assert (Hfreed : processes st' !! Z.to_nat p = Some (set_p_state P_FREE pr)).
  { rewrite Hps. apply list_lookup_insert_eq. exact Hplt. }
  split; [|split; [|split]].
  - exists p0. split; [|exact Hfree0]. rewrite Hps.
    rewrite list_lookup_insert_ne by lia. exact Hp0.
  - assert (Hexp : expected_kernel_refcount st' = expected_kernel_refcount st).
    { unfold expected_kernel_refcount. rewrite Hps. f_equal.
      apply (kernel_table_users_insert _ _ pr); [exact Hpr|].
      unfold uses_kernel_table. simpl.
      replace (p_pagetable pr =? kernel_pagetable) with false
        by (symmetry; apply Z.eqb_neq; exact Hown).
      rewrite !andb_false_r. reflexivity. }
    rewrite Hexp.
    apply (pagetable_ok_ledger st); [exact Hm | apply Hkeep; unfold PO_KERNEL; lia | exact HK].
  - intros pid x Hpid' Hx Hst Hkt.
    destruct (Z.eq_dec pid p) as [->|Hne].
    { rewrite Hfreed in Hx. inversion Hx; subst x. simpl in Hst. contradiction. }
    apply (pagetable_ok_ledger st); [exact Hm | apply Hkeep; exact Hne|].
    apply (Hprocs pid x); auto. apply Hother; auto; lia.
  - intros pn e' Hpn He' Hrc Ho.
    destruct (pageinfo_get_ok st pn Hl Hpn) as (e & He & _).
    destruct (Hent pn e Hpn He) as (q & Hq & Hpn'). rewrite Hpn' in He'.
    inversion He'; subst e'. clear He'.
    unfold exit_entry in *. rewrite Hpid in *.
    destruct (owner e =? p) eqn:Hoe.
    + destruct (1 <? refcount e) eqn:H1.
      * destruct (q =? -1) eqn:Hq1; [simpl in Hrc; lia|].
        apply Z.eqb_neq in Hq1. simpl in *.
        destruct Hq as [(Hqr & (x & Hx & Hrun & _) & _) | (-> & _)]; [|contradiction].
        rewrite int8_small by lia. split; [lia|].
        assert (Hqp : q <> p).
        { intros ->. simpl in Hx.
          rewrite list_lookup_insert_eq in Hx by exact Hplt.
          inversion Hx; subst x. discriminate. }
        simpl in Hx. rewrite list_lookup_insert_ne in Hx by lia.
        exists x. split; [|rewrite Hrun; discriminate].
        rewrite Hps. rewrite list_lookup_insert_ne by lia. exact Hx.
      * apply Z.ltb_ge in H1.
        destruct (refcount e =? 1) eqn:H2; simpl in Hrc.
        -- apply Z.eqb_eq in H2. rewrite H2 in Hrc. vm_compute in Hrc. discriminate.
        -- lia.
    + apply Z.eqb_neq in Hoe.
      destruct (Hpages pn e Hpn He Hrc Ho) as (Hlt & x & Hx & Hst).
      split; [exact Hlt|]. exists x. split; [|exact Hst].
      rewrite Hps. rewrite list_lookup_insert_ne by lia. exact Hx.
Qed.

End Invariants.

(** ** C2: fork_process

    The copy loop is followed iteration by iteration with [fork_inv]. *)

Lemma filter_length_insert {A} (f : A -> bool) (l : list A) (i : nat) (x y : A) :
  l !! i = Some x ->
  (length (List.filter f (<[i := y]> l)) + (if f x then 1 else 0)
   = length (List.filter f l) + (if f y then 1 else 0))%nat.
Proof.
  revert i. induction l as [|a l IH]; intros i Hx; [discriminate|].
  destruct i as [|i]; simpl in *.
  - inversion Hx; subst a. destruct (f x), (f y); simpl; lia.
  - specialize (IH i Hx). destruct (f a); simpl; lia.
Qed.

Lemma filter_length_zero {A} (f : A -> bool) (l : list A) :
  (forall i x, l !! i = Some x -> f x = false) -> length (List.filter f l) = 0%nat.
Proof.
  induction l as [|a l IH]; intros Hall; [reflexivity|].
  simpl. rewrite (Hall 0%nat a) by reflexivity. apply IH.
  intros i x Hx. apply (Hall (S i) x). exact Hx.
Qed.

Section Counting.
Context `{KernelConfig}.

Lemma free_count_charge (st : kstate) (i own : Z) :
  0 <= i -> page_free st i = true ->
  (free_count (charge i own st) + 1 = free_count st)%nat.
Proof.
  intros Hi Hf. unfold page_free in Hf.
  destruct (pageinfo st !! Z.to_nat i) as [e|] eqn:He; [|discriminate].
  unfold free_count, charge. simpl.
  pose proof (filter_length_insert is_free (pageinfo st) (Z.to_nat i) e
                (mk_pageinfo own 1) He) as Hlen.
  assert (Hnew : is_free (mk_pageinfo own 1) = false)
    by (unfold is_free; simpl; apply andb_false_r).
  rewrite Hf, Hnew in Hlen. lia.
Qed.

Lemma free_count_none (st : kstate) :
  ledger_ok st -> (forall j, 0 <= j < NPAGES -> page_free st j = false) -> free_count st = 0%nat.
Proof.
  intros Hl Hnone. unfold free_count. apply filter_length_zero.
  intros i x Hx. specialize (Hnone (Z.of_nat i)).
  unfold page_free in Hnone. rewrite Nat2Z.id, Hx in Hnone. apply Hnone.
  apply lookup_lt_Some in Hx. unfold ledger_ok in Hl. lia.
Qed.

(** With a free page in the ledger and page 0 taken, the allocator
    succeeds. *)
Lemma alloc_free_page_some (st : kstate) (own : Z) :
  config_ok -> ledger_ok st -> page_free st 0 = false -> (0 < free_count st)%nat ->
  exists i, 0 < i < NPAGES /\ page_free st i = true /\
    (forall j, 0 <= j < i -> page_free st j = false) /\
    alloc_free_page own st = Ok (PAGEADDRESS i, charge i own st).
Proof.
  intros Hc Hl H0 Hcount.
  destruct (find_free_physical_page_spec st Hc Hl)
    as [(i & Hi & Hf & Hmin & _) | (Hnone & _)].
  - assert (Hi0 : i <> 0) by (intros ->; rewrite H0 in Hf; discriminate).
    exists i. split; [lia|]. split; [exact Hf|]. split; [exact Hmin|].
    apply alloc_free_page_at; auto. lia.
  - rewrite (free_count_none st Hl Hnone) in Hcount. lia.
Qed.

Lemma writable_count_mono (m : memory) (pt : Z) (a b : nat) :
  (a <= b)%nat -> (writable_count m pt a <= writable_count m pt b)%nat.
Proof. induction 1; simpl; lia. Qed.

Lemma bumped_S (n : nat) (rc : Z) : bumped (S n) rc = int8 (bumped n rc + 1).
Proof. reflexivity. Qed.

End Counting.

Lemma load32_ext (m1 m2 : memory) (a : Z) :
  (forall x, a <= x < a + 4 -> m1 x = m2 x) -> load32 m1 a = load32 m2 a.
Proof.
  intros Hx. unfold load32.
  rewrite (Hx a), (Hx (a + 1)), (Hx (a + 2)), (Hx (a + 3)) by lia. reflexivity.
Qed.

Lemma load32_range (m : memory) (a : Z) : bytes_ok m -> 0 <= load32 m a < 2 ^ 32.
Proof.
  intros Hb. unfold load32.
  pose proof (Hb a). pose proof (Hb (a + 1)). pose proof (Hb (a + 2)). pose proof (Hb (a + 3)).
  change (2 ^ 8) with 256. change (2 ^ 16) with 65536. change (2 ^ 24) with 16777216.
  change (2 ^ 32) with 4294967296. lia.
Qed.

(** An entry is its address field or-ed with its flags. *)
Lemma PTE_split (pe : Z) : 0 <= pe < 2 ^ 32 -> Z.lor (PTE_ADDR pe) (PTE_FLAGS pe) = pe.
Proof.
  intros Hpe. rewrite (PTE_ADDR_sub pe Hpe). unfold PTE_FLAGS. rewrite land_0xFFF_mod.
  assert (Hm : 0 <= pe mod PAGESIZE < PAGESIZE) by (apply Z.mod_pos_bound; unfold PAGESIZE; lia).
  rewrite lor_aligned; [lia | | | exact Hm].
  - pose proof (Z.mod_le pe PAGESIZE). unfold PAGESIZE in *. lia.
  - unfold PAGESIZE in *. Z.div_mod_to_equations. lia.
Qed.

Lemma PTE_FLAGS_range (pe : Z) : 0 <= PTE_FLAGS pe < PAGESIZE.
Proof.
  unfold PTE_FLAGS. rewrite land_0xFFF_mod. apply Z.mod_pos_bound. unfold PAGESIZE. lia.
Qed.

Lemma PTE_ADDR_page (pe : Z) :
  0 <= pe < 2 ^ 32 ->
  PTE_ADDR pe = PAGENUMBER pe * PAGESIZE /\ 0 <= PAGENUMBER pe < 2 ^ 20.
Proof.
  intros Hpe. rewrite (PTE_ADDR_sub pe Hpe), PAGENUMBER_div.
  unfold PAGESIZE. change (2 ^ 32) with 4294967296 in Hpe. change (2 ^ 20) with 1048576.
  Z.div_mod_to_equations. lia.
Qed.

(** The two results of a lookup. *)
Lemma lookup_cases (m : memory) (pagetable va : Z) :
  let pe1 := load32 m (pagetable + 4 * L1PAGEINDEX va) in
  let pe := load32 m (PTE_ADDR pe1 + 4 * L2PAGEINDEX va) in
  (virtual_memory_lookup m pagetable va = vam_unmapped /\
   (Z.land pe1 PTE_P = 0 \/ Z.land pe PTE_P = 0))
  \/ (Z.land pe1 PTE_P <> 0 /\ Z.land pe PTE_P <> 0 /\
      virtual_memory_lookup m pagetable va
        = mk_vam (PAGENUMBER pe) (PTE_ADDR pe + PAGEOFFSET va) (PTE_FLAGS pe)).
Proof.
  intros pe1 pe. unfold virtual_memory_lookup. fold pe1.
  destruct (Z.land pe1 PTE_P =? 0) eqn:H1.
  { apply Z.eqb_eq in H1. left. auto. }
  fold pe. destruct (Z.land pe PTE_P =? 0) eqn:H2.
  { apply Z.eqb_eq in H2. left. auto. }
  apply Z.eqb_neq in H1. apply Z.eqb_neq in H2. right. auto.
Qed.

(** Lookups that read the same two words agree. *)
Lemma lookup_words (m m' : memory) (pagetable pagetable' va : Z) :
  load32 m' (pagetable' + 4 * L1PAGEINDEX va) = load32 m (pagetable + 4 * L1PAGEINDEX va) ->
  load32 m' (PTE_ADDR (load32 m (pagetable + 4 * L1PAGEINDEX va)) + 4 * L2PAGEINDEX va)
    = load32 m (PTE_ADDR (load32 m (pagetable + 4 * L1PAGEINDEX va)) + 4 * L2PAGEINDEX va) ->
  virtual_memory_lookup m' pagetable' va = virtual_memory_lookup m pagetable va.
Proof. intros H1 H2. unfold virtual_memory_lookup. rewrite H1, H2. reflexivity. Qed.

(** A mapping with permission 0 is the unmapped one; any other is present. *)
Lemma lookup_perm (m : memory) (pagetable va : Z) :
  let vam := virtual_memory_lookup m pagetable va in
  (vam_perm vam = 0 -> vam = vam_unmapped) /\
  (vam_perm vam <> 0 ->
     Z.land (vam_perm vam) PTE_P <> 0 /\ 0 <= vam_perm vam < PAGESIZE).
Proof.
  cbv zeta. destruct (lookup_cases m pagetable va) as [(-> & _) | (_ & Hp & ->)]; simpl.
  - split; [reflexivity | intros Hn; contradiction].
  - split.
    + intros H0. rewrite land_flags_present, H0 in Hp. contradiction.
    + intros _. split; [rewrite <- land_flags_present; exact Hp | apply PTE_FLAGS_range].
Qed.

Lemma writable_present (vam : vamapping) : writable vam = true -> vam_perm vam <> 0.
Proof.
  unfold writable. intros Hw. apply andb_true_iff in Hw. destruct Hw as [Hw _].
  apply negb_true_iff in Hw. apply Z.eqb_neq. exact Hw.
Qed.

Section ForkWords.
Context `{KernelConfig}.

(** The pages of the private region, when it lies under 4MB. *)
Lemma private_va_facts (k : nat) :
  MEMSIZE_VIRTUAL <= 2 ^ 22 -> (k < private_pages)%nat ->
  PROC_START_ADDR <= private_va k < MEMSIZE_VIRTUAL /\
  private_va k mod PAGESIZE = 0 /\
  L1PAGEINDEX (private_va k) = 0 /\
  L2PAGEINDEX (private_va k) = 256 + Z.of_nat k /\
  256 + Z.of_nat k < 1024 /\
  PAGEOFFSET (private_va k) = 0.
Proof.
  intros Hmv Hk. unfold private_pages, trip_count in Hk. unfold private_va.
  unfold PROC_START_ADDR, PAGESIZE in *. change (2 ^ 22) with 4194304 in Hmv.
  assert (Hlt : 1048576 + Z.of_nat k * 4096 < MEMSIZE_VIRTUAL).
  { assert (Hk' : Z.of_nat k < (MEMSIZE_VIRTUAL - 1048576 + 4096 - 1) / 4096) by lia.
    Z.div_mod_to_equations. lia. }
  split; [lia|]. split.
  { rewrite Z.mod_add by lia. reflexivity. }
  split; [apply L1PAGEINDEX_low; change (2 ^ 22) with 4194304; lia|].
  assert (Hidx : L2PAGEINDEX (1048576 + Z.of_nat k * 4096) = 256 + Z.of_nat k).
  { rewrite L2PAGEINDEX_eq. unfold PAGESIZE.
    replace (1048576 + Z.of_nat k * 4096) with ((256 + Z.of_nat k) * 4096) by lia.
    rewrite Z.div_mul by lia. apply Z.mod_small. lia. }
  split; [exact Hidx|]. split; [lia|].
  unfold PAGEOFFSET. rewrite land_0xFFF_mod. unfold PAGESIZE.
  rewrite Z.mod_add by lia. reflexivity.
Qed.

Lemma outside_free_not_in (st : kstate) (a n x : Z) :
  outside_free st a n -> a <= x < a + n -> ~ in_free_page st x.
Proof.
  intros Hout Hx (p & Hp & Hf & Hin). destruct (Hout p Hp Hf); lia.
Qed.

End ForkWords.

Section ForkParent.
Context `{KernelConfig}.
Variables (st : kstate) (curp : proc).

Hypothesis Hc : config_ok.
Hypothesis Hmv : MEMSIZE_VIRTUAL <= 2 ^ 22.
Hypothesis Hl : ledger_ok st.
Hypothesis Hbytes : bytes_ok (mem st).
Hypothesis Howned : private_pages_owned st (p_pagetable curp).

Lemma page_addr (p : Z) : 0 <= p < NPAGES -> PAGEADDRESS p = p * PAGESIZE.
Proof. intros Hp. destruct Hc as [Hnp _]. apply PAGEADDRESS_small. lia. Qed.

(** What the parent maps at the [k]-th private page. *)
Lemma parent_mapping (k : nat) :
  (k < private_pages)%nat ->
  let vam := virtual_memory_lookup (mem st) (p_pagetable curp) (private_va k) in
  (vam_perm vam = 0 /\ vam = vam_unmapped)
  \/ (vam_perm vam <> 0 /\ Z.land (vam_perm vam) PTE_P <> 0 /\
      0 <= vam_perm vam < PAGESIZE /\
      0 <= vam_pn vam < NPAGES /\ vam_pa vam = vam_pn vam * PAGESIZE /\
      0 <= Z.lor (vam_pa vam) (vam_perm vam) < 2 ^ 32 /\
      (exists e, pageinfo st !! Z.to_nat (vam_pn vam) = Some e /\ owner e <> PO_FREE) /\
      page_free st (vam_pn vam) = false /\
      forall off, 0 <= off < PAGESIZE -> ~ in_free_page st (vam_pa vam + off)).
Proof.
  intros Hk. cbv zeta.
  destruct (private_va_facts k Hmv Hk) as (_ & _ & _ & _ & _ & Hoff).
  pose proof (Howned k Hk) as Hown. cbv zeta in Hown.
  destruct (lookup_cases (mem st) (p_pagetable curp) (private_va k)) as [(Hu & _) | (_ & Hp & Hm)].
  { left. rewrite Hu. split; reflexivity. }
  right. rewrite Hm in Hown |- *. clear Hm.
  cbn [vam_perm vam_pn vam_pa] in Hown |- *. rewrite Hoff, Z.add_0_r.
  set (pe := load32 (mem st) (PTE_ADDR _ + _)) in *.
  assert (Hpe : 0 <= pe < 2 ^ 32) by (apply load32_range; exact Hbytes).
  destruct (PTE_ADDR_page pe Hpe) as (Hpa & Hpn).
  assert (Hfl : PTE_FLAGS pe <> 0).
  { intros H0. rewrite land_flags_present, H0 in Hp. apply Hp. reflexivity. }
  destruct (Hown Hfl) as (Hpn0 & e & He & Ho).
  assert (Hlt : PAGENUMBER pe < NPAGES).
  { apply lookup_lt_Some in He. unfold ledger_ok in Hl. lia. }
  rewrite (PTE_split pe Hpe).
  split; [exact Hfl|]. split; [rewrite <- land_flags_present; exact Hp|].
  split; [apply PTE_FLAGS_range|]. split; [lia|]. split; [exact Hpa|].
  split; [lia|]. split; [exists e; split; assumption|].
  assert (Hnf : page_free st (PAGENUMBER pe) = false).
  { unfold page_free. rewrite He. unfold is_free. unfold PO_FREE in Ho.
    apply Z.eqb_neq in Ho. rewrite Ho. reflexivity. }
  split; [exact Hnf|].
  intros off Hoff' (p & Hp' & Hfp & Hin).
  rewrite (page_addr p Hp'), Hpa in Hin. unfold PAGESIZE in Hin, Hoff'.
  assert (p = PAGENUMBER pe) by lia. subst p.
  rewrite Hnf in Hfp. discriminate.
Qed.

Lemma pages_disjoint (p q : Z) :
  0 <= p < NPAGES -> 0 <= q < NPAGES -> p <> q ->
  PAGEADDRESS p + PAGESIZE <= PAGEADDRESS q \/ PAGEADDRESS q + PAGESIZE <= PAGEADDRESS p.
Proof.
  intros Hp Hq Hpq. rewrite (page_addr p Hp), (page_addr q Hq). unfold PAGESIZE. lia.
Qed.

End ForkParent.

Section ForkLoop.
Context `{KernelConfig}.
Variables (st : kstate) (curp cp0 : proc) (chld i j : Z).

Hypothesis Hc : config_ok.
Hypothesis Hmv : MEMSIZE_VIRTUAL <= 2 ^ 22.
Hypothesis Hl : ledger_ok st.
Hypothesis Hpt : proctable_ok st.
Hypothesis Hcur : 0 <= current st < NPROC.
Hypothesis Hcurp : processes st !! Z.to_nat (current st) = Some curp.
Hypothesis Hchld : 1 <= chld < NPROC.
Hypothesis Hne : chld <> current st.
Hypothesis Hcp0 : p_pagetable cp0 = PAGEADDRESS i.
Hypothesis Hi : 0 < i < NPAGES.
Hypothesis Hj : 0 < j < NPAGES.
Hypothesis Hij : i <> j.
Hypothesis Hfj : page_free st j = true.
Hypothesis Hp0 : page_free st 0 = false.
Hypothesis Hbytes : bytes_ok (mem st).
Hypothesis Hout1 : outside_free st (p_pagetable curp) 4.
Hypothesis Hout2 : outside_free st (PTE_ADDR (load32 (mem st) (p_pagetable curp))) PAGESIZE.
Hypothesis Howned : private_pages_owned st (p_pagetable curp).

Lemma slot_in_table (k : nat) :
  (k < private_pages)%nat ->
  PAGEADDRESS j <= PAGEADDRESS j + 4 * (256 + Z.of_nat k) /\
  PAGEADDRESS j + 4 * (256 + Z.of_nat k) + 4 <= PAGEADDRESS j + PAGESIZE.
Proof.
  intros Hk. destruct (private_va_facts k Hmv Hk) as (_ & _ & _ & _ & Hlt & _).
  unfold PAGESIZE. lia.
Qed.

(** An entry the loop has written stays as it is while its slot, its page
    and its ledger entry are left alone. *)
Lemma child_entry_frame (s s' : kstate) (k' : nat) :
  child_entry st s (p_pagetable curp) chld i j k' ->
  (forall pg, 0 < pg < NPAGES -> page_free st pg = true ->
     pageinfo s !! Z.to_nat pg = Some (mk_pageinfo chld 1) ->
     pageinfo s' !! Z.to_nat pg = Some (mk_pageinfo chld 1)) ->
  load32 (mem s') (PAGEADDRESS j + 4 * (256 + Z.of_nat k'))
    = load32 (mem s) (PAGEADDRESS j + 4 * (256 + Z.of_nat k')) ->
  (forall pg off, 0 < pg < NPAGES -> pg <> j ->
     pageinfo s !! Z.to_nat pg = Some (mk_pageinfo chld 1) -> 0 <= off < PAGESIZE ->
     mem s' (PAGEADDRESS pg + off) = mem s (PAGEADDRESS pg + off)) ->
  child_entry st s' (p_pagetable curp) chld i j k'.
Proof.
  unfold child_entry. cbv zeta. intros Hce Hpi Hslot Hmem.
  destruct (writable _).
  - destruct Hce as (pg & Hpg & Hf & Hpi' & Hpj & He & Hw & Hcont).
    exists pg. split; [exact Hpg|]. split; [exact Hf|]. split; [exact Hpi'|].
    split; [exact Hpj|]. split; [apply Hpi; assumption|].
    split; [rewrite Hslot; exact Hw|].
    intros off Hoff. rewrite (Hmem pg off Hpg Hpj He Hoff). apply Hcont. exact Hoff.
  - rewrite Hslot. exact Hce.
Qed.

Lemma fresh_distinct_frame (s s' : kstate) (k : nat) :
  (forall k', (k' < k)%nat ->
     load32 (mem s') (PAGEADDRESS j + 4 * (256 + Z.of_nat k'))
       = load32 (mem s) (PAGEADDRESS j + 4 * (256 + Z.of_nat k'))) ->
  fresh_distinct st s (p_pagetable curp) j k -> fresh_distinct st s' (p_pagetable curp) j k.
Proof.
  intros Hld Hd k1 k2 Hk H1 H2. rewrite !Hld by lia. apply Hd; assumption.
Qed.

Lemma fresh_distinct_share (s : kstate) (k : nat) :
  writable (virtual_memory_lookup (mem st) (p_pagetable curp) (private_va k)) = false ->
  fresh_distinct st s (p_pagetable curp) j k -> fresh_distinct st s (p_pagetable curp) j (S k).
Proof.
  intros Hw Hd k1 k2 Hk H1 H2.
  assert (Hk2 : (k2 < k)%nat \/ k2 = k) by lia.
  destruct Hk2 as [Hlt | ->]; [apply Hd; [lia | assumption | assumption]|].
  rewrite Hw in H2. discriminate.
Qed.

(** The page a writable entry of the child names is the one charged for it. *)
Lemma child_entry_page (s : kstate) (k : nat) :
  (k < private_pages)%nat ->
  child_entry st s (p_pagetable curp) chld i j k ->
  writable (virtual_memory_lookup (mem st) (p_pagetable curp) (private_va k)) = true ->
  pageinfo s !! Z.to_nat
    (PAGENUMBER (load32 (mem s) (PAGEADDRESS j + 4 * (256 + Z.of_nat k))))
    = Some (mk_pageinfo chld 1).
Proof.
  intros Hk Hce Hw. unfold child_entry in Hce. cbv zeta in Hce. rewrite Hw in Hce.
  destruct Hce as (pg & Hpg & _ & _ & _ & He & Hld & _).
  rewrite Hld.
  destruct (parent_mapping st curp Hc Hmv Hl Hbytes Howned k Hk) as [(H0 & _) | Hpm].
  { apply writable_present in Hw. contradiction. }
  destruct Hpm as (_ & _ & Hpr & _).
  assert (Hpgr : 0 <= pg < NPAGES) by lia.
  destruct (entry_decode (PAGEADDRESS pg)
              (vam_perm (virtual_memory_lookup (mem st) (p_pagetable curp) (private_va k))))
    as (_ & Hpn & _).
  { rewrite (page_addr Hc pg Hpgr). unfold PAGESIZE. lia. }
  { rewrite (page_addr Hc pg Hpgr). destruct Hc as [Hnp _]. unfold PAGESIZE.
    change (2 ^ 32) with 4294967296. change (2 ^ 20) with 1048576 in Hnp. lia. }
  { rewrite (page_addr Hc pg Hpgr). apply Z.mod_mul. unfold PAGESIZE. lia. }
  { exact Hpr. }
  rewrite Hpn, (page_addr Hc pg Hpgr), Z.div_mul by (unfold PAGESIZE; lia). exact He.
Qed.

(** The start of every iteration: the parent, its mapping and the child's
    slot are read as in the state fork started from. *)
Lemma fork_inv_reads (n k : nat) (s : kstate) :
  (k < private_pages)%nat ->
  fork_inv st (p_pagetable curp) chld i j cp0 n s ->
  proctable_ok s /\ ledger_ok s /\
  proc_get (current s) s = Ok (curp, s) /\
  processes s !! Z.to_nat chld = Some cp0 /\
  virtual_memory_lookup (mem s) (p_pagetable curp) (private_va k)
    = virtual_memory_lookup (mem st) (p_pagetable curp) (private_va k) /\
  Z.land (load32 (mem s) (p_pagetable cp0 + 4 * L1PAGEINDEX (private_va k))) PTE_P <> 0 /\
  PTE_ADDR (load32 (mem s) (p_pagetable cp0 + 4 * L1PAGEINDEX (private_va k)))
    + 4 * L2PAGEINDEX (private_va k) = PAGEADDRESS j + 4 * (256 + Z.of_nat k).
Proof.
  intros Hk (Hps & Hcu & Htk & Hlen & Hout & Hl1 & Hfree & Hcnt & Hsh & Hch & Hdis).
  destruct (private_va_facts k Hmv Hk) as (_ & _ & HL1 & HL2 & _ & _).
  assert (Hpt' : proctable_ok s).
  { unfold proctable_ok in *. rewrite Hps, length_insert. exact Hpt. }
  assert (Hl' : ledger_ok s) by (unfold ledger_ok in *; lia).
  split; [exact Hpt'|]. split; [exact Hl'|].
  split.
  { rewrite Hcu. destruct (proc_get_ok s (current st) Hpt' Hcur) as (p & Hp & Hg).
    rewrite Hps, list_lookup_insert_ne in Hp by lia.
    rewrite Hcurp in Hp. inversion Hp; subst p. exact Hg. }
  split.
  { rewrite Hps. apply list_lookup_insert_eq. unfold proctable_ok in Hpt. lia. }
  split.
  { apply lookup_words; rewrite HL1, Z.mul_0_r, Z.add_0_r.
    - apply load32_ext. intros x Hx. apply Hout.
      eapply outside_free_not_in; [exact Hout1 | lia].
    - apply load32_ext. intros x Hx. apply Hout.
      eapply outside_free_not_in; [exact Hout2 |].
      destruct (private_va_facts k Hmv Hk) as (_ & _ & _ & _ & Hlt & _).
      rewrite HL2 in *. unfold PAGESIZE. lia. }
  rewrite Hcp0, HL1, HL2, Z.mul_0_r, Z.add_0_r, Hl1.
  assert (Hjr : 0 <= j < NPAGES) by lia.
  pose proof (page_addr Hc j Hjr) as Haj. destruct Hc as [Hnp _].
  destruct (present_entry_7 (PAGEADDRESS j)) as (Hp7 & Ha7).
  { rewrite Haj. unfold PAGESIZE. lia. }
  { rewrite Haj. unfold PAGESIZE. change (2 ^ 32) with 4294967296.
    change (2 ^ 20) with 1048576 in Hnp. lia. }
  { rewrite Haj. apply Z.mod_mul. unfold PAGESIZE. lia. }
  split; [exact Hp7|]. rewrite Ha7. reflexivity.
Qed.

(** One iteration on a writable mapping: a fresh page is charged to the
    child, filled with the parent's page and mapped. *)
Lemma fork_page_copy_step (k : nat) (s : kstate) :
  (k < private_pages)%nat ->
  fork_inv st (p_pagetable curp) chld i j cp0 k s ->
  writable (virtual_memory_lookup (mem st) (p_pagetable curp) (private_va k)) = true ->
  exists s', fork_page_unchecked chld (private_va k) s = Ok (Continue, s') /\
             fork_inv st (p_pagetable curp) chld i j cp0 (S k) s'.
Proof.
  intros Hk Hinv Hw.
  destruct (fork_inv_reads k k s Hk Hinv) as (Hpt' & Hl' & Hgc & Hpc & Hlook & Hpres1 & Hslot).
  destruct Hinv as (Hps & Hcu & Htk & Hlen & Hout & Hl1 & Hfree & Hcnt & Hsh & Hch & Hdis).
  set (vam := virtual_memory_lookup (mem st) (p_pagetable curp) (private_va k)) in *.
  pose proof (writable_present vam Hw) as Hperm.
  destruct (parent_mapping st curp Hc Hmv Hl Hbytes Howned k Hk) as [(H0 & _) | Hpm];
    [fold vam in H0; contradiction|].
  fold vam in Hpm.
  destruct Hpm as (_ & Hpp & Hpr & Hpn & Hpa & Hpe & _ & Hpnf & Hpframe).
  assert (Hir : 0 <= i < NPAGES) by lia.
  assert (Hjr : 0 <= j < NPAGES) by lia.
  destruct (slot_in_table k Hk) as (Hs1 & Hs2).
  (* a free page is left *)
  assert (Hfc : (0 < free_count s)%nat).
  { pose proof (writable_count_mono (mem st) (p_pagetable curp) (S k) private_pages
                  ltac:(lia)) as Hm.
    simpl in Hm. fold vam in Hm. rewrite Hw in Hm. lia. }
  assert (Hs0 : page_free s 0 = false).
  { destruct (page_free s 0) eqn:E; [|reflexivity].
    destruct Hc as [Hnp _].
    destruct (Hfree 0 ltac:(lia) E) as (E' & _). rewrite Hp0 in E'. discriminate. }
  destruct (alloc_free_page_some s (int8 chld) Hc Hl' Hs0 Hfc)
    as (pg & Hpg & Hfpg & _ & Halloc).
  assert (Hpgr : 0 <= pg < NPAGES) by lia.
  destruct (Hfree pg Hpgr Hfpg) as (Hfpg0 & Hpgi & Hpgj).
  assert (Hi8 : int8 chld = chld).
  { apply int8_small. destruct Hc as [_ Hnp]. lia. }
  rewrite Hi8 in Halloc.
  assert (Hpg0 : PAGEADDRESS pg <> NULL).
  { rewrite (page_addr Hc pg Hpgr). unfold NULL, PAGESIZE. lia. }
  set (s1 := charge pg chld s) in *.
  set (m2 := memcpy (mem s) (PAGEADDRESS pg) (vam_pa vam) PAGESIZE).
  set (slot := PAGEADDRESS j + 4 * (256 + Z.of_nat k)) in *.
  set (m3 := store32 m2 slot (Z.lor (PAGEADDRESS pg) (vam_perm vam))).
  exists (set_mem m3 s1).
  (* memory facts *)
  pose proof (pages_disjoint Hc pg i Hpgr Hir Hpgi) as Dpi.
  pose proof (pages_disjoint Hc pg j Hpgr Hjr Hpgj) as Dpj.
  pose proof (pages_disjoint Hc i j Hir Hjr Hij) as Dij.
  assert (Hm3out : forall x,
            (x < PAGEADDRESS pg \/ PAGEADDRESS pg + PAGESIZE <= x) ->
            (x < slot \/ slot + 4 <= x) -> m3 x = mem s x).
  { intros x Hx1 Hx2. unfold m3, m2. rewrite store32_outside by exact Hx2.
    apply memcpy_outside. exact Hx1. }
  assert (Hm3ld : forall b, b + 4 <= slot \/ slot + 4 <= b ->
            b + 4 <= PAGEADDRESS pg \/ PAGEADDRESS pg + PAGESIZE <= b ->
            load32 m3 b = load32 (mem s) b).
  { intros b Hb1 Hb2. unfold m3, m2. rewrite load32_store32_other by exact Hb1.
    apply load32_memcpy_other. exact Hb2. }
  split.
  { unfold fork_page_unchecked.
    rewrite (bind_ok _ _ s s (current s)) by reflexivity.
    rewrite (bind_ok _ _ s s curp) by exact Hgc.
    rewrite (bind_ok _ _ s s (virtual_memory_lookup (mem s) (p_pagetable curp) (private_va k)))
      by reflexivity.
    rewrite Hlook. fold vam.
    change (negb (vam_perm vam =? 0) && negb (Z.land (vam_perm vam) PTE_W =? 0))
      with (writable vam). rewrite Hw.
    rewrite Hi8. rewrite (bind_ok _ _ s s1 (PAGEADDRESS pg)) by exact Halloc.
    apply Z.eqb_neq in Hpg0. rewrite Hpg0.
    unfold bind at 1. unfold modify at 1.
    assert (Hg2 : proc_get chld (set_mem m2 s1) = Ok (cp0, set_mem m2 s1)).
    { unfold proc_get, in_processes. simpl.
      replace ((0 <=? chld) && (chld <? NPROC)) with true
        by (symmetry; apply andb_true_iff; split; [apply Z.leb_le | apply Z.ltb_lt]; lia).
      rewrite Hpc. reflexivity. }
    fold m2. rewrite (bind_ok _ _ _ _ cp0 Hg2).
    rewrite (bind_ok _ _ _ (set_mem m3 s1) tt); [reflexivity|].
    rewrite virtual_memory_map_page.
    - simpl mem. unfold m2 at 2.
      rewrite load32_memcpy_other.
      2:{ destruct (private_va_facts k Hmv Hk) as (_ & _ & HL1 & _).
          rewrite Hcp0, HL1, Z.mul_0_r, Z.add_0_r. unfold PAGESIZE in *. lia. }
      rewrite Hslot. fold slot.
      apply Z.eqb_neq in Hpp. rewrite Hpp. reflexivity.
    - simpl mem. unfold m2. rewrite load32_memcpy_other; [exact Hpres1|].
      destruct (private_va_facts k Hmv Hk) as (_ & _ & HL1 & _).
      rewrite Hcp0, HL1, Z.mul_0_r, Z.add_0_r. unfold PAGESIZE in *. lia. }
  (* the invariant *)
  assert (Hpi1 : forall p, 0 <= p -> p <> pg ->
            pageinfo s1 !! Z.to_nat p = pageinfo s !! Z.to_nat p).
  { intros p Hp Hne'. unfold s1, charge. simpl.
    apply list_lookup_insert_ne. lia. }
  assert (Hpi2 : pageinfo s1 !! Z.to_nat pg = Some (mk_pageinfo chld 1)).
  { unfold s1, charge. simpl. apply list_lookup_insert_eq.
    unfold ledger_ok in Hl'. lia. }
  unfold fork_inv.
  change (pageinfo (set_mem m3 s1)) with (pageinfo s1).
  change (mem (set_mem m3 s1)) with m3.
  change (free_count (set_mem m3 s1)) with (free_count s1).
  split; [exact Hps|]. split; [exact Hcu|]. split; [exact Htk|].
  split; [unfold s1, charge; simpl; rewrite length_insert; exact Hlen|].
  split.
  { intros a Ha. rewrite <- (Hout a Ha). apply Hm3out.
    - destruct (Z.lt_ge_cases a (PAGEADDRESS pg)) as [?|?]; [left; assumption|].
      destruct (Z.lt_ge_cases a (PAGEADDRESS pg + PAGESIZE)) as [?|?]; [|right; assumption].
      exfalso. apply Ha. exists pg. split; [exact Hpgr|]. split; [exact Hfpg0|]. lia.
    - destruct (Z.lt_ge_cases a slot) as [?|?]; [left; assumption|].
      destruct (Z.lt_ge_cases a (slot + 4)) as [?|?]; [|right; assumption].
      exfalso. apply Ha. exists j. split; [exact Hjr|]. split; [exact Hfj|].
      unfold slot in *. lia. }
  split.
  { rewrite Hm3ld; [exact Hl1 | unfold slot; unfold PAGESIZE in *; lia
                   | unfold PAGESIZE in *; lia]. }
  split.
  { intros p Hp Hfp.
    change (page_free (set_mem m3 s1) p) with (page_free s1 p) in Hfp.
    destruct (Z.eq_dec p pg) as [->|Hne'].
    - unfold s1 in Hfp. rewrite page_free_charge_eq in Hfp. discriminate.
    - apply Hfree; [exact Hp|]. unfold s1 in Hfp.
      rewrite page_free_charge_ne in Hfp by lia. exact Hfp. }
  split.
  { pose proof (free_count_charge s pg chld ltac:(lia) Hfpg) as Hfcc.
    fold s1 in Hfcc. cbn [writable_count]. fold vam. rewrite Hw. lia. }
  split.
  { intros pn e Hpn' He Hnf. cbn [shared_count]. fold vam. rewrite Hw. cbn [negb andb].
    rewrite Nat.add_0_r.
    assert (pn <> pg) by (intros ->; rewrite Hfpg0 in Hnf; discriminate).
    rewrite Hpi1 by lia. apply Hsh; assumption. }
  assert (Hold : forall k', (k' < k)%nat ->
            load32 m3 (PAGEADDRESS j + 4 * (256 + Z.of_nat k'))
              = load32 (mem s) (PAGEADDRESS j + 4 * (256 + Z.of_nat k'))).
  { intros k' Hk'. destruct (slot_in_table k' ltac:(lia)) as (Hs1' & Hs2').
    apply Hm3ld; [unfold slot; lia | unfold PAGESIZE in *; lia]. }
  assert (Hrange : 0 <= Z.lor (PAGEADDRESS pg) (vam_perm vam) < 2 ^ 32 /\
                   PAGENUMBER (Z.lor (PAGEADDRESS pg) (vam_perm vam)) = pg).
  { destruct (entry_decode (PAGEADDRESS pg) (vam_perm vam)) as (Hr & Hn & _).
    { rewrite (page_addr Hc pg Hpgr). unfold PAGESIZE. lia. }
    { rewrite (page_addr Hc pg Hpgr). destruct Hc as [Hnp _]. unfold PAGESIZE.
      change (2 ^ 32) with 4294967296. change (2 ^ 20) with 1048576 in Hnp. lia. }
    { rewrite (page_addr Hc pg Hpgr). apply Z.mod_mul. unfold PAGESIZE. lia. }
    { exact Hpr. }
    split; [exact Hr|]. rewrite Hn, (page_addr Hc pg Hpgr). apply Z.div_mul.
    unfold PAGESIZE. lia. }
  destruct Hrange as (Hrange & Hpnpg).
  assert (Hnew : load32 m3 slot = Z.lor (PAGEADDRESS pg) (vam_perm vam)).
  { unfold m3. apply load32_store32_same. exact Hrange. }
  split; [|
    unfold fresh_distinct; change (mem (set_mem m3 s1)) with m3;
    intros k1 k2 Hk12 H1 H2;
    assert (Hk2 : (k2 < k)%nat \/ k2 = k) by lia;
    destruct Hk2 as [Hlt | ->];
    [ rewrite !Hold by lia; apply Hdis; [lia | assumption | assumption]
    | rewrite Hold by lia; fold slot; rewrite Hnew, Hpnpg;
      intros Heq;
      pose proof (child_entry_page s k1 ltac:(lia) (Hch k1 ltac:(lia)) H1) as Hpg1;
      rewrite Heq in Hpg1; unfold page_free in Hfpg; rewrite Hpg1 in Hfpg;
      unfold is_free in Hfpg; simpl in Hfpg; rewrite andb_false_r in Hfpg;
      discriminate ] ].
  intros k' Hk'.
  assert (Hk'' : (k' < k)%nat \/ k' = k) by lia.
  destruct Hk'' as [Hlt | ->].
  - apply (child_entry_frame s); [apply Hch; exact Hlt | | |].
    + intros pg' Hpg' Hf' He'. rewrite Hpi1; [exact He' | lia |].
      intros ->. unfold page_free in Hfpg. rewrite He' in Hfpg.
      unfold is_free in Hfpg. simpl in Hfpg. rewrite andb_false_r in Hfpg. discriminate.
    + change (mem (set_mem m3 s1)) with m3.
      destruct (slot_in_table k' ltac:(lia)) as (Hs1' & Hs2').
      apply Hm3ld; [unfold slot; lia | unfold PAGESIZE in *; lia].
    + intros pg' off Hpg' Hpj' He' Hoff. change (mem (set_mem m3 s1)) with m3.
      assert (Hne' : pg' <> pg).
      { intros ->. unfold page_free in Hfpg. rewrite He' in Hfpg.
        unfold is_free in Hfpg. simpl in Hfpg. rewrite andb_false_r in Hfpg. discriminate. }
      pose proof (pages_disjoint Hc pg' pg ltac:(lia) Hpgr Hne') as D1.
      pose proof (pages_disjoint Hc pg' j ltac:(lia) Hjr Hpj') as D2.
      apply Hm3out;
        [ clear - D1 Hoff; unfold PAGESIZE in *; lia
        | subst slot; clear - D2 Hoff Hs1 Hs2; unfold PAGESIZE in *; lia ].
  - unfold child_entry. cbv zeta. fold vam. rewrite Hw.
    exists pg. split; [exact Hpg|]. split; [exact Hfpg0|]. split; [exact Hpgi|].
    split; [exact Hpgj|]. split; [exact Hpi2|].
    split; [exact Hnew|].
    intros off Hoff. change (mem (set_mem m3 s1)) with m3. unfold m3. rewrite store32_outside.
    2:{ unfold slot. unfold PAGESIZE in *. lia. }
    unfold m2. rewrite memcpy_inside by exact Hoff.
    apply Hout. apply Hpframe. exact Hoff.
Qed.

(** One iteration on a mapping that is not writable: the child's entry is
    the parent's, and the page's count goes up when the page is in the
    ledger. *)
Lemma fork_page_share_step (k : nat) (s : kstate) :
  (k < private_pages)%nat ->
  fork_inv st (p_pagetable curp) chld i j cp0 k s ->
  writable (virtual_memory_lookup (mem st) (p_pagetable curp) (private_va k)) = false ->
  exists s', fork_page_unchecked chld (private_va k) s = Ok (Continue, s') /\
             fork_inv st (p_pagetable curp) chld i j cp0 (S k) s'.
Proof.
  intros Hk Hinv Hw.
  destruct (fork_inv_reads k k s Hk Hinv) as (Hpt' & Hl' & Hgc & Hpc & Hlook & Hpres1 & Hslot).
  destruct Hinv as (Hps & Hcu & Htk & Hlen & Hout & Hl1 & Hfree & Hcnt & Hsh & Hch & Hdis).
  set (vam := virtual_memory_lookup (mem st) (p_pagetable curp) (private_va k)) in *.
  assert (Hir : 0 <= i < NPAGES) by lia.
  assert (Hjr : 0 <= j < NPAGES) by lia.
  destruct (slot_in_table k Hk) as (Hs1 & Hs2).
  pose proof (pages_disjoint Hc i j Hir Hjr Hij) as Dij.
  set (slot := PAGEADDRESS j + 4 * (256 + Z.of_nat k)) in *.
  set (m1 := store32 (mem s) slot (stored_entry (vam_pa vam) (vam_perm vam))).
  assert (Hrange : 0 <= stored_entry (vam_pa vam) (vam_perm vam) < 2 ^ 32).
  { unfold stored_entry.
    pose proof (parent_mapping st curp Hc Hmv Hl Hbytes Howned k Hk) as Hpm0.
    cbv zeta in Hpm0. fold vam in Hpm0.
    destruct Hpm0 as [(H0 & _) | Hpm].
    - rewrite H0. simpl. lia.
    - destruct Hpm as (_ & Hpp & _ & _ & _ & Hpe & _).
      apply Z.eqb_neq in Hpp. rewrite Hpp. exact Hpe. }
  (* the state after the entry was stored *)
  assert (Hmap :
    fork_page_unchecked chld (private_va k) s
      = (pageinfo_bump (vam_pn vam) ;;; ret Continue) (set_mem m1 s)).
  { unfold fork_page_unchecked.
    rewrite (bind_ok _ _ s s (current s)) by reflexivity.
    rewrite (bind_ok _ _ s s curp) by exact Hgc.
    rewrite (bind_ok _ _ s s (virtual_memory_lookup (mem s) (p_pagetable curp) (private_va k)))
      by reflexivity.
    rewrite Hlook. fold vam.
    change (negb (vam_perm vam =? 0) && negb (Z.land (vam_perm vam) PTE_W =? 0))
      with (writable vam). rewrite Hw.
    assert (Hg2 : proc_get chld s = Ok (cp0, s)).
    { unfold proc_get, in_processes.
      replace ((0 <=? chld) && (chld <? NPROC)) with true
        by (symmetry; apply andb_true_iff; split; [apply Z.leb_le | apply Z.ltb_lt]; lia).
      rewrite Hpc. reflexivity. }
    rewrite (bind_ok _ _ _ _ cp0 Hg2).
    rewrite (bind_ok _ _ _ (set_mem m1 s) tt); [reflexivity|].
    rewrite virtual_memory_map_page by exact Hpres1.
    rewrite Hslot. reflexivity. }
  rewrite Hmap. clear Hmap.
  (* memory facts *)
  assert (Hm1out : forall x, (x < slot \/ slot + 4 <= x) -> m1 x = mem s x).
  { intros x Hx. unfold m1. apply store32_outside. exact Hx. }
  assert (Hm1ld : forall b, b + 4 <= slot \/ slot + 4 <= b -> load32 m1 b = load32 (mem s) b).
  { intros b Hb. unfold m1. apply load32_store32_other. exact Hb. }
  assert (Hmem_inv :
    (forall a, ~ in_free_page st a -> m1 a = mem st a) /\
    load32 m1 (PAGEADDRESS i)
      = Z.lor (PAGEADDRESS j) (Z.lor (Z.lor PTE_P PTE_W) PTE_U) /\
    (forall k', (k' < k)%nat ->
       load32 m1 (PAGEADDRESS j + 4 * (256 + Z.of_nat k'))
         = load32 (mem s) (PAGEADDRESS j + 4 * (256 + Z.of_nat k'))) /\
    (forall pg off, 0 < pg < NPAGES -> pg <> j -> 0 <= off < PAGESIZE ->
       m1 (PAGEADDRESS pg + off) = mem s (PAGEADDRESS pg + off)) /\
    load32 m1 slot = stored_entry (vam_pa vam) (vam_perm vam)).
  { split.
    { intros a Ha. rewrite <- (Hout a Ha). apply Hm1out.
      destruct (Z.lt_ge_cases a slot) as [?|?]; [left; assumption|].
      destruct (Z.lt_ge_cases a (slot + 4)) as [?|?]; [|right; assumption].
      exfalso. apply Ha. exists j. split; [exact Hjr|]. split; [exact Hfj|].
      unfold slot in *. lia. }
    split.
    { rewrite Hm1ld; [exact Hl1 | unfold slot; unfold PAGESIZE in *; lia]. }
    split.
    { intros k' Hk'. destruct (slot_in_table k' ltac:(lia)) as (Hs1' & Hs2').
      apply Hm1ld. unfold slot. lia. }
    split.
    { intros pg off Hpg Hpj Hoff.
      pose proof (pages_disjoint Hc pg j ltac:(lia) Hjr Hpj) as D.
      apply Hm1out. unfold slot. unfold PAGESIZE in *. lia. }
    unfold m1. apply load32_store32_same. exact Hrange. }
  destruct Hmem_inv as (M1 & M2 & M3 & M4 & M5).
  assert (Hwc : writable_count (mem st) (p_pagetable curp) (S k)
                = writable_count (mem st) (p_pagetable curp) k).
  { cbn [writable_count]. fold vam. rewrite Hw. lia. }
  assert (Hnew : child_entry st (set_mem m1 s) (p_pagetable curp) chld i j k).
  { unfold child_entry. cbv zeta. fold vam. rewrite Hw. exact M5. }
  unfold pageinfo_bump.
  destruct (in_pageinfo (vam_pn vam)) eqn:Hin.
  - (* the page is in the ledger *)
    apply andb_true_iff in Hin. destruct Hin as (Hin1 & Hin2).
    apply Z.leb_le in Hin1. apply Z.ltb_lt in Hin2.
    pose proof (parent_mapping st curp Hc Hmv Hl Hbytes Howned k Hk) as Hpm0.
    cbv zeta in Hpm0. fold vam in Hpm0.
    destruct Hpm0 as [(_ & H0) | Hpm].
    { rewrite H0 in Hin1. simpl in Hin1. lia. }
    destruct Hpm as (_ & _ & _ & Hpn & _ & _ & (e0 & He0 & Ho0) & Hpnf & _).
    pose proof (Hsh (vam_pn vam) e0 Hpn He0 Hpnf) as Hcurr.
    set (e1 := mk_pageinfo (owner e0)
                 (bumped (shared_count (mem st) (p_pagetable curp) (vam_pn vam) k)
                         (refcount e0))) in *.
    assert (Hl1' : ledger_ok (set_mem m1 s)) by exact Hl'.
    set (f := fun e : physical_pageinfo => set_refcount (int8 (refcount e + 1)) e).
    pose proof (pageinfo_update_at (set_mem m1 s) (vam_pn vam) e1 f Hl1' Hpn Hcurr) as Hupd.
    eexists. split.
    { rewrite (bind_ok _ _ _ _ tt Hupd). reflexivity. }
    set (s2 := set_pageinfo _ _).
    assert (Hpi_ne : forall p, 0 <= p -> p <> vam_pn vam ->
              pageinfo s2 !! Z.to_nat p = pageinfo s !! Z.to_nat p).
    { intros p Hp Hne'. unfold s2. simpl. apply list_lookup_insert_ne. lia. }
    assert (Hpi_eq : pageinfo s2 !! Z.to_nat (vam_pn vam) = Some (f e1)).
    { unfold s2. simpl. apply list_lookup_insert_eq. unfold ledger_ok in Hl'. lia. }
    assert (Hnf1 : is_free (f e1) = false).
    { unfold is_free, f, e1. simpl. unfold PO_FREE in Ho0. apply Z.eqb_neq in Ho0.
      rewrite Ho0. reflexivity. }
    assert (Hnf0 : is_free e1 = false).
    { unfold is_free, e1. simpl. unfold PO_FREE in Ho0. apply Z.eqb_neq in Ho0.
      rewrite Ho0. reflexivity. }
    unfold fork_inv.
    change (mem s2) with m1. change (processes s2) with (processes s).
    change (current s2) with (current s). change (ticks s2) with (ticks s).
    split; [exact Hps|]. split; [exact Hcu|]. split; [exact Htk|].
    split; [unfold s2; simpl; rewrite length_insert; exact Hlen|].
    split; [exact M1|]. split; [exact M2|].
    split.
    { intros p Hp Hfp. apply Hfree; [exact Hp|].
      destruct (Z.eq_dec p (vam_pn vam)) as [->|Hne'].
      - unfold page_free in Hfp. rewrite Hpi_eq, Hnf1 in Hfp. discriminate.
      - unfold page_free in *. rewrite Hpi_ne in Hfp by lia. exact Hfp. }
    split.
    { rewrite Hwc.
      pose proof (filter_length_insert is_free (pageinfo s) (Z.to_nat (vam_pn vam))
                    e1 (f e1) Hcurr) as Hfl.
      rewrite Hnf0, Hnf1 in Hfl. unfold free_count. unfold s2. simpl.
      unfold free_count in Hcnt. lia. }
    split.
    { intros pn e Hpn' He Hnf. cbn [shared_count]. fold vam. rewrite Hw. cbn [negb andb].
      destruct (Z.eqb_spec (vam_pn vam) pn) as [Heq | Hneq].
      - subst pn. rewrite He0 in He. inversion He; subst e.
        rewrite Hpi_eq. unfold f, e1, set_refcount. simpl.
        rewrite Nat.add_1_r. rewrite bumped_S. reflexivity.
      - rewrite Nat.add_0_r. rewrite Hpi_ne by lia. apply Hsh; assumption. }
    split; [|apply fresh_distinct_share; [exact Hw|];
             apply (fresh_distinct_frame s); [exact M3 | exact Hdis]].
    intros k' Hk'.
    assert (Hk'' : (k' < k)%nat \/ k' = k) by lia.
    destruct Hk'' as [Hlt | ->].
    + apply (child_entry_frame s); [apply Hch; exact Hlt | | |].
      * intros pg' Hpg' Hf' He'. rewrite Hpi_ne; [exact He' | lia |].
        intros ->. rewrite Hpnf in Hf'. discriminate.
      * apply M3. exact Hlt.
      * intros pg' off Hpg' Hpj' _ Hoff. apply M4; assumption.
    + apply (child_entry_frame (set_mem m1 s)); [exact Hnew | | reflexivity |].
      * intros pg' Hpg' Hf' He'. rewrite Hpi_ne; [exact He' | lia |].
        intros ->. rewrite Hpnf in Hf'. discriminate.
      * intros. reflexivity.
  - (* the index is outside the ledger: no entry changes *)
    exists (set_mem m1 s). split; [reflexivity|].
    assert (Hnot : forall pn, 0 <= pn < NPAGES -> (vam_pn vam =? pn) = false).
    { intros pn Hpn. apply Z.eqb_neq. intros Heq. rewrite Heq in Hin.
      unfold in_pageinfo in Hin.
      replace (0 <=? pn) with true in Hin by (symmetry; apply Z.leb_le; lia).
      replace (pn <? NPAGES) with true in Hin by (symmetry; apply Z.ltb_lt; lia).
      discriminate. }
    unfold fork_inv.
    change (mem (set_mem m1 s)) with m1.
    split; [exact Hps|]. split; [exact Hcu|]. split; [exact Htk|].
    split; [exact Hlen|]. split; [exact M1|]. split; [exact M2|].
    split; [exact Hfree|].
    split; [rewrite Hwc; exact Hcnt|].
    split.
    { intros pn e Hpn' He Hnf. cbn [shared_count]. fold vam. rewrite (Hnot pn Hpn').
      rewrite andb_false_r, Nat.add_0_r. apply Hsh; assumption. }
    split; [|apply fresh_distinct_share; [exact Hw|];
             apply (fresh_distinct_frame s); [exact M3 | exact Hdis]].
    intros k' Hk'.
    assert (Hk'' : (k' < k)%nat \/ k' = k) by lia.
    destruct Hk'' as [Hlt | ->]; [|exact Hnew].
    apply (child_entry_frame s); [apply Hch; exact Hlt | | |].
    + intros pg' _ _ He'. exact He'.
    + apply M3. exact Hlt.
    + intros pg' off Hpg' Hpj' _ Hoff. apply M4; assumption.
Qed.

(** Every iteration of the copy loop goes on to the next. *)
Lemma fork_page_step (k : nat) (s : kstate) :
  (k < private_pages)%nat ->
  fork_inv st (p_pagetable curp) chld i j cp0 k s ->
  exists s', fork_page_unchecked chld (private_va k) s = Ok (Continue, s') /\
             fork_inv st (p_pagetable curp) chld i j cp0 (S k) s'.
Proof.
  intros Hk Hinv.
  destruct (writable (virtual_memory_lookup (mem st) (p_pagetable curp) (private_va k))) eqn:Hw.
  - apply fork_page_copy_step; assumption.
  - apply fork_page_share_step; assumption.
Qed.

(** What the child's table says at a private page the loop is done with. *)
Lemma fork_inv_child_lookup (n k : nat) (s : kstate) :
  (k < n)%nat -> (n <= private_pages)%nat ->
  fork_inv st (p_pagetable curp) chld i j cp0 n s ->
  let vam := virtual_memory_lookup (mem st) (p_pagetable curp) (private_va k) in
  let cvam := virtual_memory_lookup (mem s) (PAGEADDRESS i) (private_va k) in
  (writable vam = true ->
     0 < vam_pn cvam < NPAGES /\ page_free st (vam_pn cvam) = true /\
     pageinfo s !! Z.to_nat (vam_pn cvam) = Some (mk_pageinfo chld 1) /\
     cvam = mk_vam (vam_pn cvam) (PAGEADDRESS (vam_pn cvam)) (vam_perm vam) /\
     vam_pn cvam
       = PAGENUMBER (load32 (mem s) (PAGEADDRESS j + 4 * (256 + Z.of_nat k))) /\
     forall off, 0 <= off < PAGESIZE ->
       mem s (PAGEADDRESS (vam_pn cvam) + off) = mem st (vam_pa vam + off)) /\
  (writable vam = false -> cvam = vam).
Proof.
  intros Hkn Hn Hinv. cbv zeta.
  assert (Hk : (k < private_pages)%nat) by lia.
  destruct (fork_inv_reads n k s Hk Hinv) as (_ & _ & _ & _ & _ & Hpres1 & Hslot).
  destruct Hinv as (_ & _ & _ & _ & _ & _ & _ & _ & _ & Hch & _).
  specialize (Hch k Hkn). unfold child_entry in Hch. cbv zeta in Hch.
  rewrite Hcp0 in Hpres1, Hslot.
  destruct (private_va_facts k Hmv Hk) as (_ & _ & _ & _ & _ & Hoff).
  set (vam := virtual_memory_lookup (mem st) (p_pagetable curp) (private_va k)) in *.
  pose proof (parent_mapping st curp Hc Hmv Hl Hbytes Howned k Hk) as Hpm0.
  cbv zeta in Hpm0. fold vam in Hpm0.
  pose proof (lookup_cases (mem s) (PAGEADDRESS i) (private_va k)) as Hlc.
  cbv zeta in Hlc. rewrite Hslot in Hlc.
  set (pe := load32 (mem s) (PAGEADDRESS j + 4 * (256 + Z.of_nat k))) in *.
  split.
  - intros Hw. rewrite Hw in Hch.
    destruct Hch as (pg & Hpg & Hf & _ & _ & He & Hld & Hcont).
    destruct Hpm0 as [(H0 & _) | Hpm]; [apply writable_present in Hw; contradiction|].
    destruct Hpm as (_ & Hpp & Hpr & _).
    assert (Hpgr : 0 <= pg < NPAGES) by lia.
    destruct (entry_decode (PAGEADDRESS pg) (vam_perm vam)) as (_ & Hpn & Hpa & Hfl).
    { rewrite (page_addr Hc pg Hpgr). unfold PAGESIZE. lia. }
    { rewrite (page_addr Hc pg Hpgr). destruct Hc as [Hnp _]. unfold PAGESIZE.
      change (2 ^ 32) with 4294967296. change (2 ^ 20) with 1048576 in Hnp. lia. }
    { rewrite (page_addr Hc pg Hpgr). apply Z.mod_mul. unfold PAGESIZE. lia. }
    { exact Hpr. }
    rewrite (page_addr Hc pg Hpgr), Z.div_mul in Hpn by (unfold PAGESIZE; lia).
    rewrite <- (page_addr Hc pg Hpgr) in Hpn.
    destruct Hlc as [(_ & [Habs | Habs]) | (_ & _ & Hlk)].
    { contradiction. }
    { rewrite Hld, land_flags_present, Hfl in Habs. contradiction. }
    rewrite Hlk, Hld, Hpn, Hpa, Hfl, Hoff, Z.add_0_r. cbn [vam_pn].
    split; [exact Hpg|]. split; [exact Hf|]. split; [exact He|].
    split; [reflexivity|]. split; [reflexivity|]. exact Hcont.
  - intros Hw. rewrite Hw in Hch. unfold stored_entry in Hch.
    destruct Hpm0 as [(H0 & Hun) | Hpm].
    + rewrite H0 in Hch. simpl in Hch.
      destruct Hlc as [(Hlk & _) | (_ & Habs & _)].
      * rewrite Hlk, Hun. reflexivity.
      * rewrite Hch in Habs. simpl in Habs. contradiction.
    + destruct Hpm as (_ & Hpp & Hpr & Hpn & Hpa & _).
      pose proof Hpp as Hpp'. apply Z.eqb_neq in Hpp'. rewrite Hpp' in Hch.
      destruct (entry_decode (vam_pa vam) (vam_perm vam)) as (_ & Hdn & Hda & Hdf).
      { rewrite Hpa. unfold PAGESIZE. lia. }
      { rewrite Hpa. destruct Hc as [Hnp _]. unfold PAGESIZE.
        change (2 ^ 32) with 4294967296. change (2 ^ 20) with 1048576 in Hnp. lia. }
      { rewrite Hpa. apply Z.mod_mul. unfold PAGESIZE. lia. }
      { exact Hpr. }
      destruct Hlc as [(_ & [Habs | Habs]) | (_ & _ & Hlk)].
      { contradiction. }
      { rewrite Hch, land_flags_present, Hdf in Habs. contradiction. }
      rewrite Hlk, Hch, Hdn, Hda, Hdf, Hoff, Z.add_0_r.
      rewrite Hpa, Z.div_mul by (unfold PAGESIZE; lia).
      rewrite <- Hpa. destruct vam; reflexivity.
Qed.

End ForkLoop.

Section ForkStart.
Context `{KernelConfig}.

(** Far from the end of its range an [int8_t] count just adds up. *)
Lemma bumped_small (n : nat) (rc : Z) :
  0 <= rc -> rc + Z.of_nat n < 128 -> bumped n rc = rc + Z.of_nat n.
Proof.
  intros H0. induction n as [|n IH]; intros Hlt.
  - simpl. lia.
  - rewrite bumped_S, IH by lia. rewrite int8_small by lia. lia.
Qed.

(** With two free pages and page 0 taken, the two lowest free pages. *)
Lemma two_free_pages (st : kstate) :
  config_ok -> ledger_ok st -> page_free st 0 = false -> (2 <= free_count st)%nat ->
  exists i j, 0 < i /\ i < j /\ j < NPAGES /\
    page_free st i = true /\ page_free st j = true /\
    (forall k, 0 <= k < j -> k <> i -> page_free st k = false).
Proof.
  intros Hc Hl H0 Hfc.
  destruct (alloc_free_page_some st 0 Hc Hl H0 ltac:(lia)) as (i & Hi & Hfi & Hmini & _).
  pose proof (free_count_charge st i 0 ltac:(lia) Hfi) as Hfc1.
  assert (H0' : page_free (charge i 0 st) 0 = false).
  { rewrite page_free_charge_ne by lia. exact H0. }
  destruct (alloc_free_page_some (charge i 0 st) 0 Hc (ledger_ok_charge st i 0 Hl) H0'
              ltac:(lia)) as (j & Hj & Hfj & Hminj & _).
  assert (Hji : j <> i).
  { intros ->. rewrite page_free_charge_eq in Hfj. discriminate. }
  rewrite page_free_charge_ne in Hfj by lia.
  assert (Hlt : i < j).
  { destruct (Z.lt_ge_cases i j) as [?|Hge]; [assumption|].
    rewrite Hmini in Hfj by lia. discriminate. }
  exists i, j. split; [lia|]. split; [exact Hlt|]. split; [lia|].
  split; [exact Hfi|]. split; [exact Hfj|].
  intros k Hk Hki. rewrite <- (page_free_charge_ne st i 0 k) by lia. apply Hminj. exact Hk.
Qed.

(** The invariant holds when the loop starts. *)
Lemma fork_inv_start (st s0 : kstate) (ppt chld i j : Z) (cp0 : proc) :
  config_ok -> ledger_ok st ->
  0 < i < NPAGES -> 0 < j < NPAGES -> i <> j ->
  page_free st i = true -> page_free st j = true ->
  (2 + writable_count (mem st) ppt private_pages <= free_count st)%nat ->
  pageinfo s0 = pageinfo (charge j chld (charge i chld st)) ->
  processes s0 = <[Z.to_nat chld := cp0]> (processes st) ->
  current s0 = current st -> ticks s0 = ticks st ->
  (forall a, (a < PAGEADDRESS i \/ PAGEADDRESS i + PAGESIZE <= a) ->
             (a < PAGEADDRESS j \/ PAGEADDRESS j + PAGESIZE <= a) ->
             mem s0 a = mem st a) ->
  load32 (mem s0) (PAGEADDRESS i)
    = Z.lor (PAGEADDRESS j) (Z.lor (Z.lor PTE_P PTE_W) PTE_U) ->
  fork_inv st ppt chld i j cp0 0 s0.
Proof.
  intros Hc Hl Hi Hj Hij Hfi Hfj Hcnt Hpi Hps Hcu Htk Hmem Hl1.
  unfold fork_inv.
  split; [exact Hps|]. split; [exact Hcu|]. split; [exact Htk|].
  split; [rewrite Hpi; unfold charge; simpl; rewrite !length_insert; reflexivity|].
  split.
  { intros a Ha. apply Hmem.
    - destruct (Z.lt_ge_cases a (PAGEADDRESS i)) as [?|?]; [left; assumption|].
      destruct (Z.lt_ge_cases a (PAGEADDRESS i + PAGESIZE)) as [?|?]; [|right; assumption].
      exfalso. apply Ha. exists i. split; [lia|]. split; [exact Hfi|]. lia.
    - destruct (Z.lt_ge_cases a (PAGEADDRESS j)) as [?|?]; [left; assumption|].
      destruct (Z.lt_ge_cases a (PAGEADDRESS j + PAGESIZE)) as [?|?]; [|right; assumption].
      exfalso. apply Ha. exists j. split; [lia|]. split; [exact Hfj|]. lia. }
  split; [exact Hl1|].
  assert (Hpf : forall p, page_free s0 p = page_free (charge j chld (charge i chld st)) p).
  { intros p. unfold page_free. rewrite Hpi. reflexivity. }
  split.
  { intros p Hp Hfp. rewrite Hpf in Hfp.
    destruct (Z.eq_dec p j) as [->|Hpj]; [rewrite page_free_charge_eq in Hfp; discriminate|].
    rewrite page_free_charge_ne in Hfp by lia.
    destruct (Z.eq_dec p i) as [->|Hpi']; [rewrite page_free_charge_eq in Hfp; discriminate|].
    rewrite page_free_charge_ne in Hfp by lia. auto. }
  split.
  { pose proof (free_count_charge st i chld ltac:(lia) Hfi) as H1.
    pose proof (free_count_charge (charge i chld st) j chld ltac:(lia)) as H2.
    rewrite page_free_charge_ne in H2 by lia. specialize (H2 Hfj).
    assert (Hfc : free_count s0 = free_count (charge j chld (charge i chld st))).
    { unfold free_count. rewrite Hpi. reflexivity. }
    rewrite Hfc. simpl. lia. }
  split.
  { intros pn e Hpn He Hnf. simpl. rewrite Hpi. unfold charge. simpl.
    assert (pn <> i) by (intros ->; rewrite Hfi in Hnf; discriminate).
    assert (pn <> j) by (intros ->; rewrite Hfj in Hnf; discriminate).
    rewrite !list_lookup_insert_ne by lia. rewrite He. destruct e; reflexivity. }
  split; [intros k' Hk'; lia|].
  intros k1 k2 Hk. lia.
Qed.

End ForkStart.

(** Discharge the leading hypotheses of [H] from the context. *)
Ltac feed H :=
  repeat match type of H with
         | ?A -> _ =>
             let Ha := fresh in
             assert (Ha : A) by (assumption || reflexivity || lia);
             specialize (H Ha); clear Ha
         end.

Section ForkWhole.
Context `{KernelConfig}.


End ForkWhole.

Section ForkAgree.
Context `{KernelConfig}.

(** Inside the array the unchecked increment is the checked one. *)
Lemma pageinfo_bump_checked (i : Z) (st : kstate) (r : unit * kstate) :
  pageinfo_update i (fun e => set_refcount (int8 (refcount e + 1)) e) st = Ok r ->
  pageinfo_bump i st = Ok r.
Proof.
  intros Hu. unfold pageinfo_bump. destruct (in_pageinfo i) eqn:Hin; [exact Hu|].
  unfold pageinfo_update, bind, pageinfo_get in Hu. rewrite Hin in Hu. discriminate.
Qed.

Lemma bind_agree {A B} (m : kernel A) (k k' : A -> kernel B) (st : kstate)
    (r : B * kstate) :
  (forall a s, k a s = Ok r -> k' a s = Ok r) ->
  bind m k st = Ok r -> bind m k' st = Ok r.
Proof.
  intros Hk. unfold bind. destruct (m st) as [[a s]|f]; [apply Hk | discriminate].
Qed.

Lemma bind_agree_head {A B} (m m' : kernel A) (k : A -> kernel B) (st : kstate)
    (r : B * kstate) :
  (forall q, m st = Ok q -> m' st = Ok q) ->
  bind m k st = Ok r -> bind m' k st = Ok r.
Proof.
  intros Hm. unfold bind. destruct (m st) as [[a s]|f] eqn:E; [|discriminate].
  rewrite (Hm _ eq_refl). exact (fun E' => E').
Qed.

Lemma fork_page_agree (chld va : Z) (st : kstate) (r : flow Z * kstate) :
  fork_page chld va st = Ok r -> fork_page_unchecked chld va st = Ok r.
Proof.
  unfold fork_page, fork_page_unchecked.
  apply bind_agree; intros cur s1. apply bind_agree; intros curp s2.
  apply bind_agree; intros vam s3.
  destruct (negb (vam_perm vam =? 0) && negb (Z.land (vam_perm vam) PTE_W =? 0));
    [exact (fun E => E)|].
  apply bind_agree; intros copy s4. apply bind_agree; intros [] s5.
  apply bind_agree_head. intros q. apply pageinfo_bump_checked.
Qed.

Lemma for_loop_agree {R} (body body' : Z -> kernel (flow R)) (n : nat) (lo step : Z)
    (st : kstate) (r : option R * kstate) :
  (forall va s q, body va s = Ok q -> body' va s = Ok q) ->
  for_loop n lo step body st = Ok r -> for_loop n lo step body' st = Ok r.
Proof.
  intros Hb. revert lo st. induction n as [|n IH]; intros lo st; [exact (fun E => E)|].
  simpl. unfold bind at 1 2.
  destruct (body lo st) as [[f s]|e] eqn:Hbody; [|discriminate].
  rewrite (Hb _ _ _ Hbody). destruct f; [apply IH | exact (fun E => E)].
Qed.

(** Whatever [fork_process] returns with every index inside its array,
    the unchecked reading returns too. *)
Lemma fork_process_agree (st : kstate) (r : Z * kstate) :
  fork_process st = Ok r -> fork_process_unchecked st = Ok r.
Proof.
  unfold fork_process, fork_process_unchecked.
  apply bind_agree; intros chld s1.
  destruct (negb (chld =? -1)); [|exact (fun E => E)].
  apply bind_agree; intros cur s2. apply bind_agree; intros curp s3.
  apply bind_agree; intros pgtb s4.
  destruct (pgtb =? NULL); [exact (fun E => E)|].
  apply bind_agree; intros [] s5. apply bind_agree; intros [] s6.
  apply bind_agree_head. intros q. apply for_loop_agree. apply fork_page_agree.
Qed.

End ForkAgree.


(** * Evaluations on the concrete machine *)

Lemma weensy_config_ok : @config_ok weensy.
Proof. unfold config_ok. simpl. lia. Qed.

(** ** C8: the ledger index of the sharing branch *)

Section ForkIndex.
Context `{KernelConfig}.

(** C8, refuted.  When the parent's lookup reports the address as
    unmapped, the page number it returns is -1, which is outside
    [0, NPAGES), and the sharing branch of the fork loop uses it as an
    index into [pageinfo]: the iteration ends in an out-of-bounds access. *)
Theorem fork_page_unmapped_index (st : kstate) (chld_pid va : Z) (curp copy : proc) :
  proctable_ok st ->
  0 <= current st < NPROC ->
  processes st !! Z.to_nat (current st) = Some curp ->
  0 <= chld_pid < NPROC ->
  processes st !! Z.to_nat chld_pid = Some copy ->
  Z.land (load32 (mem st) (p_pagetable copy + 4 * L1PAGEINDEX va)) PTE_P <> 0 ->
  virtual_memory_lookup (mem st) (p_pagetable curp) va = vam_unmapped ->
  vam_pn (virtual_memory_lookup (mem st) (p_pagetable curp) va) = -1 /\
  in_pageinfo (-1) = false /\
  fork_page chld_pid va st = Fault (OutOfBounds A_pageinfo (-1)).
Proof.
  intros Hl Hcur Hcurp Hchld Hcopy Hl1 Hvam.
  split; [rewrite Hvam; reflexivity|]. split; [reflexivity|].
  unfold fork_page.
  rewrite (bind_ok _ _ st st (current st)) by reflexivity.
  destruct (proc_get_ok st _ Hl Hcur) as (p1 & Hp1 & Hg1).
  rewrite Hcurp in Hp1. inversion Hp1; subst p1; clear Hp1.
  rewrite (bind_ok _ _ _ _ _ Hg1).
  rewrite (bind_ok _ _ st st vam_unmapped) by (unfold gets; rewrite Hvam; reflexivity).
  simpl.
  destruct (proc_get_ok st _ Hl Hchld) as (p2 & Hp2 & Hg2).
  rewrite Hcopy in Hp2. inversion Hp2; subst p2; clear Hp2.
  rewrite (bind_ok _ _ _ _ _ Hg2).
  rewrite (bind_ok _ _ _ _ _
             (virtual_memory_map_page st _ va (vam_pa vam_unmapped)
                (vam_perm vam_unmapped) Hl1)).
  apply bind_fault. unfold pageinfo_update. apply bind_fault.
  apply pageinfo_get_oob. lia.
Qed.

End ForkIndex.

(** In state C, with slot 2 as the child, address 0x101000 is unmapped in
    the parent and the iteration indexes the ledger at -1. *)
Lemma fork_page_unmapped_index_witness :
  virtual_memory_lookup (mem stateC) (p_pagetable procA) 0x101000 = vam_unmapped /\
  @fork_page weensy 2 0x101000 stateC = Fault (OutOfBounds A_pageinfo (-1)).
Proof.
  split; [vm_compute; reflexivity|].
  destruct (@fork_page_unmapped_index weensy stateC 2 0x101000 procA procC2)
    as (_ & _ & Hf);
    [ reflexivity | simpl; lia | reflexivity | simpl; lia | reflexivity
    | vm_compute; discriminate | vm_compute; reflexivity
    | exact Hf ].
Defined.

(** ** C1: page-allocate on a misaligned address *)

(** C1, refuted.  Process 1 of state A requests a page at 0x101001, one
    byte off page alignment, while page 4 is free.  The handler resumes
    the caller with -1 in the return-value register, but page 4 has left
    the free pool: its ledger entry went from (FREE, 0) to (1, 1), and the
    page is mapped nowhere in the caller's address space. *)
Theorem page_alloc_misaligned_changes_ledger :
  pageinfo stateA !! 4%nat = Some (mk_pageinfo PO_FREE 0) /\
  match @exception weensy 16 nokbd (user_regs 0x101001 INT_SYS_PAGE_ALLOC) stateA with
  | Resumed st' =>
      current st' = 1 /\
      (reg_eax <$> (p_registers <$> processes st' !! 1%nat)) = Some (u32 (-1)) /\
      pageinfo st' !! 4%nat = Some (mk_pageinfo 1 1) /\
      virtual_memory_lookup (mem st') 0x1000 0x101000 = vam_unmapped
  | _ => False
  end.
Proof. vm_compute. repeat split; reflexivity. Qed.

(** ** C3: fork that runs out of memory mid-copy *)

(** C3, refuted.  In state B the parent maps page 0x100 read-only at
    PROC_START_ADDR and a writable page above it, and only two pages are
    free.  The fork request clones the tables, shares page 0x100, then
    fails to allocate the copy of the writable page: the child slot is
    FREE again and the caller receives -1, but the ledger entry of the
    parent's page 0x100 went from refcount 1 to refcount 2. *)
Theorem fork_failure_leaves_refcount :
  vam_pn (virtual_memory_lookup (mem stateB) 0x1000 PROC_START_ADDR) = 0x100 /\
  pageinfo stateB !! 0x100%nat = Some (mk_pageinfo 1 1) /\
  match @exception weensy 16 nokbd (user_regs 0 INT_SYS_FORK) stateB with
  | Resumed st' =>
      current st' = 1 /\
      (reg_eax <$> (p_registers <$> processes st' !! 1%nat)) = Some (u32 (-1)) /\
      (p_state <$> processes st' !! 2%nat) = Some P_FREE /\
      pageinfo st' !! 0x100%nat = Some (mk_pageinfo 1 2)
  | _ => False
  end.
Proof. vm_compute. repeat split; reflexivity. Qed.

(** ** C4: exit of the recorded owner of a shared page *)

(** C4, refuted.  In state C process 1 is the recorded owner of page
    0x180 (refcount 2) and the RUNNABLE process 2 maps that page at
    virtual address 0x200000.  When process 1 exits, [find_page_owner]
    scans only the virtual pages below PAGEADDRESS(NPAGES) = 0x200000 and
    finds nobody: the entry is forced to (FREE, 0) although process 2
    still maps the page. *)
Theorem exit_frees_page_still_mapped :
  pageinfo stateC !! 0x180%nat = Some (mk_pageinfo 1 2) /\
  @runnable stateC 2 = true /\
  vam_pn (virtual_memory_lookup (mem stateC) (p_pagetable procC2) 0x200000) = 0x180 /\
  match @exception weensy 16 nokbd (user_regs 0 INT_SYS_EXIT) stateC with
  | Resumed st' =>
      (p_state <$> processes st' !! 1%nat) = Some P_FREE /\
      @runnable st' 2 = true /\
      vam_pn (virtual_memory_lookup (mem st') (p_pagetable procC2) 0x200000) = 0x180 /\
      pageinfo st' !! 0x180%nat = Some (mk_pageinfo PO_FREE 0)
  | _ => False
  end.
Proof. vm_compute. repeat split; reflexivity. Qed.

(** ** Instances of the general theorems *)

(** Page 4 of state A is free: allocating it to process 1 succeeds. *)
Lemma physical_page_alloc_spec_witness :
  0 <= 0x4000 < 2 ^ 32 /\
  exists st', @physical_page_alloc weensy 0x4000 1 stateA = Ok (0, st') /\
              pageinfo st' !! 4%nat = Some (mk_pageinfo 1 1).
Proof.
  split; [lia|].
  destruct (@physical_page_alloc_spec weensy stateA 0x4000 1)
    as (r & st' & Hr & Hfail & _ & Hsucc);
    [exact weensy_config_ok | reflexivity | lia |].
  assert (Hr0 : r <> -1).
  { intros Hr1. apply Hfail in Hr1.
    destruct Hr1 as [Hm | [Hm | (e & He & Hne)]].
    - apply Hm. reflexivity.
    - vm_compute in Hm. apply Hm. reflexivity.
    - vm_compute in He. inversion He; subst e. apply Hne. reflexivity. }
  destruct (Hsucc Hr0) as (-> & Hnew & _).
  exists st'. split; [exact Hr | exact Hnew].
Defined.

(** The allocator on state A. *)
Lemma alloc_free_page_spec_witness :
  @ledger_ok weensy stateA /\
  exists a st', @alloc_free_page weensy 1 stateA = Ok (a, st') /\
                (a = NULL -> st' = stateA).
Proof.
  split; [reflexivity|].
  destruct (@alloc_free_page_spec weensy stateA 1)
    as (a & st' & Ha & Hnull & _); [exact weensy_config_ok | reflexivity |].
  exists a, st'. split; [exact Ha | exact Hnull].
Defined.

(** Fork on the full process table of state D. *)
Lemma fork_process_no_free_slot_witness :
  @proctable_ok weensy stateD /\ @fork_process weensy stateD = Ok (-1, stateD).
Proof.
  split; [reflexivity|].
  apply (@fork_process_no_free_slot weensy stateD);
    [exact weensy_config_ok | reflexivity |].
  intros i p Hi Hp.
  assert (Hcases : forall n : nat, (1 <= n < 16)%nat ->
            forall q, processes stateD !! n = Some q -> p_state q <> P_FREE).
  { intros n Hn q Hq.
    do 16 (destruct n as [|n]; [first [lia | simpl in Hq; inversion Hq; discriminate]|]).
    lia. }
  apply (Hcases (Z.to_nat i)); [simpl in Hi; lia | exact Hp].
Defined.

(** From process 1 of state C the scheduler resumes process 2; with every
    slot FREE it is still spinning after five iterations. *)
Lemma schedule_round_robin_witness :
  @schedule weensy 16 nokbd 0 stateC = Resumed (set_current 2 stateC) /\
  @schedule weensy 5 nokbd 0 (set_processes (free_slots 16) stateC)
    = Spinning 5 (set_processes (free_slots 16) stateC).
Proof.
  split.
  - destruct (@schedule_round_robin weensy stateC nokbd 0 procA)
      as [Hrun _];
      [ exact weensy_config_ok | reflexivity | simpl; lia | reflexivity
      | reflexivity | ].
    destruct Hrun as (d & Hd & Hrd & Hmin & Hres).
    { exists 2. split; [simpl; lia | reflexivity]. }
    rewrite (Hres 16%nat) by (simpl; lia || reflexivity).
    destruct d as [|d].
    + reflexivity.
    + specialize (Hmin O ltac:(lia)). vm_compute in Hmin. discriminate.
  - destruct (@schedule_round_robin weensy (set_processes (free_slots 16) stateC)
                nokbd 0 (mk_proc 1 zero_regs P_FREE 0))
      as [_ Hspin];
      [ exact weensy_config_ok | reflexivity | simpl; lia | reflexivity
      | reflexivity | ].
    apply Hspin; [|reflexivity]. intros i Hi.
    assert (Hcases : forall n : nat, (n < 16)%nat ->
              @runnable (set_processes (free_slots 16) stateC) (Z.of_nat n) = false).
    { intros n Hn. do 16 (destruct n as [|n]; [reflexivity|]). lia. }
    simpl in Hi. rewrite <- (Z2Nat.id i) by lia. apply Hcases. lia.
Defined.

(** ** More instances *)

(** *** Reading the concrete states *)

Lemma forallb_below (P : Z -> bool) (n : nat) :
  forallb (fun k => P (Z.of_nat k)) (seq 0 n) = true ->
  forall k, 0 <= k < Z.of_nat n -> P k = true.
Proof.
  intros Hall k Hk. rewrite forallb_forall in Hall.
  rewrite <- (Z2Nat.id k) by lia. apply Hall. apply in_seq. lia.
Qed.

Lemma forallb_lookup {A} (P : A -> bool) (l : list A) :
  forallb P l = true -> forall k e, l !! k = Some e -> P e = true.
Proof.
  intros Hall k e He. rewrite forallb_forall in Hall. apply Hall.
  apply list_elem_of_In. apply (list_elem_of_lookup_2 l k). exact He.
Qed.

Lemma check_passes_invariants `{KernelConfig} (st : kstate) :
  config_ok -> ledger_ok st -> proctable_ok st ->
  match virtual_memory_check st with Ok _ => true | Fault _ => false end = true ->
  vm_invariants st.
Proof.
  intros Hc Hl Hpt Hok.
  destruct (virtual_memory_check_decides st Hc Hl Hpt) as [[Hinv _] | [_ (f & Hf)]];
    [exact Hinv|].
  rewrite Hf in Hok. discriminate.
Qed.

Lemma stateA_invariants : @vm_invariants weensy stateA.
Proof.
  apply check_passes_invariants;
    [exact weensy_config_ok | reflexivity | reflexivity | vm_compute; reflexivity].
Qed.

Lemma stateC_invariants : @vm_invariants weensy stateC.
Proof.
  apply check_passes_invariants;
    [exact weensy_config_ok | reflexivity | reflexivity | vm_compute; reflexivity].
Qed.

(** The pages of state A below page 4 are taken. *)
Lemma stateA_low_pages (j : Z) : 0 <= j < 4 -> @page_free stateA j = false.
Proof.
  intros Hj. apply negb_true_iff.
  apply (forallb_below (fun k => negb (page_free stateA k)) 4); [vm_compute; reflexivity | lia].
Qed.

Lemma find_free_process_slot_lowest_witness :
  exists r, @find_free_process_slot weensy stateA = Ok (r, stateA) /\ (r = -1 \/ 1 <= r < 16).
Proof.
  destruct (@find_free_process_slot_lowest weensy stateA weensy_config_ok)
    as (r & Hr & Hrange & _); [reflexivity|].
  exists r. split; [exact Hr | exact Hrange].
Defined.

Lemma find_free_physical_page_lowest_witness :
  exists a, @find_free_physical_page weensy stateA = Ok (a, stateA) /\ a = 4 * PAGESIZE.
Proof.
  destruct (@find_free_physical_page_lowest weensy stateA weensy_config_ok)
    as (a & Ha & _ & Hlow); [reflexivity|].
  exists a. split; [exact Ha|].
  apply (Hlow 4); [simpl; lia | vm_compute; reflexivity | exact stateA_low_pages].
Defined.

Lemma alloc_free_page_skips_page_zero_witness :
  @page_free stateZ 0 = true /\ @page_free stateZ 4 = true /\
  @alloc_free_page weensy 1 stateZ = Ok (NULL, stateZ).
Proof.
  split; [vm_compute; reflexivity|]. split; [vm_compute; reflexivity|].
  apply (@alloc_free_page_skips_page_zero weensy stateZ 1 weensy_config_ok);
    [reflexivity | vm_compute; reflexivity].
Defined.

Lemma alloc_free_page_no_reuse_witness :
  exists a1 st1 a2 st2,
    @alloc_free_page weensy 1 stateA = Ok (a1, st1) /\ a1 <> NULL /\
    @alloc_free_page weensy 2 st1 = Ok (a2, st2) /\ a2 <> a1.
Proof.
  assert (H1 : @alloc_free_page weensy 1 stateA = Ok (0x4000, @charge 4 1 stateA)).
  { apply (@alloc_free_page_at weensy stateA 1 4);
      [ exact weensy_config_ok | reflexivity | simpl; lia | vm_compute; reflexivity
      | exact stateA_low_pages ]. }
  assert (H2 : @alloc_free_page weensy 2 (@charge 4 1 stateA)
               = Ok (0x5000, @charge 5 2 (@charge 4 1 stateA))).
  { apply (@alloc_free_page_at weensy (@charge 4 1 stateA) 2 5);
      [ exact weensy_config_ok | reflexivity | simpl; lia | vm_compute; reflexivity | ].
    intros j Hj. apply negb_true_iff.
    apply (forallb_below (fun k => negb (page_free (@charge 4 1 stateA) k)) 5);
      [vm_compute; reflexivity | lia]. }
  exists 0x4000, (@charge 4 1 stateA), 0x5000, (@charge 5 2 (@charge 4 1 stateA)).
  assert (Hne : 0x4000 <> NULL) by discriminate.
  destruct (@alloc_free_page_no_reuse weensy stateA _ _ 1 2 _ _ weensy_config_ok
              ltac:(reflexivity) H1 Hne H2) as (Hdiff & _).
  repeat split; assumption.
Defined.

(** The free pages of state A lie outside a byte range inside page [pn]
    when page [pn] is taken. *)
Lemma stateA_outside_free (pn a n : Z) :
  0 <= pn < 512 -> @page_free stateA pn = false ->
  pn * PAGESIZE <= a -> a + n <= (pn + 1) * PAGESIZE ->
  @outside_free weensy stateA a n.
Proof.
  intros Hpn Htaken Hlo Hhi k Hk Hfree.
  assert (Hne : k <> pn) by (intros ->; rewrite Htaken in Hfree; discriminate).
  simpl in Hk. rewrite PAGEADDRESS_small by lia. unfold PAGESIZE in *. lia.
Qed.

Lemma copy_pagetable_address_space_witness :
  exists st',
    @copy_pagetable weensy 0x1000 2 stateA = Ok (0x4000, st') /\
    virtual_memory_lookup (mem st') 0x4000 0xB8000
      = virtual_memory_lookup (mem stateA) 0x1000 0xB8000 /\
    virtual_memory_lookup (mem st') 0x4000 0x100000 = vam_unmapped.
Proof.
  destruct (@copy_pagetable_address_space weensy stateA 0x1000 2 4 5)
    as (st' & Hcp & _ & _ & _ & _ & Hkern & Hpriv);
    [ exact weensy_config_ok | reflexivity | lia | lia | simpl; lia
    | vm_compute; reflexivity | vm_compute; reflexivity
    | intros k Hk Hne; apply stateA_low_pages; lia
    | vm_compute; discriminate
    | apply (stateA_outside_free 1);
        [lia | vm_compute; reflexivity | vm_compute; discriminate | vm_compute; discriminate]
    | apply (stateA_outside_free 2);
        [lia | vm_compute; reflexivity | vm_compute; discriminate | vm_compute; discriminate]
    | ].
  exists st'. split; [exact Hcp|]. split.
  - apply Hkern. vm_compute. split; [discriminate | reflexivity].
  - apply Hpriv. vm_compute. split; [discriminate | reflexivity].
Defined.

(** X6. copy_pagetable returns NULL with the state unchanged when no page
    can be allocated (no page free, or page 0 free); when exactly one page i
    > 0 is free it returns NULL as well but leaves page i charged to the
    owner: the first-level page is not given back. *)
Theorem copy_pagetable_failure `{KernelConfig} (st : kstate) (pagetable own : Z) :
  config_ok -> ledger_ok st ->
  ((page_free st 0 = true \/ forall j, 0 <= j < NPAGES -> page_free st j = false) ->
   copy_pagetable pagetable own st = Ok (NULL, st)) /\
  (forall i, 0 < i < NPAGES -> page_free st i = true ->
     (forall k, 0 <= k < NPAGES -> k <> i -> page_free st k = false) ->
     copy_pagetable pagetable own st = Ok (NULL, charge i own st)).
Proof. exact (copy_pagetable_short st pagetable own). Qed.

(** X8. free_current_process(p) marks slot p FREE and leaves memory, current
    and ticks alone; afterwards no ledger entry has owner p, entries of
    other owners are as before, and every entry p owned with refcount 1 is
    (FREE, 0). *)
Theorem free_current_process_releases `{KernelConfig} (st : kstate) (p : Z) (pr : proc) :
  config_ok -> ledger_ok st -> proctable_ok st ->
  1 <= p < NPROC -> processes st !! Z.to_nat p = Some pr -> p_pid pr = p ->
  exists st',
    free_current_process p st = Ok (tt, st') /\
    processes st' = <[Z.to_nat p := set_p_state P_FREE pr]> (processes st) /\
    mem st' = mem st /\ current st' = current st /\ ticks st' = ticks st /\
    length (pageinfo st') = length (pageinfo st) /\
    (forall i e', pageinfo st' !! i = Some e' -> owner e' <> p) /\
    (forall i e, pageinfo st !! i = Some e -> owner e <> p -> pageinfo st' !! i = Some e) /\
    (forall i e, pageinfo st !! i = Some e -> owner e = p -> refcount e = 1 ->
       pageinfo st' !! i = Some (mk_pageinfo PO_FREE 0)).
Proof. exact (exit_disowns st p pr). Qed.

(** Page 4 is the only free page of state E. *)
Lemma stateE_only_page_4 (k : Z) : 0 <= k < 512 -> k <> 4 -> @page_free stateE k = false.
Proof.
  intros Hk Hne.
  assert (Hb : (k =? 4) || negb (page_free stateE k) = true).
  { apply (forallb_below (fun k => (k =? 4) || negb (page_free stateE k)) 512);
      [vm_compute; reflexivity | lia]. }
  apply orb_true_iff in Hb. destruct Hb as [Hb | Hb].
  - apply Z.eqb_eq in Hb. contradiction.
  - apply negb_true_iff. exact Hb.
Qed.

Lemma copy_pagetable_failure_witness :
  @copy_pagetable weensy 0x1000 2 stateE = Ok (NULL, charge 4 2 stateE).
Proof.
  apply (@copy_pagetable_failure weensy stateE 0x1000 2 weensy_config_ok);
    [reflexivity | simpl; lia | vm_compute; reflexivity | exact stateE_only_page_4].
Defined.

Lemma find_page_owner_lowest_runnable_witness :
  exists q, @find_page_owner weensy 0x100 stateC = Ok (q, stateC) /\ (q = -1 \/ 1 <= q < 16).
Proof.
  destruct (@find_page_owner_lowest_runnable weensy stateC 0x100 weensy_config_ok)
    as (q & Hq & Hrange & _); [reflexivity|].
  exists q. split; [exact Hq | exact Hrange].
Defined.

Lemma free_current_process_releases_witness :
  exists st',
    @free_current_process weensy 1 stateC = Ok (tt, st') /\
    pageinfo st' !! 0x100%nat = Some (mk_pageinfo PO_FREE 0) /\
    pageinfo st' !! 4%nat = Some (mk_pageinfo 2 1).
Proof.
  destruct (@free_current_process_releases weensy stateC 1 procA weensy_config_ok)
    as (st' & Hf & _ & _ & _ & _ & _ & _ & Hother & Hsole);
    [reflexivity | reflexivity | simpl; lia | reflexivity | reflexivity |].
  exists st'. split; [exact Hf|]. split.
  - apply (Hsole 0x100%nat (mk_pageinfo 1 1)); reflexivity.
  - apply (Hother 4%nat (mk_pageinfo 2 1)); [reflexivity | simpl; lia].
Defined.

Lemma free_current_process_hands_over_witness :
  exists st',
    @free_current_process weensy 1 stateS = Ok (tt, st') /\
    pageinfo st' !! 0x180%nat = Some (mk_pageinfo 2 1).
Proof.
  destruct (@free_current_process_hands_over weensy stateS 1 procA 0x180 (mk_pageinfo 1 2)
              weensy_config_ok)
    as (st' & Hf & Hq & _);
    [ reflexivity | reflexivity | simpl; lia | reflexivity | reflexivity | simpl; lia
    | reflexivity | reflexivity | simpl; lia |].
  exists st'. split; [exact Hf|].
  apply (Hq 2); [simpl; lia | lia | | intros j Hj Hne; lia].
  exists procC2. split; [reflexivity|]. split; [reflexivity|].
  exists 0x101. split; [simpl; lia | vm_compute; reflexivity].
Defined.

(** The pages of state C below page 3 are taken. *)
Lemma stateC_low_pages (j : Z) : 0 <= j < 3 -> @page_free stateC j = false.
Proof.
  intros Hj. apply negb_true_iff.
  apply (forallb_below (fun k => negb (page_free stateC k)) 3); [vm_compute; reflexivity | lia].
Qed.


(** No page of state E is recorded for pid 2. *)
Lemma stateE_nothing_for_2 (k : nat) (e : physical_pageinfo) :
  pageinfo stateE !! k = Some e -> owner e <> 2.
Proof.
  intros He Ho.
  assert (Hb : negb (owner e =? 2) = true).
  { apply (forallb_lookup (fun e => negb (owner e =? 2)) (pageinfo stateE)
             ltac:(vm_compute; reflexivity) k e He). }
  rewrite Ho in Hb. discriminate.
Qed.

(** With one free page left the fork of process 1 of state E fails and
    leaves state E as it is. *)
Lemma fork_process_no_table_pages_witness :
  @page_free stateE 4 = true /\ @fork_process weensy stateE = Ok (-1, stateE).
Proof.
  split; [vm_compute; reflexivity|].
  apply (@fork_process_no_table_pages weensy stateE 2 (mk_proc 2 zero_regs P_FREE 0));
    [ exact weensy_config_ok | reflexivity | reflexivity | simpl; lia | simpl; lia
    | vm_compute; reflexivity
    | intros j Hj; assert (j = 1) as -> by lia; vm_compute; reflexivity
    | reflexivity | reflexivity | exact stateE_nothing_for_2 | ].
  right. intros i j Hi Hj Hfi.
  destruct (Z.eq_dec i 4) as [->|Hne].
  - apply stateE_only_page_4; simpl in Hj; lia.
  - rewrite stateE_only_page_4 in Hfi by (simpl in Hj; lia). discriminate.
Defined.

Lemma ok_inv {A} (r : result (A * kstate)) :
  match r with Ok _ => true | Fault _ => false end = true -> exists a st', r = Ok (a, st').
Proof. destruct r as [[a st']|f]; [|discriminate]. intros _. exists a, st'. reflexivity. Qed.

Lemma virtual_memory_check_preserves_state_witness :
  exists st', @virtual_memory_check weensy stateA = Ok (tt, st') /\ st' = stateA.
Proof.
  destruct (ok_inv (@virtual_memory_check weensy stateA)) as ([] & st' & Hck);
    [vm_compute; reflexivity|].
  exists st'. split; [exact Hck|].
  exact (@virtual_memory_check_preserves_state weensy stateA st' tt Hck).
Defined.

Lemma virtual_memory_check_passes_iff_witness :
  @virtual_memory_check weensy stateA = Ok (tt, stateA) <-> @vm_invariants weensy stateA.
Proof.
  apply (@virtual_memory_check_passes_iff weensy stateA weensy_config_ok); reflexivity.
Defined.

Lemma resumed_inv (o : outcome) :
  match o with Resumed _ => true | _ => false end = true -> exists st', o = Resumed st'.
Proof. destruct o; try discriminate. intros _. eexists. reflexivity. Qed.

Lemma exception_resumes_runnable_witness :
  exists st',
    @exception weensy 16 nokbd (user_regs 0 INT_SYS_YIELD) stateC = Resumed st' /\
    @runnable st' (current st') = true.
Proof.
  destruct (resumed_inv (@exception weensy 16 nokbd (user_regs 0 INT_SYS_YIELD) stateC))
    as (st' & Hex); [vm_compute; reflexivity|].
  exists st'. split; [exact Hex|].
  apply (@exception_resumes_runnable weensy 16 nokbd (user_regs 0 INT_SYS_YIELD) stateC st' Hex).
Defined.




Lemma exception_panics_witness :
  @exception weensy 16 nokbd (fault_regs 2) stateA = Halted Panic /\
  @exception weensy 16 nokbd (user_regs 0 (INT_OTHER 13)) stateA = Halted Panic.
Proof.
  split.
  - apply (@exception_panics weensy 16 nokbd (fault_regs 2) stateA procA);
      [ exact weensy_config_ok | reflexivity | reflexivity | simpl; lia | reflexivity
      | exact stateA_invariants | reflexivity | ].
    right; right. split; reflexivity.
  - apply (@exception_panics weensy 16 nokbd (user_regs 0 (INT_OTHER 13)) stateA procA);
      [ exact weensy_config_ok | reflexivity | reflexivity | simpl; lia | reflexivity
      | exact stateA_invariants | reflexivity | ].
    right; left. exists 13. reflexivity.
Defined.



Lemma pageinfo_init_ledger_witness :
  exists st',
    @pageinfo_init weensy weensy_boot stateB = Ok (tt, st') /\
    @page_free st' 0x100 = true /\ @page_free st' 0x40 = false.
Proof.
  destruct (@pageinfo_init_ledger weensy weensy_boot stateB weensy_config_ok)
    as (st' & Hinit & _ & _ & _ & _ & _ & Hent); [reflexivity|].
  exists st'. split; [exact Hinit|]. split.
  - destruct (Hent 0x100) as (e & _ & _ & _ & _ & Hfree); [simpl; lia|].
    apply Hfree. vm_compute.
    repeat split; first [reflexivity | intros [_ Hk]; discriminate | discriminate].
  - destruct (Hent 0x40) as (e & _ & _ & _ & _ & Hfree); [simpl; lia|].
    apply not_true_is_false. intros Hpf.
    apply Hfree in Hpf. destruct Hpf as (_ & Hk & _). apply Hk.
    vm_compute. split; [discriminate | reflexivity].
Defined.

Lemma alloc_free_page_keeps_invariants_witness :
  exists a st', @alloc_free_page weensy 1 stateA = Ok (a, st') /\ @vm_invariants weensy st'.
Proof.
  pose proof (@alloc_free_page_at weensy stateA 1 4 weensy_config_ok) as Ha.
  specialize (Ha ltac:(reflexivity) ltac:(simpl; lia) ltac:(vm_compute; reflexivity)
                 stateA_low_pages).
  eexists _, _. split; [exact Ha|].
  apply (@alloc_free_page_keeps_invariants weensy stateA (charge 4 1 stateA) 1
           (PAGEADDRESS 4) weensy_config_ok);
    [ reflexivity | exact stateA_invariants | | exact Ha ].
  intros _. split; [simpl; lia|]. exists procA. split; [reflexivity | discriminate].
Defined.

Lemma free_current_process_keeps_invariants_witness :
  exists st', @free_current_process weensy 1 stateC = Ok (tt, st') /\ @vm_invariants weensy st'.
Proof.
  apply (@free_current_process_keeps_invariants weensy stateC 1 procA);
    [ exact weensy_config_ok | reflexivity | reflexivity | simpl; lia | reflexivity
    | reflexivity | vm_compute; discriminate | exact stateC_invariants ].
Defined.

Lemma byte_of_range (v k : Z) : 0 <= byte_of v k < 256.
Proof.
  unfold byte_of. change 255 with (Z.ones 8). rewrite Z.land_ones by lia.
  apply Z.mod_pos_bound. lia.
Qed.

Lemma bytes_ok_table_at (base : Z) (entry : Z -> Z) (m : memory) :
  bytes_ok m -> bytes_ok (table_at base entry m).
Proof.
  intros Hm a. unfold table_at.
  destruct ((base <=? a) && (a <? base + PAGESIZE)); [apply byte_of_range | apply Hm].
Qed.

Lemma bytes_ok_kernel_mem : bytes_ok kernel_mem.
Proof. unfold kernel_mem. repeat apply bytes_ok_table_at. intros a. lia. Qed.

(** A byte range inside a page that is taken lies outside the free pages. *)
Lemma outside_free_taken `{KernelConfig} (st : kstate) (pn a n : Z) :
  config_ok -> 0 <= pn < NPAGES -> page_free st pn = false ->
  pn * PAGESIZE <= a -> a + n <= (pn + 1) * PAGESIZE ->
  outside_free st a n.
Proof.
  intros [Hnp _] Hpn Htaken Hlo Hhi k Hk Hfree.
  assert (Hne : k <> pn) by (intros ->; rewrite Htaken in Hfree; discriminate).
  rewrite PAGEADDRESS_small by lia. unfold PAGESIZE in *. lia.
Qed.

Lemma private_pages_owned_test `{KernelConfig} (st : kstate) (ppt : Z) :
  forallb (private_page_owned st ppt) (seq 0 private_pages) = true ->
  private_pages_owned st ppt.
Proof.
  intros Hall k Hk. cbv zeta. intros Hperm.
  rewrite forallb_forall in Hall.
  specialize (Hall k ltac:(apply in_seq; lia)). unfold private_page_owned in Hall.
  apply orb_true_iff in Hall. destruct Hall as [H0 | Hall].
  { apply Z.eqb_eq in H0. contradiction. }
  apply andb_true_iff in Hall. destruct Hall as (Hpn & He).
  apply Z.leb_le in Hpn. split; [exact Hpn|].
  destruct (pageinfo st !! Z.to_nat _) as [e|]; [|discriminate].
  exists e. split; [reflexivity|]. apply negb_true_iff in He. apply Z.eqb_neq. exact He.
Qed.

